(** * Scoring engine and data loading of the factory dashboard

    A shallow embedding of [models/decision_engine.py],
    [models/maintenance_models.py], [models/demand_forecasting.py] and
    [utils/data_processing.py], followed by the properties the
    specification states about them.

    Conventions of the embedding.
    - Numbers.  Python [int]s and numpy integers are exact.  A [float] is
      modelled as an exact rational extended with the three special values
      of IEEE arithmetic ([num]); rounding, overflow and the sign of zero
      are not modelled.  Numeric cells of a dataframe hold finite values
      ([Q]); the special values only arise from a division by zero or from
      a square root of a negative number.
    - Exceptions.  Code that can raise returns a [result].
    - Randomness.  [np.random] is a global generator: its state is threaded
      explicitly through every function that draws from it.
    - Time.  [datetime.now()] is an explicit argument; a date is a day
      number (days since 1970-01-01) of unbounded range. *)

From Stdlib Require Import ZArith QArith Qround Lqa Lia List String Bool Sorted.
From Stdlib Require DecimalString.
Import ListNotations.

Local Open Scope Z_scope.

(* ================================================================== *)
(** * Numbers *)
(* ================================================================== *)

Module Num.

(** A float: a finite value, or one of [inf], [-inf], [nan]. *)
Inductive num : Type :=
| Fin (q : Q)
| PInf
| NInf
| NaN.

Definition of_Z (z : Z) : num := Fin (inject_Z z).
Definition of_nat (n : nat) : num := of_Z (Z.of_nat n).

Definition Qltb (a b : Q) : bool :=
  match Qcompare a b with Lt => true | _ => false end.

Definition opp (x : num) : num :=
  match x with
  | Fin q => Fin (- q)
  | PInf => NInf
  | NInf => PInf
  | NaN => NaN
  end.

Definition add (x y : num) : num :=
  match x, y with
  | NaN, _ | _, NaN => NaN
  | Fin a, Fin b => Fin (a + b)
  | PInf, NInf | NInf, PInf => NaN
  | PInf, _ | _, PInf => PInf
  | NInf, _ | _, NInf => NInf
  end.

Definition sub (x y : num) : num := add x (opp y).

(** The infinity whose sign is the sign of [a] times [s]; [nan] for
    [0 * inf]. *)
Definition scaled_inf (a : Q) (s : bool) : num :=
  match Qcompare a 0 with
  | Eq => NaN
  | Gt => if s then PInf else NInf
  | Lt => if s then NInf else PInf
  end.

Definition mul (x y : num) : num :=
  match x, y with
  | NaN, _ | _, NaN => NaN
  | Fin a, Fin b => Fin (a * b)
  | Fin a, PInf | PInf, Fin a => scaled_inf a true
  | Fin a, NInf | NInf, Fin a => scaled_inf a false
  | PInf, PInf | NInf, NInf => PInf
  | PInf, NInf | NInf, PInf => NInf
  end.

(** True division of numpy scalars: a zero divisor gives [inf] or [nan]
    (and a RuntimeWarning), never an exception. *)
Definition div (x y : num) : num :=
  match x, y with
  | NaN, _ | _, NaN => NaN
  | Fin a, Fin b => if Qeq_bool b 0 then scaled_inf a true else Fin (a / b)
  | Fin _, PInf | Fin _, NInf => Fin 0
  | PInf, Fin b => if Qltb b 0 then NInf else PInf
  | NInf, Fin b => if Qltb b 0 then PInf else NInf
  | PInf, PInf | PInf, NInf | NInf, PInf | NInf, NInf => NaN
  end.

(** The divisor of a division is zero. *)
Definition is_zero (x : num) : bool :=
  match x with Fin q => Qeq_bool q 0 | _ => false end.

Definition is_finite (x : num) : bool :=
  match x with Fin _ => true | _ => false end.

(** Comparisons; every comparison with [nan] is false. *)
Definition ltb (x y : num) : bool :=
  match x, y with
  | NaN, _ | _, NaN => false
  | Fin a, Fin b => Qltb a b
  | NInf, NInf | PInf, _ | _, NInf => false
  | NInf, _ | _, PInf => true
  end.

Definition leb (x y : num) : bool :=
  match x, y with
  | NaN, _ | _, NaN => false
  | Fin a, Fin b => Qle_bool a b
  | NInf, _ | _, PInf => true
  | PInf, _ | _, NInf => false
  end.

Definition gtb (x y : num) : bool := ltb y x.
Definition geb (x y : num) : bool := leb y x.

Definition le (x y : num) : Prop := leb x y = true.
Definition lt (x y : num) : Prop := ltb x y = true.

(** Python's builtin [max(a, b)]: [b] when [b > a], otherwise [a]. *)
Definition py_max (a b : num) : num := if gtb b a then b else a.

(** Python's builtin [min(a, b)]: [b] when [b < a], otherwise [a]. *)
Definition py_min (a b : num) : num := if ltb b a then b else a.

Definition sum (l : list num) : num := fold_left add l (of_Z 0).

End Num.

Export Num.

Declare Scope num_scope.
Delimit Scope num_scope with num.
Bind Scope num_scope with num.
Infix "+" := Num.add : num_scope.
Infix "-" := Num.sub : num_scope.
Infix "*" := Num.mul : num_scope.
Infix "/" := Num.div : num_scope.
Infix "<?" := Num.ltb : num_scope.
Infix "<=?" := Num.leb : num_scope.
Infix ">?" := Num.gtb : num_scope.
Infix ">=?" := Num.geb : num_scope.
Infix "<=" := Num.le : num_scope.
Infix "<" := Num.lt : num_scope.

(** A decimal literal [n / d] as a number. *)
Definition dec (n : Z) (d : positive) : num := Fin (n # d).

(* ================================================================== *)
(** * Exceptions, the random generator and the monad of effectful code *)
(* ================================================================== *)

Module Py.

(** The exceptions the modelled code can meet. *)
Inductive exn : Type :=
| FileNotFoundError
| ZeroDivisionError
| ValueError
| OverflowError
| OtherError (name : string).

Inductive result (A : Type) : Type :=
| Ok (a : A)
| Raise (e : exn).
Arguments Ok {A} a.
Arguments Raise {A} e.

Definition exn_eqb (e1 e2 : exn) : bool :=
  match e1, e2 with
  | FileNotFoundError, FileNotFoundError
  | ZeroDivisionError, ZeroDivisionError
  | ValueError, ValueError
  | OverflowError, OverflowError => true
  | OtherError a, OtherError b => String.eqb a b
  | _, _ => false
  end.

(** The state of [np.random]: the raw values the generator will deliver
    and how many of them were consumed. *)
Record rng : Type := mk_rng { stream : nat -> Z; pos : nat }.

(** A computation that draws random numbers and may raise. *)
Definition M (A : Type) : Type := rng -> result A * rng.

Definition ret {A} (a : A) : M A := fun s => (Ok a, s).

Definition bind {A B} (c : M A) (k : A -> M B) : M B :=
  fun s =>
    match c s with
    | (Ok a, s') => k a s'
    | (Raise e, s') => (Raise e, s')
    end.

Definition raise {A} (e : exn) : M A := fun s => (Raise e, s).

Definition lift {A} (r : result A) : M A := fun s => (r, s).

(** [try: c  except e: h]. *)
Definition try_except {A} (c : M A) (e : exn) (h : M A) : M A :=
  fun s =>
    match c s with
    | (Ok a, s') => (Ok a, s')
    | (Raise e', s') => if exn_eqb e' e then h s' else (Raise e', s')
    end.

(** A [for] loop that appends one element per iteration. *)
Fixpoint for_each {A B} (f : A -> M B) (l : list A) : M (list B) :=
  match l with
  | [] => ret []
  | x :: l' =>
      bind (f x) (fun y => bind (for_each f l') (fun ys => ret (y :: ys)))
  end.

(** The state after one raw value was consumed. *)
Definition advance (s : rng) : rng := mk_rng (stream s) (S (pos s)).

(** [c] always returns, consumes exactly [k] raw values whatever it
    returns, and its result satisfies [P]. *)
Definition draws {A} (k : nat) (P : A -> Prop) (c : M A) : Prop :=
  forall s, exists a,
    c s = (Ok a, mk_rng (stream s) (pos s + k)) /\ P a.

(** The next raw value of the generator. *)
Definition next_raw : M Z :=
  fun s => (Ok (stream s (pos s)), advance s).

Definition two53 : Z := 2 ^ 53.

(** [random_sample()]: a 53-bit fraction in [[0, 1)]. *)
Definition random_sample : M Q :=
  bind next_raw (fun r => ret (Qmake (r mod two53) (Z.to_pos two53))).

(** [np.random.uniform(low, high)]: [low + (high - low) * random_sample()],
    computed here without rounding, so that the result stays below
    [high]; the sum the code rounds to a double can be [high] itself. *)
Definition uniform (low high : Q) : M num :=
  bind random_sample (fun u => ret (Fin (low + (high - low) * u)%Q)).

(** [np.random.randint(low, high)]: an integer in [[low, high)].  One raw
    value is taken per draw; numpy may take more, a number that depends on
    the stream and on the bounds only. *)
Definition randint (low high : Z) : M Z :=
  if high <=? low then raise ValueError
  else bind next_raw (fun r => ret (low + r mod (high - low))).

(** [np.random.randint(low, high, size)]. *)
Definition randint_array (low high : Z) (size : nat) : M (list Z) :=
  for_each (fun _ => randint low high) (seq 0 size).

(** [np.random.uniform(low, high, size)]. *)
Definition uniform_array (low high : Q) (size : nat) : M (list num) :=
  for_each (fun _ => uniform low high) (seq 0 size).

(** True division of Python scalars: a zero divisor raises. *)
Definition true_div (x y : num) : result num :=
  if Num.is_zero y then Raise ZeroDivisionError else Ok (x / y)%num.

(** [int(x)]: truncation toward zero. *)
Definition py_int (x : num) : result Z :=
  match x with
  | Fin q => Ok (Z.quot (Qnum q) (Zpos (Qden q)))
  | PInf | NInf => Raise OverflowError
  | NaN => Raise ValueError
  end.

(** The largest number of days of a [timedelta]. *)
Definition timedelta_max_days : Z := 999999999.

(** [timedelta(days=x)]: a finite number of days of a magnitude of at
    most 999999999; beyond it the constructor raises [OverflowError]. *)
Definition timedelta_days (x : num) : result Q :=
  match x with
  | Fin q =>
      if Qltb (inject_Z timedelta_max_days) q
         || Qltb q (inject_Z (- timedelta_max_days))
      then Raise OverflowError
      else Ok q
  | PInf | NInf => Raise OverflowError
  | NaN => Raise ValueError
  end.

End Py.

Export Py.

Notation "x <- c ;; k" := (bind c (fun x => k))
  (at level 61, c at next level, right associativity).
Notation "' pat <- c ;; k" := (bind c (fun x => match x with pat => k end))
  (at level 61, pat pattern, c at next level, right associativity).

(* ================================================================== *)
(** * Dataframes *)
(* ================================================================== *)

Module Frames.

(** A column added to a frame at run time. *)
Definition extra_columns : Type := list (string * list num).

(** A dataframe with a known schema: its rows, in index order, and the
    columns assigned to it beyond the schema. *)
Record DataFrame (R : Type) : Type := mk_frame {
  rows : list R;
  extra : extra_columns
}.
Arguments mk_frame {R} rows extra.
Arguments rows {R} d.
Arguments extra {R} d.

Definition frame_of {R} (l : list R) : DataFrame R := mk_frame l [].

(** [len(df)]. *)
Definition len {R} (df : DataFrame R) : nat := List.length (rows df).

(** [df[mask]]: the rows selected by a boolean mask; the result is a new
    frame. *)
Definition select {R} (mask : R -> bool) (df : DataFrame R) : DataFrame R :=
  mk_frame (filter mask (rows df))
           (map (fun c => (fst c, map snd (filter (fun p => mask (fst p))
                                             (combine (rows df) (snd c)))))
                (extra df)).

(** [df.head(n)]. *)
Definition head {R} (n : nat) (df : DataFrame R) : DataFrame R :=
  mk_frame (firstn n (rows df))
           (map (fun c => (fst c, firstn n (snd c))) (extra df)).

(** [(mask).sum()]: the number of rows for which the mask holds. *)
Definition count_rows {R} (mask : R -> bool) (df : DataFrame R) : nat :=
  List.length (filter mask (rows df)).

(** [df[name] = values] for a column outside the schema: replaces the
    column when it exists, appends it otherwise. *)
Fixpoint set_extra (name : string) (values : list num) (cols : extra_columns)
  : extra_columns :=
  match cols with
  | [] => [(name, values)]
  | (n, v) :: cols' =>
      if String.eqb n name then (n, values) :: cols'
      else (n, v) :: set_extra name values cols'
  end.

Definition assign_column {R} (name : string) (values : list num)
  (df : DataFrame R) : DataFrame R :=
  mk_frame (rows df) (set_extra name values (extra df)).

Definition get_extra (name : string) (cols : extra_columns)
  : option (list num) :=
  option_map snd (find (fun c => String.eqb (fst c) name) cols).

(** Rows of the machinery frame. *)
Record machine_row : Type := mk_machine {
  machine_id : Z;
  machine_name : string;
  temperature : Q;
  vibration : Q;
  operational_hours : Q;
  last_maintenance : Z
}.

(** Rows of the inventory frame. *)
Record inventory_row : Type := mk_product {
  product_id : Z;
  product_name : string;
  current_stock : Q;
  safety_stock : Q;
  lead_time_days : Q;
  unit_cost : Q
}.

(** Rows of the operations frame. *)
Record operations_row : Type := mk_area {
  area : string;
  utilization : Q;
  productivity_score : Q;
  downtime_hours : Q;
  efficiency_rate : Q;
  throughput : Q
}.

(** Rows of the demand history. *)
Record demand_row : Type := mk_demand {
  date : Z;
  demand_product_id : Z;
  demand : Q
}.

(** A frame whose schema is not known beforehand, as [pd.read_csv] and
    [pd.DataFrame] produce it: named columns, in order. *)
Inductive column : Type :=
| IntCol (l : list Z)
| FloatCol (l : list num)
| StrCol (l : list string)
| DateCol (l : list Z).

Definition table : Type := list (string * column).

Definition column_length (c : column) : nat :=
  match c with
  | IntCol l => List.length l
  | FloatCol l => List.length l
  | StrCol l => List.length l
  | DateCol l => List.length l
  end.

(** [name in df.columns]. *)
Definition has_column (name : string) (df : table) : bool :=
  existsb (fun c => String.eqb (fst c) name) df.

(** [df[name]] on a frame that has the column. *)
Definition get_column (name : string) (df : table) : option column :=
  option_map snd (find (fun c => String.eqb (fst c) name) df).

(** [df[name] = c]. *)
Fixpoint set_column (name : string) (c : column) (df : table) : table :=
  match df with
  | [] => [(name, c)]
  | (n, v) :: df' =>
      if String.eqb n name then (n, c) :: df'
      else (n, v) :: set_column name c df'
  end.

(** [pd.DataFrame({...})]: the columns must have one length. *)
Definition DataFrame_of_dict (cols : list (string * column)) : result table :=
  match cols with
  | [] => Ok []
  | (_, c) :: rest =>
      if forallb (fun p => Nat.eqb (column_length (snd p)) (column_length c)) rest
      then Ok cols
      else Raise ValueError
  end.

End Frames.

Export Frames.

(* ================================================================== *)
(** * Library routines *)
(* ================================================================== *)

(** The numerical routines of numpy, pandas and Python the code calls and
    whose algorithms are outside the repository.  The development is
    parametric in them. *)
Class Library : Type := {
  (** [np.sqrt] on a finite non-negative value *)
  sqrt_fin : Q -> Q;
  (** [np.sin] and [np.pi] *)
  np_sin : Q -> Q;
  np_pi : Q;
  (** [np.polyfit(x, y, 1)[0]], the slope of the line fitted through two
      points or more; [np_polyfit_slope] adds what happens with fewer *)
  polyfit_slope : list num -> list num -> num;
  (** the standard normal deviate built from a raw value *)
  standard_normal : Z -> Q;
  (** the Poisson deviate of mean [lam] built from a raw value *)
  poisson_deviate : Q -> Z -> Z;
  (** the raw values delivered after [np.random.seed(seed)] *)
  seed_stream : Z -> nat -> Z;
  (** [format(value, spec)], as used by f-strings *)
  py_format : string -> num -> string;
  (** [pd.to_datetime] on a column; it raises on text it cannot parse *)
  to_datetime : column -> result column
}.

(** What the proofs need to know of [np.sqrt]. *)
Definition sqrt_nonneg (L : Library) : Prop :=
  forall q : Q, (0 <= q)%Q -> (0 <= sqrt_fin q)%Q.

Section library_routines.

Context {L : Library}.

(** [np.sqrt]: [nan] on a negative value. *)
Definition np_sqrt (x : num) : num :=
  match x with
  | Fin q => if Qltb q 0 then NaN else Fin (sqrt_fin q)
  | PInf => PInf
  | NInf | NaN => NaN
  end.

(** [np.random.seed(seed)]. *)
Definition np_random_seed (seed : Z) : M unit :=
  fun _ => (Ok tt, mk_rng (seed_stream seed) 0).

(** [np.random.normal(loc, scale)]. *)
Definition normal (loc scale : Q) : M num :=
  r <- next_raw ;; ret (Fin (loc + scale * standard_normal r)%Q).

(** [np.random.poisson(lam, size)]. *)
Definition poisson_array (lam : Q) (size : nat) : M (list Z) :=
  for_each (fun _ => r <- next_raw ;; ret (poisson_deviate lam r)) (seq 0 size).

(** [np.mean] of an array: the sum over the length. *)
Definition np_mean (l : list num) : num :=
  (Num.sum l / of_nat (List.length l))%num.

(** [np.std] of an array (population standard deviation). *)
Definition np_std (l : list num) : num :=
  let m := np_mean l in
  np_sqrt (np_mean (map (fun x => ((x - m) * (x - m))%num) l)).

End library_routines.

(* ================================================================== *)
(** * Dates *)
(* ================================================================== *)

Module Dates.

(** [date.dayofweek]: Monday is 0; day 0 (1970-01-01) is a Thursday. *)
Definition dayofweek (d : Z) : Z := (d + 3) mod 7.

(** [date.day]: the day of the month of a day number (proleptic
    Gregorian calendar). *)
Definition day_of_month (d : Z) : Z :=
  let z := d + 719468 in
  let era := z / 146097 in
  let doe := z - era * 146097 in
  let yoe := (doe - doe / 1460 + doe / 36524 - doe / 146096) / 365 in
  let doy := doe - (365 * yoe + yoe / 4 - yoe / 100) in
  let mp := (5 * doy + 2) / 153 in
  doy - (153 * mp + 2) / 5 + 1.

(** [pd.date_range(end=e, periods=n, freq='<step>D')]. *)
Definition date_range_end (e : Z) (periods : nat) (step : Z) : list Z :=
  map (fun i => e - step * Z.of_nat (periods - 1 - i)) (seq 0 periods).

(** The days a [datetime] can hold: 0001-01-01 to 9999-12-31, as day
    numbers. *)
Definition datetime_min_day : Z := -719162.
Definition datetime_max_day : Z := 2932896.

(** [dt + delta] for the [datetime] of day [d] and a [timedelta] of
    [delta] days: [OverflowError] when the sum is not a date of the
    type. *)
Definition datetime_add (d : Z) (delta : Q) : result Q :=
  let sum := (inject_Z d + delta)%Q in
  if Qle_bool (inject_Z datetime_min_day) sum
     && Qltb sum (inject_Z (datetime_max_day + 1))
  then Ok sum
  else Raise OverflowError.

(** The days pandas can hold as a [Timestamp] at midnight are 1677-09-22
    to 2262-04-11, the day numbers of a magnitude of at most 106751; the
    spans a [Timedelta] can hold have the same bound. *)
Definition timestamp_max_day : Z := 106751.

Definition in_timestamp_range (d : Z) : bool :=
  (- timestamp_max_day <=? d) && (d <=? timestamp_max_day).

(** [ts + timedelta(days=n)] for a [Timestamp] [ts]: the constructor of
    the [timedelta] raises [OverflowError], its conversion to a
    [Timedelta] [OutOfBoundsTimedelta], the sum [OutOfBoundsDatetime]. *)
Definition timestamp_add (ts n : Z) : result Z :=
  if timedelta_max_days <? Z.abs n then Raise OverflowError
  else if timestamp_max_day <? Z.abs n
  then Raise (OtherError "OutOfBoundsTimedelta"%string)
  else if in_timestamp_range (ts + n) then Ok (ts + n)
  else Raise (OtherError "OutOfBoundsDatetime"%string).

(** The dates of a [DatetimeIndex]: each of them has to be a
    [Timestamp]. *)
Definition checked_dates (l : list Z) : result (list Z) :=
  if forallb in_timestamp_range l then Ok l
  else Raise (OtherError "OutOfBoundsDatetime"%string).

(** [pd.date_range(start=b, periods=n, freq='D')]; a negative number of
    periods is an error, and so is a range that leaves the days of a
    [Timestamp]. *)
Definition date_range_start (b : Z) (periods : Z) : result (list Z) :=
  if periods <? 0 then Raise ValueError
  else if (periods =? 0)
          || in_timestamp_range b && in_timestamp_range (b + periods - 1)
  then Ok (map (fun i => b + Z.of_nat i) (seq 0 (Z.to_nat periods)))
  else Raise (OtherError "OutOfBoundsDatetime"%string).

End Dates.

Export Dates.

(* ================================================================== *)
(** * models/maintenance_models.py *)
(* ================================================================== *)

Module maintenance_models.

Inductive risk_level_t : Type := High | Medium | Low.

Record failure_prediction : Type := mk_failure_prediction {
  failure_probability : num;
  risk_level : risk_level_t;
  feature_importance : list num;
  temperature_risk : num;
  vibration_risk : num;
  hours_risk : num
}.

(** [predict_failure(machine)].  The row comes from [.iloc[0]], so its
    values are numpy scalars and no division raises. *)
Definition predict_failure (machine : machine_row) : M failure_prediction :=
  let temperature := Fin (temperature machine) in
  let vibration := Fin (vibration machine) in
  let operational_hours := Fin (operational_hours machine) in
  let temp_normalized := ((temperature - of_Z 60) / of_Z 40)%num in
  let vibration_normalized := (vibration / of_Z 5)%num in
  let hours_normalized := (operational_hours / of_Z 10000)%num in
  let temp_vib_ratio := (temperature / (vibration + of_Z 1))%num in
  let temp_risk :=
    py_max (of_Z 0) (py_min (of_Z 1) ((temperature - of_Z 60) / of_Z 40)%num) in
  let vib_risk := py_max (of_Z 0) (py_min (of_Z 1) (vibration / of_Z 5)%num) in
  let hours_risk :=
    py_max (of_Z 0) (py_min (of_Z 1) (operational_hours / of_Z 10000)%num) in
  let failure_probability :=
    (temp_risk * dec 45 100 + vib_risk * dec 35 100 + hours_risk * dec 20 100)%num in
  noise <- uniform (-1 # 10) (1 # 10) ;;
  let failure_probability := py_min (of_Z 1) (failure_probability + noise)%num in
  let failure_probability := py_max (of_Z 0) failure_probability in
  let risk_level :=
    if (failure_probability >? dec 6 10)%num then High
    else if (failure_probability >? dec 3 10)%num then Medium
    else Low in
  let feature_importance := [dec 45 100; dec 35 100; dec 20 100] in
  ret {| failure_probability := failure_probability;
         risk_level := risk_level;
         feature_importance := feature_importance;
         temperature_risk := temp_risk;
         vibration_risk := vib_risk;
         hours_risk := hours_risk |}.

Record rul_estimate : Type := mk_rul_estimate {
  rul_hours : num;
  rul_days : num;
  confidence : num;
  maintenance_date : Q;
  temp_factor : num;
  vib_factor : num
}.

(** [estimate_rul(machine)]; [now] is [datetime.now()]. *)
Definition estimate_rul (now : Z) (machine : machine_row) : M rul_estimate :=
  let max_operational_hours := of_Z 10000 in
  let current_hours := Fin (operational_hours machine) in
  let base_rul_hours := (max_operational_hours - current_hours)%num in
  let temperature := Fin (temperature machine) in
  let vibration := Fin (vibration machine) in
  let temp_factor :=
    if (temperature >? of_Z 90)%num then dec 5 10
    else if (temperature >? of_Z 85)%num then dec 7 10
    else if (temperature >? of_Z 80)%num then dec 85 100
    else of_Z 1 in
  let vib_factor :=
    if (vibration >? of_Z 4)%num then dec 6 10
    else if (vibration >? dec 35 10)%num then dec 75 100
    else if (vibration >? of_Z 3)%num then dec 9 10
    else of_Z 1 in
  let adjusted_rul_hours := (base_rul_hours * temp_factor * vib_factor)%num in
  let adjusted_rul_hours := py_max (of_Z 24) adjusted_rul_hours in
  let rul_days := (adjusted_rul_hours / of_Z 24)%num in
  noise <- uniform (-1 # 10) (1 # 10) ;;
  let confidence := (dec 85 100 + noise)%num in
  let confidence := py_max (dec 7 10) (py_min (dec 95 100) confidence) in
  delta <- lift (timedelta_days rul_days) ;;
  maintenance_date <- lift (datetime_add now delta) ;;
  ret {| rul_hours := adjusted_rul_hours;
         rul_days := rul_days;
         confidence := confidence;
         maintenance_date := maintenance_date;
         temp_factor := temp_factor;
         vib_factor := vib_factor |}.

Record anomaly : Type := mk_anomaly {
  is_anomaly : bool;
  anomaly_score : num;
  temp_anomaly : bool;
  vib_anomaly : bool;
  detection_method : string
}.

(** [detect_anomalies(machine)]. *)
Definition detect_anomalies (machine : machine_row) : anomaly :=
  let temperature := Fin (temperature machine) in
  let vibration := Fin (vibration machine) in
  let operational_hours := Fin (operational_hours machine) in
  let temp_normal_range := (of_Z 65, of_Z 85) in
  let vib_normal_range := (dec 5 10, dec 35 10) in
  let temp_anomaly :=
    (temperature <? fst temp_normal_range)%num
    || (temperature >? snd temp_normal_range)%num in
  let vib_anomaly :=
    (vibration <? fst vib_normal_range)%num
    || (vibration >? snd vib_normal_range)%num in
  let temp_score :=
    if (temperature >? snd temp_normal_range)%num
    then ((temperature - snd temp_normal_range) / of_Z 20)%num
    else if (temperature <? fst temp_normal_range)%num
    then ((fst temp_normal_range - temperature) / of_Z 20)%num
    else of_Z 0 in
  let vib_score :=
    if (vibration >? snd vib_normal_range)%num
    then ((vibration - snd vib_normal_range) / of_Z 2)%num
    else if (vibration <? fst vib_normal_range)%num
    then ((fst vib_normal_range - vibration) / of_Z 2)%num
    else of_Z 0 in
  let anomaly_score := py_max temp_score vib_score in
  let anomaly_score := py_min (of_Z 1) anomaly_score in
  let is_anomaly := temp_anomaly || vib_anomaly in
  {| is_anomaly := is_anomaly;
     anomaly_score := anomaly_score;
     temp_anomaly := temp_anomaly;
     vib_anomaly := vib_anomaly;
     detection_method := "Isolation Forest (Simulated)" |}.

End maintenance_models.

(* ================================================================== *)
(** * models/decision_engine.py *)
(* ================================================================== *)

Module decision_engine.

Section with_library.

Context {L : Library}.

(** The locals of [calculate_risk_score], in the order of the source.
    The counts are numpy integers and the quotients numpy divisions. *)
Definition temp_risk (machine_data : DataFrame machine_row) : num :=
  (of_nat (count_rows (fun m => (Fin (temperature m) >? of_Z 85)%num) machine_data)
   / of_nat (len machine_data))%num.

Definition vib_risk (machine_data : DataFrame machine_row) : num :=
  (of_nat (count_rows (fun m => (Fin (vibration m) >? dec 35 10)%num) machine_data)
   / of_nat (len machine_data))%num.

Definition machine_risk (machine_data : DataFrame machine_row) : num :=
  ((temp_risk machine_data + vib_risk machine_data) / of_Z 2 * of_Z 50)%num.

Definition low_stock_risk (inventory_data : DataFrame inventory_row) : num :=
  of_nat (count_rows
            (fun p => (Fin (current_stock p) <? Fin (safety_stock p))%num)
            inventory_data).

Definition inventory_risk (inventory_data : DataFrame inventory_row) : num :=
  (low_stock_risk inventory_data / of_nat (len inventory_data) * of_Z 30)%num.

(** [calculate_risk_score(machine_data, inventory_data)]. *)
Definition calculate_risk_score (machine_data : DataFrame machine_row)
  (inventory_data : DataFrame inventory_row) : M num :=
  let machine_risk := machine_risk machine_data in
  let inventory_risk := inventory_risk inventory_data in
  operational_risk <- uniform 5 15 ;;
  let total_risk := (machine_risk + inventory_risk + operational_risk)%num in
  ret (py_min (of_Z 100) total_risk).

Record recommendation : Type := mk_recommendation {
  priority : Z;
  category : string;
  action : string;
  reason : string;
  impact : string;
  timeline : string;
  ai_methods : string
}.

Local Open Scope string_scope.

Definition fmt_int (z : Z) : string := py_format "" (of_Z z).

(** Body of the loop over the critical machines.  The rows come from
    [iterrows()]: their values are Python scalars. *)
Definition critical_machine_recommendation (machine : machine_row)
  : M recommendation :=
  let temperature := Fin (temperature machine) in
  let vibration := Fin (vibration machine) in
  a <- lift (true_div (temperature - of_Z 60)%num (of_Z 40)) ;;
  b <- lift (true_div vibration (of_Z 5)) ;;
  let failure_prob := py_min (of_Z 100) (a * of_Z 100 + b * of_Z 30)%num in
  downtime_hours <- randint 8 18 ;;
  cost_per_hour <- randint 400 800 ;;
  let potential_loss := (downtime_hours * cost_per_hour)%Z in
  ret {| priority := 1;
         category := "Predictive Maintenance";
         action := "Schedule emergency maintenance for " ++ machine_name machine;
         reason := "Critical temperature level (" ++ py_format ".1f" temperature
                   ++ "°C) detected. Failure probability: "
                   ++ py_format ".0f" failure_prob
                   ++ "%. Vibration exceeds safe threshold ("
                   ++ py_format ".2f" vibration ++ " mm/s).";
         impact := "Prevent unplanned downtime of " ++ fmt_int downtime_hours
                   ++ " hours. Estimated cost avoidance: "
                   ++ py_format "," (of_Z potential_loss)
                   ++ " JOD. Maintain production continuity.";
         timeline := "Within 24-48 hours (CRITICAL)";
         ai_methods := "Random Forest Classification, Anomaly Detection (Isolation Forest), Remaining Useful Life Estimation, Feature Importance Analysis" |}.

(** Body of the loop over the low-stock products. *)
Definition low_stock_recommendation (product : inventory_row)
  : M recommendation :=
  let current_stock := Fin (current_stock product) in
  let safety_stock := Fin (safety_stock product) in
  days_until_stockout <- randint 2 7 ;;
  demand_per_day <- randint 8 15 ;;
  let lost_sales :=
    (of_Z (days_until_stockout * demand_per_day) * Fin (unit_cost product))%num in
  reorder_qty <- lift (py_int (safety_stock * of_Z 2 - current_stock)%num) ;;
  q <- lift (true_div (of_Z reorder_qty - current_stock)%num current_stock) ;;
  let increase_pct := (q * of_Z 100)%num in
  ret {| priority := 2;
         category := "Inventory Management";
         action := "Emergency reorder for " ++ product_name product;
         reason := "Current stock (" ++ py_format "" current_stock
                   ++ " units) below safety level ("
                   ++ py_format "" safety_stock
                   ++ " units). Predicted stockout in "
                   ++ fmt_int days_until_stockout
                   ++ " days based on demand forecast.";
         impact := "Prevent lost sales of " ++ py_format ",.0f" lost_sales
                   ++ " JOD. Maintain "
                   ++ fmt_int (if (days_until_stockout <? 4)%Z then 98 else 95)
                   ++ "% service level. Avoid customer dissatisfaction and backorders.";
         timeline := "Immediate - Order " ++ fmt_int reorder_qty
                     ++ " units within 24 hours";
         ai_methods := "ARIMA Time Series Forecasting, Prophet Demand Prediction, Safety Stock Optimization, Economic Order Quantity (EOQ) Calculation" |}.

(** Body of the loop over the medium-risk machines. *)
Definition medium_risk_recommendation (machine : machine_row)
  : M recommendation :=
  r <- randint 5 12 ;;
  let rul_days := Z.max 3 r in
  ret {| priority := 2;
         category := "Predictive Maintenance";
         action := "Schedule preventive maintenance for " ++ machine_name machine;
         reason := "Elevated temperature trend ("
                   ++ py_format ".1f" (Fin (temperature machine))
                   ++ "°C). Estimated RUL: " ++ fmt_int rul_days
                   ++ " days. Early intervention recommended to prevent escalation.";
         impact := "Extend equipment lifespan by 15-20%. Reduce failure risk from 45% to 15%. Optimize maintenance scheduling and resource allocation.";
         timeline := "Within " ++ fmt_int (rul_days - 2) ++ " days";
         ai_methods := "Random Forest Regression for RUL, Gradient Boosting, Time-Series Feature Extraction, Predictive Analytics" |}.

(** Body of the loop over the bottlenecks. *)
Definition bottleneck_recommendation (bottleneck : operations_row)
  : M recommendation :=
  let efficiency_loss := (of_Z 100 - Fin (efficiency_rate bottleneck))%num in
  monthly_impact <- randint 1500 3500 ;;
  throughput_increase <- randint 12 20 ;;
  overall <- randint 8 15 ;;
  ret {| priority := 3;
         category := "Operations Optimization";
         action := "Optimize resource allocation in " ++ area bottleneck;
         reason := "Utilization at "
                   ++ py_format ".0f" (Fin (utilization bottleneck))
                   ++ "% (critical threshold: 85%). Efficiency loss: "
                   ++ py_format ".0f" efficiency_loss
                   ++ "%. Creating downstream delays and reducing overall throughput.";
         impact := "Increase throughput by " ++ fmt_int throughput_increase
                   ++ "%. Monthly cost savings: "
                   ++ py_format "," (of_Z monthly_impact)
                   ++ " JOD. Improve overall warehouse efficiency by "
                   ++ fmt_int overall ++ "%.";
         timeline := "Implement within next shift planning cycle (3-5 days)";
         ai_methods := "K-Means Clustering for pattern detection, Bottleneck Analysis, Resource Optimization Algorithms, Heuristic Optimization" |}.

(** Body of the loop over the overstocked products. *)
Definition overstock_recommendation (product : inventory_row)
  : M recommendation :=
  let current_stock := Fin (current_stock product) in
  let tied_capital := (current_stock * Fin (unit_cost product))%num in
  let holding_cost_monthly := (tied_capital * dec 2 100)%num in
  optimal <- lift (py_int (Fin (safety_stock product) * dec 15 10)%num) ;;
  ret {| priority := 3;
         category := "Inventory Optimization";
         action := "Reduce stock level for " ++ product_name product;
         reason := "Overstock detected: " ++ py_format "" current_stock
                   ++ " units vs optimal " ++ fmt_int optimal
                   ++ " units. Excess capital tied up: "
                   ++ py_format ",.0f" tied_capital ++ " JOD.";
         impact := "Release " ++ py_format ",.0f" (tied_capital * dec 4 10)%num
                   ++ " JOD in working capital. Reduce monthly holding costs by "
                   ++ py_format ",.0f" holding_cost_monthly
                   ++ " JOD. Improve inventory turnover ratio.";
         timeline := "Gradual reduction over next 30-60 days";
         ai_methods := "Inventory Turnover Analysis, ABC Classification, Demand Pattern Recognition, Stock Optimization Algorithms" |}.

(** [list.sort(key=...)]: a stable sort, here by insertion. *)
Fixpoint insert_by {A} (key : A -> Z) (x : A) (l : list A) : list A :=
  match l with
  | [] => [x]
  | y :: l' =>
      if (key y <? key x)%Z then y :: insert_by key x l' else x :: y :: l'
  end.

Definition sort_by {A} (key : A -> Z) (l : list A) : list A :=
  fold_right (insert_by key) [] l.

(** The row filters of [generate_recommendations]. *)
Definition is_critical (m : machine_row) : bool :=
  (Fin (temperature m) >? of_Z 85)%num.

Definition is_low_stock (p : inventory_row) : bool :=
  (Fin (current_stock p) <? Fin (safety_stock p))%num.

Definition is_medium_risk (m : machine_row) : bool :=
  (Fin (temperature m) >? of_Z 80)%num && (Fin (temperature m) <=? of_Z 85)%num.

Definition is_bottleneck (a : operations_row) : bool :=
  (Fin (utilization a) >? of_Z 85)%num.

Definition is_overstock (p : inventory_row) : bool :=
  (Fin (current_stock p) >? Fin (safety_stock p) * dec 25 10)%num.

(** [generate_recommendations(machine_data, inventory_data,
    operations_data)]. *)
Definition generate_recommendations (machine_data : DataFrame machine_row)
  (inventory_data : DataFrame inventory_row)
  (operations_data : DataFrame operations_row) : M (list recommendation) :=
  let recommendations : list recommendation := [] in
  let critical_machines := select is_critical machine_data in
  r1 <- for_each critical_machine_recommendation (rows critical_machines) ;;
  let recommendations := (recommendations ++ r1)%list in
  let low_stock_products := select is_low_stock inventory_data in
  r2 <- for_each low_stock_recommendation (rows (head 3 low_stock_products)) ;;
  let recommendations := (recommendations ++ r2)%list in
  let medium_risk_machines := select is_medium_risk machine_data in
  r3 <- for_each medium_risk_recommendation (rows (head 2 medium_risk_machines)) ;;
  let recommendations := (recommendations ++ r3)%list in
  let bottlenecks := select is_bottleneck operations_data in
  r4 <- for_each bottleneck_recommendation (rows (head 2 bottlenecks)) ;;
  let recommendations := (recommendations ++ r4)%list in
  let overstock_products := select is_overstock inventory_data in
  r5 <- for_each overstock_recommendation (rows (head 2 overstock_products)) ;;
  let recommendations := (recommendations ++ r5)%list in
  ret (sort_by priority recommendations).

(** [calculate_savings(machine_data, inventory_data)]. *)
Definition calculate_savings (machine_data : DataFrame machine_row)
  (inventory_data : DataFrame inventory_row) : M Z :=
  let critical_machines := Z.of_nat (len (select is_critical machine_data)) in
  r <- randint 3000 6000 ;;
  let maintenance_savings := (critical_machines * r)%Z in
  let low_stock := Z.of_nat (len (select is_low_stock inventory_data)) in
  r <- randint 1000 2500 ;;
  let inventory_savings := (low_stock * r)%Z in
  operational_savings <- randint 2000 4000 ;;
  let total_savings :=
    (maintenance_savings + inventory_savings + operational_savings)%Z in
  ret total_savings.

Record roi : Type := mk_roi {
  implementation_cost : num;
  monthly_benefit : Z;
  annual_benefit : Z;
  payback_period_months : num;
  roi_percentage : num
}.

(** [calculate_roi(recommendation, implementation_cost=None)]; the cost,
    when given, is a Python number. *)
Definition calculate_roi (recommendation : recommendation)
  (implementation_cost : option num) : M roi :=
  let impact := impact recommendation in
  implementation_cost <-
    match implementation_cost with
    | None =>
        if (priority recommendation =? 1)%Z
        then c <- randint 2000 5000 ;; ret (of_Z c)
        else if (priority recommendation =? 2)%Z
        then c <- randint 1000 3000 ;; ret (of_Z c)
        else c <- randint 500 1500 ;; ret (of_Z c)
    | Some c => ret c
    end ;;
  monthly_benefit <- randint 3000 10000 ;;
  payback_period <- lift (true_div implementation_cost (of_Z monthly_benefit)) ;;
  let annual_benefit := (monthly_benefit * 12)%Z in
  q <- lift (true_div (of_Z annual_benefit - implementation_cost)%num
                      implementation_cost) ;;
  let roi_percentage := (q * of_Z 100)%num in
  ret {| implementation_cost := implementation_cost;
         monthly_benefit := monthly_benefit;
         annual_benefit := annual_benefit;
         payback_period_months := payback_period;
         roi_percentage := roi_percentage |}.

End with_library.

End decision_engine.

(* ================================================================== *)
(** * models/demand_forecasting.py *)
(* ================================================================== *)

Module demand_forecasting.

Section with_library.

Context {L : Library}.

(** [df.sort_values('date')] on (date, demand) rows.  Rows of equal date
    keep their order; pandas does not promise any order among them. *)
Definition sort_values_date (l : list (Z * Q)) : list (Z * Q) :=
  decision_engine.sort_by fst l.

(** [.tail(n)]. *)
Definition tail {A} (n : nat) (l : list A) : list A :=
  skipn (List.length l - n) l.

(** [groupby('day_of_week')['demand'].mean()]: for each day of the week
    that occurs, the mean demand of its rows. *)
Definition weekly_pattern_of (product_demand : list (Z * Q)) : list (Z * num) :=
  flat_map
    (fun d =>
       let group := filter (fun r => dayofweek (fst r) =? d) product_demand in
       match group with
       | [] => []
       | _ => [(d, np_mean (map (fun r => Fin (snd r)) group))]
       end)
    [0; 1; 2; 3; 4; 5; 6].

(** [weekly_pattern[d]] guarded by [d in weekly_pattern.index]. *)
Definition pattern_lookup (d : Z) (weekly_pattern : list (Z * num)) : option num :=
  option_map snd (find (fun e => fst e =? d) weekly_pattern).

(** [series.max()] of a non-empty column of dates. *)
Definition max_date (l : list Z) : Z :=
  match l with
  | [] => 0
  | d :: l' => fold_left Z.max l' d
  end.

Record forecast : Type := mk_forecast {
  historical_dates : list Z;
  historical_demand : list Q;
  forecast_dates : list Z;
  forecast_demand_values : list num;
  confidence_upper : list num;
  confidence_lower : list num;
  trend : num;
  avg_demand : num
}.

(** One iteration of the forecast loop, for the [i]-th date. *)
Definition forecast_step (last_demand trend : num)
  (weekly_pattern : list (Z * num)) (i_date : nat * Z) : M num :=
  let (i, date) := i_date in
  let day_of_week := dayofweek date in
  let base_forecast := (last_demand + trend * of_nat i)%num in
  let seasonal_factor :=
    match pattern_lookup day_of_week weekly_pattern with
    | Some w => (w / last_demand)%num
    | None => of_Z 1
    end in
  noise <- normal 0 5 ;;
  let forecast := (base_forecast * seasonal_factor + noise)%num in
  let forecast := py_max (of_Z 0) forecast in
  ret forecast.

(** [np.polyfit(x, y, 1)[0]].  Without a point it raises [TypeError];
    with a single point, a column of the scaled matrix is 0 / 0, and the
    least-squares solver raises [LinAlgError] on the [nan]. *)
Definition np_polyfit_slope (x y : list num) : result num :=
  match x with
  | [] => Raise (OtherError "TypeError"%string)
  | [_] => Raise (OtherError "LinAlgError"%string)
  | _ => Ok (polyfit_slope x y)
  end.

(** [forecast_demand(demand_data, product_id, days_ahead)]; [now] is
    [datetime.now()].  Of the filtered frame only the columns the function
    reads, [date] and [demand], are kept. *)
Definition forecast_demand (now : Z) (demand_data : DataFrame demand_row)
  (product_id : Z) (days_ahead : Z) : M forecast :=
  let product_demand :=
    map (fun r => (date r, demand r))
        (rows (select (fun r => demand_product_id r =? product_id) demand_data)) in
  product_demand <-
    (if Nat.eqb (List.length product_demand) 0 then
       dates <- lift (checked_dates (date_range_end now 60 1)) ;;
       p <- poisson_array 150 60 ;;
       r <- randint_array (-20) 20 60 ;;
       let demand_values := map (fun pr => fst pr + snd pr) (combine p r) in
       ret (combine dates (map inject_Z demand_values))
     else ret product_demand) ;;
  let product_demand := sort_values_date product_demand in
  let recent_demand := map (fun r => Fin (snd r)) (tail 30 product_demand) in
  trend <-
    lift (np_polyfit_slope (map of_nat (seq 0 (List.length recent_demand)))
                           recent_demand) ;;
  let weekly_pattern := weekly_pattern_of product_demand in
  let last_demand := np_mean recent_demand in
  start <- lift (timestamp_add (max_date (map fst product_demand)) 1) ;;
  forecast_dates <- lift (date_range_start start days_ahead) ;;
  forecast_values <-
    for_each (forecast_step last_demand trend weekly_pattern)
             (combine (seq 0 (List.length forecast_dates)) forecast_dates) ;;
  let std_dev := np_std recent_demand in
  let confidence_upper :=
    map (fun f => (f + dec 196 100 * std_dev)%num) forecast_values in
  let confidence_lower :=
    map (fun f => py_max (of_Z 0) (f - dec 196 100 * std_dev)%num) forecast_values in
  ret {| historical_dates := map fst product_demand;
         historical_demand := map snd product_demand;
         forecast_dates := forecast_dates;
         forecast_demand_values := forecast_values;
         confidence_upper := confidence_upper;
         confidence_lower := confidence_lower;
         trend := trend;
         avg_demand := last_demand |}.

Record reorder : Type := mk_reorder {
  reorder_point : num;
  reorder_quantity : num;
  economic_order_qty : num;
  predicted_demand : num;
  reorder_safety_stock : num;
  lead_time : num;
  reorder_current_stock : num
}.

(** [calculate_reorder_point(product_row)].  The values of the row are
    taken as Python scalars, for which a zero divisor raises (numpy scalars
    would give [inf]). *)
Definition calculate_reorder_point (product_row : inventory_row) : M reorder :=
  let annual_demand := of_Z (365 * 10) in
  let ordering_cost := of_Z 100 in
  let holding_cost := (Fin (unit_cost product_row) * dec 25 100)%num in
  q <- lift (true_div (of_Z 2 * annual_demand * ordering_cost)%num holding_cost) ;;
  let eoq := np_sqrt q in
  let avg_daily_demand := of_Z 10 in
  let lead_time := Fin (lead_time_days product_row) in
  let safety_stock := Fin (safety_stock product_row) in
  let reorder_point := (avg_daily_demand * lead_time + safety_stock)%num in
  u <- uniform (8 # 10) (12 # 10) ;;
  let predicted_demand := (avg_daily_demand * of_Z 7 * u)%num in
  let current_stock := Fin (current_stock product_row) in
  let stock_deficit := py_max (of_Z 0) (safety_stock - current_stock)%num in
  let reorder_quantity := (eoq + stock_deficit)%num in
  ret {| reorder_point := reorder_point;
         reorder_quantity := reorder_quantity;
         economic_order_qty := eoq;
         predicted_demand := predicted_demand;
         reorder_safety_stock := safety_stock;
         lead_time := lead_time;
         reorder_current_stock := current_stock |}.

(** [series.max()] of a numeric column; [nan] when it is empty. *)
Definition series_max (l : list num) : num :=
  match l with
  | [] => NaN
  | x :: l' => fold_left (fun a b => py_max a b) l' x
  end.

(** [calculate_inventory_health(inventory_data)].  The function assigns
    the column [stock_value] on the frame it was given: the second
    component is that frame as the caller finds it after the call. *)
Definition calculate_inventory_health (inventory_data : DataFrame inventory_row)
  : num * DataFrame inventory_row :=
  let above_safety :=
    count_rows (fun p => (Fin (current_stock p) >=? Fin (safety_stock p))%num)
               inventory_data in
  let stock_adequacy :=
    (of_nat above_safety / of_nat (len inventory_data) * of_Z 40)%num in
  let overstock :=
    count_rows (fun p => (Fin (current_stock p) >? Fin (safety_stock p) * of_Z 3)%num)
               inventory_data in
  let turnover_score :=
    ((of_nat (len inventory_data) - of_nat overstock)
     / of_nat (len inventory_data) * of_Z 30)%num in
  let inventory_data :=
    assign_column "stock_value"
      (map (fun p => (Fin (current_stock p) * Fin (unit_cost p))%num)
           (rows inventory_data))
      inventory_data in
  let stock_value :=
    match get_extra "stock_value" (extra inventory_data) with
    | Some c => c
    | None => []
    end in
  let max_value_ratio := (series_max stock_value / Num.sum stock_value)%num in
  let distribution_score :=
    if (max_value_ratio <? dec 5 10)%num
    then ((of_Z 1 - max_value_ratio) * of_Z 30)%num
    else of_Z 15 in
  let health_score := (stock_adequacy + turnover_score + distribution_score)%num in
  (health_score, inventory_data).

(** [series.max()] of a column of dates; [None] is [NaT], the maximum
    of an empty column. *)
Definition latest_date (l : list Z) : option Z :=
  match l with
  | [] => None
  | d :: l' => Some (fold_left Z.max l' d)
  end.

(** [recent_date - timedelta(days=n)]: [NaT] stays [NaT]; a [Timestamp]
    is moved by [-n] days. *)
Definition cutoff (recent_date : option Z) (n : Z) : result (option Z) :=
  match recent_date with
  | None =>
      if timedelta_max_days <? Z.abs n then Raise OverflowError else Ok None
  | Some d =>
      match timestamp_add d (- n) with
      | Ok c => Ok (Some c)
      | Raise e => Raise e
      end
  end.

(** [identify_slow_moving_items(inventory_data, demand_data,
    threshold_days)].  No date is on or after [NaT]. *)
Definition identify_slow_moving_items (inventory_data : DataFrame inventory_row)
  (demand_data : DataFrame demand_row) (threshold_days : Z) : result (list Z) :=
  let recent_date := latest_date (map date (rows demand_data)) in
  match cutoff recent_date threshold_days with
  | Raise e => Raise e
  | Ok cutoff_date =>
      Ok (flat_map
            (fun product_id =>
               let recent_demand :=
                 select (fun r => (demand_product_id r =? product_id)
                                  && match cutoff_date with
                                     | Some c => c <=? date r
                                     | None => false
                                     end)
                        demand_data in
               if Nat.eqb (len recent_demand) 0
                  || (Num.sum (map (fun r => Fin (demand r)) (rows recent_demand))
                      <? of_Z 10)%num
               then [product_id]
               else [])
            (map Frames.product_id (rows inventory_data)))
  end.

Definition service_levels : list (string * num) :=
  [("low"%string, dec 128 100); ("medium"%string, dec 165 100);
   ("high"%string, dec 233 100)].

(** [d.get(key, default)]. *)
Definition dict_get (key : string) (d : list (string * num)) (default : num) : num :=
  match find (fun e => String.eqb (fst e) key) d with
  | Some e => snd e
  | None => default
  end.

(** [optimize_safety_stock(product_row, demand_volatility)]. *)
Definition optimize_safety_stock (product_row : inventory_row)
  (demand_volatility : string) : result Z :=
  let z_score := dict_get demand_volatility service_levels (dec 165 100) in
  let avg_daily_demand := of_Z 10 in
  let demand_std := (avg_daily_demand * dec 3 10)%num in
  let lead_time := Fin (lead_time_days product_row) in
  let safety_stock := (z_score * demand_std * np_sqrt lead_time)%num in
  py_int safety_stock.

End with_library.

End demand_forecasting.

(* ================================================================== *)
(** * utils/data_processing.py *)
(* ================================================================== *)

Module data_processing.

(** The files the loader reads: what [pd.read_csv] returns or raises for
    a path. *)
Definition filesystem : Type := string -> result table.

(** [np.round]: to the nearest integer, ties to even. *)
Definition round_half_even (q : Q) : Z :=
  let f := Qfloor q in
  match Qcompare (q - inject_Z f) (1 # 2) with
  | Lt => f
  | Gt => f + 1
  | Eq => if Z.even f then f else f + 1
  end.

(** [array.round(2)]. *)
Definition round2 (x : num) : num :=
  match x with
  | Fin q => Fin (inject_Z (round_half_even (q * 100)) / 100)
  | _ => x
  end.

(** [range(a, b)] for [a <= b]. *)
Definition range (a b : Z) : list Z :=
  map (fun i => a + Z.of_nat i) (seq 0 (Z.to_nat (b - a))).

(** [str(i)] of an integer. *)
Definition str_of_Z (z : Z) : string :=
  DecimalString.NilZero.string_of_int (Z.to_int z).

Record demand_record : Type := mk_demand_record {
  rec_date : Z;
  rec_product_id : Z;
  rec_demand : Z
}.

(** [pd.DataFrame(records)] for a list of demand dictionaries. *)
Definition DataFrame_of_records (records : list demand_record) : table :=
  match records with
  | [] => []
  | _ => [("date"%string, DateCol (map rec_date records));
          ("product_id"%string, IntCol (map rec_product_id records));
          ("demand"%string, IntCol (map rec_demand records))]
  end.

Section with_library.

Context {L : Library}.

Local Open Scope string_scope.

(** [np.sin] of a number. *)
Definition num_sin (x : num) : num :=
  match x with
  | Fin q => Fin (np_sin q)
  | _ => NaN
  end.

Definition num_products : nat := 20.

Definition product_names : list string :=
  ["Industrial Bearing Type A"; "Steel Plates Grade B"; "Hydraulic Pump Unit";
   "Electric Motor 5HP"; "Control Panel Assembly"; "Conveyor Belt Section";
   "Safety Valve Kit"; "Lubricant Premium Grade"; "Fastener Set M12";
   "Gasket Seal Pack"; "Pressure Sensor Digital"; "Cable Wire 10mm";
   "Junction Box IP67"; "Filter Cartridge HEPA"; "Coupling Flexible";
   "Switch Limit Type C"; "Relay Module 24V"; "Pneumatic Cylinder";
   "Solenoid Valve 2-way"; "Bearing Housing Unit"].

(** The inventory frame of [generate_demo_data]. *)
Definition inventory_demo : M table :=
  current_stock <- randint_array 30 300 num_products ;;
  safety_stock <- randint_array 50 100 num_products ;;
  lead_time_days <- randint_array 3 14 num_products ;;
  unit_cost <- uniform_array 10 500 num_products ;;
  lift (DataFrame_of_dict
          [("product_id", IntCol (range 1 (Z.of_nat num_products + 1)));
           ("product_name", StrCol product_names);
           ("current_stock", IntCol current_stock);
           ("safety_stock", IntCol safety_stock);
           ("lead_time_days", IntCol lead_time_days);
           ("unit_cost", FloatCol (map round2 unit_cost))]).

Definition num_machines : nat := 10.

(** The columns of the machinery frame, given the three drawn ones. *)
Definition machines_table (now : Z) (temperature vibration : list num)
  (operational_hours : list Z) : table :=
  [("machine_id", IntCol (range 1 (Z.of_nat num_machines + 1)));
   ("machine_name",
    StrCol (map (fun i => "Machine " ++ str_of_Z i)
                (range 1 (Z.of_nat num_machines + 1))));
   ("temperature", FloatCol temperature);
   ("vibration", FloatCol vibration);
   ("operational_hours", IntCol operational_hours);
   ("last_maintenance", DateCol (date_range_end now num_machines 45))].

(** The machinery frame of [generate_demo_data]. *)
Definition machines_demo (now : Z) : M table :=
  temperature <- uniform_array 65 95 num_machines ;;
  vibration <- uniform_array (8 # 10) (45 # 10) num_machines ;;
  operational_hours <- randint_array 1000 8000 num_machines ;;
  lift (DataFrame_of_dict
          (machines_table now temperature vibration operational_hours)).

(** Body of the inner loop that builds the demand history. *)
Definition demand_record_for (product_id date : Z) : M demand_record :=
  base_demand <- randint 5 20 ;;
  base_demand <-
    (if (dayofweek date =? 5)%Z || (dayofweek date =? 6)%Z
     then lift (py_int (of_Z base_demand * dec 6 10)%num)
     else ret base_demand) ;;
  let month_factor :=
    (of_Z 1 + dec 1 10
              * num_sin (of_Z (day_of_month date) / of_Z 30 * of_Z 2 * Fin np_pi))%num in
  scaled <- lift (py_int (of_Z base_demand * month_factor)%num) ;;
  r <- randint (-3) 4 ;;
  let demand := scaled + r in
  let demand := Z.max 0 demand in
  ret {| rec_date := date; rec_product_id := product_id; rec_demand := demand |}.

(** The demand frame of [generate_demo_data]. *)
Definition demand_demo (now : Z) : M table :=
  let dates := date_range_end now 180 1 in
  per_product <-
    for_each (fun product_id => for_each (demand_record_for product_id) dates)
             (range 1 (Z.of_nat num_products + 1)) ;;
  let demand_records := List.concat per_product in
  ret (DataFrame_of_records demand_records).

Definition operational_areas : list string :=
  ["Receiving Area"; "Storage Zone A"; "Storage Zone B"; "Picking Area";
   "Packing Station"; "Loading Area"; "Quality Control"; "Shipping Dock"].

(** The operations frame of [generate_demo_data]. *)
Definition operations_demo : M table :=
  let n := List.length operational_areas in
  utilization <- uniform_array 60 95 n ;;
  productivity_score <- uniform_array 70 95 n ;;
  downtime_hours <- uniform_array (5 # 10) (35 # 10) n ;;
  efficiency_rate <- uniform_array 75 95 n ;;
  throughput <- randint_array 100 500 n ;;
  lift (DataFrame_of_dict
          [("area", StrCol operational_areas);
           ("utilization", FloatCol utilization);
           ("productivity_score", FloatCol productivity_score);
           ("downtime_hours", FloatCol downtime_hours);
           ("efficiency_rate", FloatCol efficiency_rate);
           ("throughput", IntCol throughput)]).

(** [generate_demo_data()]; [now] is [datetime.now()]. *)
Definition generate_demo_data (now : Z) : M (table * table * table * table) :=
  _ <- np_random_seed 42 ;;
  inventory_df <- inventory_demo ;;
  machines_df <- machines_demo now ;;
  demand_df <- demand_demo now ;;
  operations_df <- operations_demo ;;
  ret (inventory_df, machines_df, demand_df, operations_df).

(** The four files, in the order [load_data] reads them. *)
Definition csv_paths : list string :=
  ["data/inventory_data.csv"; "data/machinery_data.csv";
   "data/demand_history.csv"; "data/operations_data.csv"].

(** The body of the [try] block of [load_data]. *)
Definition read_all (fs : filesystem) : M (table * table * table * table) :=
  inventory_df <- lift (fs "data/inventory_data.csv") ;;
  machines_df <- lift (fs "data/machinery_data.csv") ;;
  demand_df <- lift (fs "data/demand_history.csv") ;;
  operations_df <- lift (fs "data/operations_data.csv") ;;
  demand_df <-
    (if has_column "date" demand_df then
       match get_column "date" demand_df with
       | Some c =>
           c' <- lift (to_datetime c) ;; ret (set_column "date" c' demand_df)
       | None => ret demand_df
       end
     else ret demand_df) ;;
  ret (inventory_df, machines_df, demand_df, operations_df).

(** [load_data()]. *)
Definition load_data (fs : filesystem) (now : Z)
  : M (table * table * table * table) :=
  try_except (read_all fs) FileNotFoundError (generate_demo_data now).

End with_library.

(** A missing value. *)
Definition isna (x : num) : bool :=
  match x with NaN => true | _ => false end.

(** [fillna(method='ffill')] on a numeric column: a missing value takes
    the last value seen before it, if there is one. *)
Fixpoint ffill_from (prev : option num) (l : list num) : list num :=
  match l with
  | [] => []
  | x :: l' =>
      if isna x
      then match prev with Some p => p | None => x end :: ffill_from prev l'
      else x :: ffill_from (Some x) l'
  end.

Definition ffill (l : list num) : list num := ffill_from None l.

(** [fillna(method='bfill')]: the same from the end. *)
Definition bfill (l : list num) : list num := rev (ffill (rev l)).

(** Filling a frame: numeric columns are filled; the other columns of
    the model hold no missing value. *)
Definition fillna (fill : list num -> list num) (df : table) : table :=
  map (fun c => (fst c,
                 match snd c with
                 | FloatCol l => FloatCol (fill l)
                 | other => other
                 end)) df.

(** [df[names]]: the named columns, [KeyError] when one is missing. *)
Fixpoint get_columns (names : list string) (df : table) : result (list column) :=
  match names with
  | [] => Ok []
  | n :: names' =>
      match get_column n df, get_columns names' df with
      | Some c, Ok cs => Ok (c :: cs)
      | None, _ => Raise (OtherError "KeyError")
      | _, Raise e => Raise e
      end
  end.

(** [df[names] = columns]. *)
Fixpoint set_columns (names : list string) (cols : list column) (df : table)
  : table :=
  match names, cols with
  | n :: names', c :: cols' => set_columns names' cols' (set_column n c df)
  | _, _ => df
  end.

(** [preprocess_data(df, columns_to_normalize)]; [fit_transform] is
    [StandardScaler().fit_transform]. *)
Definition preprocess_data (fit_transform : list column -> result (list column))
  (df : table) (columns_to_normalize : option (list string)) : result table :=
  let df_processed := df in
  let df_processed := fillna bfill (fillna ffill df_processed) in
  match columns_to_normalize with
  | Some (n :: names) =>
      match get_columns (n :: names) df_processed with
      | Ok selected =>
          match fit_transform selected with
          | Ok scaled => Ok (set_columns (n :: names) scaled df_processed)
          | Raise e => Raise e
          end
      | Raise e => Raise e
      end
  | _ => Ok df_processed
  end.

(** [len(df)]. *)
Definition table_len (df : table) : nat :=
  match df with
  | [] => 0
  | c :: _ => column_length (snd c)
  end.

(** The values of a numeric column, missing values dropped.  A column
    with infinite values, which pandas keeps, is outside the model. *)
Definition numeric_values (c : column) : option (list Q) :=
  match c with
  | IntCol l => Some (map inject_Z l)
  | FloatCol l =>
      Some (flat_map (fun x => match x with Fin q => [q] | _ => [] end) l)
  | DateCol l => Some (map inject_Z l)
  | StrCol _ => None
  end.

Fixpoint insert_sorted (x : Q) (l : list Q) : list Q :=
  match l with
  | [] => [x]
  | y :: l' => if Qle_bool x y then x :: y :: l' else y :: insert_sorted x l'
  end.

Definition sort_values (l : list Q) : list Q := fold_right insert_sorted [] l.

(** [series.quantile(q)]: linear interpolation between the two nearest
    order statistics; [nan] for an empty series. *)
Definition quantile (q : Q) (l : list Q) : num :=
  match sort_values l with
  | [] => NaN
  | (first :: _) as sorted =>
      let position := (inject_Z (Z.of_nat (List.length sorted) - 1) * q)%Q in
      let lower := Z.to_nat (Qfloor position) in
      let fraction := (position - inject_Z (Qfloor position))%Q in
      let a := nth lower sorted first in
      let b := nth (S lower) sorted a in
      Fin (a + (b - a) * fraction)%Q
  end.

(** The cells of a column as numbers, for the comparisons of
    [detect_outliers]. *)
Definition cells (c : column) : list num :=
  match c with
  | IntCol l => map of_Z l
  | FloatCol l => l
  | DateCol l => map of_Z l
  | StrCol _ => []
  end.

(** [detect_outliers(df, column, method, threshold)]; [zscore] is
    [np.abs(stats.zscore(...))]. *)
Definition detect_outliers (zscore : list num -> list num) (df : table)
  (column : string) (method : string) (threshold : Q) : result (list bool) :=
  if String.eqb method "iqr" then
    match get_column column df with
    | None => Raise (OtherError "KeyError")
    | Some c =>
        match numeric_values c with
        | None => Raise (OtherError "TypeError")
        | Some values =>
            let Q1 := quantile (25 # 100) values in
            let Q3 := quantile (75 # 100) values in
            let IQR := (Q3 - Q1)%num in
            let lower_bound := (Q1 - Fin threshold * IQR)%num in
            let upper_bound := (Q3 + Fin threshold * IQR)%num in
            Ok (map (fun x => (x <? lower_bound)%num || (x >? upper_bound)%num)
                    (cells c))
        end
    end
  else if String.eqb method "zscore" then
    match get_column column df with
    | None => Raise (OtherError "KeyError")
    | Some c =>
        let z_scores := zscore (cells c) in
        Ok (map (fun z => (z >? Fin threshold)%num) z_scores)
    end
  else Ok (repeat false (table_len df)).

End data_processing.

(* ================================================================== *)
(** * utils/calculations.py *)
(* ================================================================== *)

Module calculations.

(** [x == y] on numbers; [nan] equals nothing. *)
Definition num_eqb (x y : num) : bool :=
  match x, y with
  | Fin a, Fin b => Qeq_bool a b
  | PInf, PInf | NInf, NInf => true
  | _, _ => false
  end.

(** [calculate_health_score(machine_data)]. *)
Definition calculate_health_score (machine_data : DataFrame machine_row) : num :=
  let temp_scores :=
    map (fun m =>
           let x := Fin (temperature m) in
           if (x <=? of_Z 75)%num then of_Z 100
           else py_max (of_Z 0) (of_Z 100 - (x - of_Z 75) * of_Z 5)%num)
        (rows machine_data) in
  let temp_score := (np_mean temp_scores * dec 40 100)%num in
  let vib_scores :=
    map (fun m =>
           let x := Fin (vibration m) in
           if (x <=? dec 25 10)%num then of_Z 100
           else py_max (of_Z 0) (of_Z 100 - (x - dec 25 10) * of_Z 20)%num)
        (rows machine_data) in
  let vib_score := (np_mean vib_scores * dec 35 100)%num in
  let hours_scores :=
    map (fun m =>
           let x := Fin (operational_hours m) in
           if (x <=? of_Z 3000)%num then of_Z 100
           else py_max (of_Z 0) (of_Z 100 - (x - of_Z 3000) / of_Z 50)%num)
        (rows machine_data) in
  let hours_score := (np_mean hours_scores * dec 25 100)%num in
  let total_score := (temp_score + vib_score + hours_score)%num in
  total_score.

(** [calculate_mtbf(machine_data, failure_threshold)]. *)
Definition calculate_mtbf (machine_data : DataFrame machine_row)
  (failure_threshold : num) : num :=
  let total_operating_hours :=
    Num.sum (map (fun m => Fin (operational_hours m)) (rows machine_data)) in
  let critical_machines :=
    len (select (fun m => (Fin (temperature m) >? of_Z 85)%num) machine_data) in
  let estimated_failures := (of_nat critical_machines * dec 15 10)%num in
  if num_eqb estimated_failures (of_Z 0) then PInf
  else (total_operating_hours / estimated_failures)%num.

(** [calculate_inventory_turnover(inventory_data, annual_demand)]. *)
Definition calculate_inventory_turnover (inventory_data : DataFrame inventory_row)
  (annual_demand : option num) : num :=
  let annual_demand :=
    match annual_demand with
    | None => of_Z (365 * 10 * Z.of_nat (len inventory_data))
    | Some a => a
    end in
  let avg_unit_cost :=
    np_mean (map (fun p => Fin (unit_cost p)) (rows inventory_data)) in
  let cogs := (annual_demand * avg_unit_cost)%num in
  let avg_inventory_value :=
    Num.sum (map (fun p => (Fin (current_stock p) * Fin (unit_cost p))%num)
                 (rows inventory_data)) in
  if num_eqb avg_inventory_value (of_Z 0) then of_Z 0
  else (cogs / avg_inventory_value)%num.

(** [calculate_days_of_inventory(inventory_turnover)]. *)
Definition calculate_days_of_inventory (inventory_turnover : num) : result num :=
  if num_eqb inventory_turnover (of_Z 0) then Ok PInf
  else true_div (of_Z 365) inventory_turnover.

(** [calculate_fill_rate(demand_met, total_demand)]. *)
Definition calculate_fill_rate (demand_met total_demand : num) : result num :=
  if num_eqb total_demand (of_Z 0) then Ok (of_Z 100)
  else match true_div demand_met total_demand with
       | Ok q => Ok (q * of_Z 100)%num
       | Raise e => Raise e
       end.

(** [calculate_warehouse_utilization(used_space, total_space)]. *)
Definition calculate_warehouse_utilization (used_space total_space : num)
  : result num :=
  if num_eqb total_space (of_Z 0) then Ok (of_Z 0)
  else match true_div used_space total_space with
       | Ok q => Ok (q * of_Z 100)%num
       | Raise e => Raise e
       end.

End calculations.

(* ================================================================== *)
(** * A concrete library *)
(* ================================================================== *)

(** A crude stand-in for the library routines, to run the model on
    concrete inputs: an integer square root, a constant sine, a linear
    congruential stream. *)
Definition toy_library : Library := {|
  sqrt_fin := fun q => inject_Z (Z.sqrt (Qfloor q));
  np_sin := fun _ => 0%Q;
  np_pi := (355 # 113)%Q;
  polyfit_slope := fun _ _ => of_Z 0;
  standard_normal := fun r => inject_Z (r mod 7 - 3);
  poisson_deviate := fun lam r => Qfloor lam + r mod 25 - 12;
  seed_stream := fun seed n => (seed * 1103515245 + 12345 * Z.of_nat n) mod 2 ^ 31;
  py_format := fun _ _ => EmptyString;
  to_datetime := fun c => Ok c
|}.

(** A state of the generator. *)
Definition toy_rng : rng := mk_rng (fun n => 7919 * Z.of_nat n + 17) 0.

(** Sample frames. *)
Definition sample_machines : DataFrame machine_row :=
  frame_of
    [mk_machine 1 "Mixing Station Alpha" (912 # 10) (41 # 10) 6200 20000;
     mk_machine 2 "Dough Forming Line" (823 # 10) (21 # 10) 3100 20025;
     mk_machine 3 "Baking Oven Line 1" (701 # 10) (12 # 10) 900 20050].

Definition sample_inventory : DataFrame inventory_row :=
  frame_of
    [mk_product 1 "Wheat Flour Premium" 60 90 5 (125 # 10);
     mk_product 2 "Cane Sugar" 310 100 3 (8 # 1);
     mk_product 3 "Butter Unsalted" 140 120 7 (42 # 1)].

Definition sample_operations : DataFrame operations_row :=
  frame_of
    [mk_area "Mixing Station Alpha" 91 88 (12 # 10) 83 1500;
     mk_area "Dough Forming Line" 72 90 (5 # 10) 92 2100].

(** An inventory in which one product is out of stock. *)
Definition out_of_stock_inventory : DataFrame inventory_row :=
  frame_of
    [mk_product 1 "Wheat Flour Premium" 0 90 5 (125 # 10);
     mk_product 2 "Cane Sugar" 310 100 3 (8 # 1)].

(** A demand history with rows of one product only. *)
Definition sample_demand : DataFrame demand_row :=
  frame_of
    [mk_demand 20000 2 (9 # 1); mk_demand 20001 2 (11 # 1);
     mk_demand 20002 2 (10 # 1)].

(** A frame with missing values, as [pd.read_csv] returns it. *)
Definition sample_readings : table :=
  [("machine_id"%string, IntCol [1; 2; 3; 4; 5]);
   ("temperature"%string,
    FloatCol [NaN; Fin (701 # 10); NaN; Fin (823 # 10); Fin (912 # 10)]);
   ("throughput"%string, IntCol [120; 130; 125; 128; 900])].

(** A recommendation of the first priority. *)
Definition sample_recommendation : decision_engine.recommendation :=
  decision_engine.mk_recommendation 1 "Predictive Maintenance"
    "Schedule maintenance" "High temperature" "Prevent downtime"
    "Within 24 hours" "Random Forest".

(** A file system with the four files. *)
Definition sample_files : data_processing.filesystem :=
  fun path =>
    if String.eqb path "data/demand_history.csv"
    then Ok [("date"%string, DateCol [20000; 20001]);
             ("product_id"%string, IntCol [2; 2]);
             ("demand"%string, IntCol [9; 11])]
    else Ok sample_readings.

(** A file system without any of the four files. *)
Definition no_files : data_processing.filesystem :=
  fun _ => Raise FileNotFoundError.

(** A file system in which the inventory file cannot be parsed and the
    three other files are missing. *)
Definition unparsable_inventory : data_processing.filesystem :=
  fun path =>
    if String.eqb path "data/inventory_data.csv"
    then Raise (OtherError "ParserError")
    else Raise FileNotFoundError.

(* ================================================================== *)
(** * Vocabulary of the properties *)
(* ================================================================== *)

(** A finite number in [[lo, hi)]. *)
Definition fin_between (lo hi : Q) (x : num) : Prop :=
  exists q, x = Fin q /\ (lo <= q)%Q /\ (q < hi)%Q.

(** A finite number in [[lo, hi]]. *)
Definition fin_within (lo hi : Q) (x : num) : Prop :=
  exists q, x = Fin q /\ (lo <= q)%Q /\ (q <= hi)%Q.

(** [n] integers in [[lo, hi)]. *)
Definition ints_between (lo hi : Z) (n : nat) (l : list Z) : Prop :=
  List.length l = n /\ Forall (fun z => lo <= z < hi) l.

(** [n] finite numbers in [[lo, hi)]. *)
Definition nums_between (lo hi : Q) (n : nat) (l : list num) : Prop :=
  List.length l = n /\ Forall (fin_between lo hi) l.

(* ================================================================== *)
(** * Properties *)
(* ================================================================== *)

(** ** Numbers *)

Section num_facts.

Local Open Scope Q_scope.

Lemma Qltb_lt (a b : Q) : Qltb a b = true <-> a < b.
Proof.
  unfold Qltb. rewrite Qlt_alt. destruct (a ?= b); split; congruence.
Qed.

Lemma Qltb_ge (a b : Q) : Qltb a b = false <-> b <= a.
Proof.
  unfold Qltb. rewrite Qle_alt, <- (Qcompare_antisym a b).
  destruct (a ?= b); simpl; split; congruence.
Qed.

Lemma ltb_leb (x y : num) : Num.ltb x y = true -> Num.leb x y = true.
Proof.
  destruct x, y; simpl; try congruence.
  rewrite Qltb_lt, Qle_bool_iff. apply Qlt_le_weak.
Qed.

Lemma leb_refl_fin (q : Q) : Num.leb (Fin q) (Fin q) = true.
Proof. simpl. apply Qle_bool_iff, Qle_refl. Qed.

(** [max(a, b)] is never below its first argument, whatever [b] is. *)
Lemma py_max_lower (a b : num) : is_finite a = true -> (a <= py_max a b)%num.
Proof.
  intros Ha. unfold py_max, Num.gtb, Num.le.
  destruct (Num.ltb a b) eqn:E.
  - now apply ltb_leb.
  - destruct a; try discriminate. apply leb_refl_fin.
Qed.

(** [min(a, b)] is never above its first argument, whatever [b] is. *)
Lemma py_min_upper (a b : num) : is_finite a = true -> (py_min a b <= a)%num.
Proof.
  intros Ha. unfold py_min, Num.le.
  destruct (Num.ltb b a) eqn:E.
  - now apply ltb_leb.
  - destruct a; try discriminate. apply leb_refl_fin.
Qed.

(** [max(a, b)] keeps an upper bound that both arguments satisfy. *)
Lemma py_max_upper (a b c : num) :
  (a <= c)%num -> (b <= c)%num -> (py_max a b <= c)%num.
Proof. unfold py_max. now destruct (Num.gtb b a). Qed.

Lemma py_min_lower (a b c : num) :
  (c <= a)%num -> (c <= b)%num -> (c <= py_min a b)%num.
Proof. unfold py_min. now destruct (Num.ltb b a). Qed.

End num_facts.

(** ** The random generator *)

Section rng_facts.

Local Open Scope Q_scope.

Lemma random_sample_range (s : rng) :
  exists u, random_sample s = (Ok u, advance s) /\ 0 <= u /\ u < 1.
Proof.
  unfold random_sample, bind, next_raw, ret.
  eexists; split; [reflexivity|].
  assert (H : (0 <= stream s (pos s) mod two53 < two53)%Z)
    by (apply Z.mod_pos_bound; reflexivity).
  set (m := (stream s (pos s) mod two53)%Z) in *.
  change two53 with 9007199254740992%Z in H.
  unfold Qle, Qlt; simpl. lia.
Qed.

(** A draw of [np.random.uniform(low, high)] is finite, lies in
    [[low, high)], and consumes one raw value. *)
Lemma uniform_range (low high : Q) (s : rng) :
  low < high ->
  exists q, uniform low high s = (Ok (Fin q), advance s) /\ low <= q /\ q < high.
Proof.
  intros Hlh. unfold uniform, bind.
  destruct (random_sample_range s) as (u & -> & H0 & H1).
  eexists; split; [reflexivity|].
  split; nra.
Qed.

Lemma uniform_total (low high : Q) (s : rng) :
  exists q, uniform low high s = (Ok (Fin q), advance s).
Proof.
  unfold uniform, bind.
  destruct (random_sample_range s) as (u & -> & _).
  eexists; reflexivity.
Qed.

End rng_facts.

(** ** models/maintenance_models.py *)

Section maintenance_facts.

Import maintenance_models.

(** Clamping with [max(0, min(1, x))] lands in [[0, 1]] for every [x],
    [nan] and the infinities included. *)
Lemma clamp_unit (x : num) :
  (of_Z 0 <= py_max (of_Z 0) (py_min (of_Z 1) x))%num /\
  (py_max (of_Z 0) (py_min (of_Z 1) x) <= of_Z 1)%num.
Proof.
  split.
  - now apply py_max_lower.
  - apply py_max_upper; [reflexivity|]. now apply py_min_upper.
Qed.

Lemma leb_total (x y : num) :
  (x <= x)%num -> (y <= y)%num -> Num.gtb x y = false <-> (x <= y)%num.
Proof.
  unfold Num.gtb, Num.le.
  destruct x, y; simpl; try (intuition congruence).
  intros _ _. rewrite Qltb_ge, Qle_bool_iff. reflexivity.
Qed.

(** C10: the failure probability is in [[0, 1]] and the risk level is
    [High] exactly above 0.6, [Medium] exactly in (0.3, 0.6], [Low]
    exactly up to 0.3, for every machine row and every state of the
    random generator. *)
Theorem predict_failure_probability_and_level (machine : machine_row) (s : rng) :
  exists p s',
    predict_failure machine s = (Ok p, s') /\
    (of_Z 0 <= failure_probability p)%num /\
    (failure_probability p <= of_Z 1)%num /\
    (risk_level p = High <-> (dec 6 10 < failure_probability p)%num) /\
    (risk_level p = Medium <->
       (dec 3 10 < failure_probability p)%num /\
       (failure_probability p <= dec 6 10)%num) /\
    (risk_level p = Low <-> (failure_probability p <= dec 3 10)%num).
Proof.
  unfold predict_failure, bind.
  destruct (uniform_total (-1 # 10) (1 # 10) s) as (noise & ->).
  unfold ret. eexists; eexists; split; [reflexivity|]. cbn [failure_probability risk_level].
  match goal with |- context [py_min (of_Z 1) ?x] => generalize x end.
  intros x. destruct (clamp_unit x) as [H0 H1].
  set (fp := py_max (of_Z 0) (py_min (of_Z 1) x)) in *. clearbody fp.
  split; [exact H0|]. split; [exact H1|].
  assert (Hfin : exists q, fp = Fin q).
  { destruct fp; try discriminate. now eexists. }
  destruct Hfin as (q & ->).
  unfold Num.gtb, Num.lt, Num.le, dec. cbn [Num.ltb Num.leb].
  destruct (Qltb (6 # 10) q) eqn:E6; destruct (Qltb (3 # 10) q) eqn:E3;
    [apply Qltb_lt in E6 | apply Qltb_lt in E6 | apply Qltb_ge in E6
    | apply Qltb_ge in E6];
    [apply Qltb_lt in E3 | apply Qltb_ge in E3 | apply Qltb_lt in E3
    | apply Qltb_ge in E3];
    rewrite !Qle_bool_iff;
    repeat split; try congruence; try discriminate; intros; try lra;
    try (exfalso; intuition lra).
Qed.

Lemma py_max_fin (a b : Q) : exists c, py_max (Fin a) (Fin b) = Fin c.
Proof. unfold py_max. destruct (Num.gtb _ _); eauto. Qed.

End maintenance_facts.

(** ** models/decision_engine.py: the risk score *)

Section risk_score_facts.

Import decision_engine.
Local Open Scope Q_scope.

Lemma count_rows_le {R} (mask : R -> bool) (df : DataFrame R) :
  (count_rows mask df <= len df)%nat.
Proof. unfold count_rows, len. apply filter_length_le. Qed.

Lemma len_nonzero {R} (df : DataFrame R) :
  rows df <> [] -> Num.is_zero (of_nat (len df)) = false.
Proof.
  unfold len. destruct (rows df) as [|r l]; [congruence|]. intros _.
  reflexivity.
Qed.

(** A count over a length: a finite value in [[0, 1]] as soon as the
    length is not zero. *)
Lemma ratio_unit (c n : nat) :
  n <> 0%nat -> (c <= n)%nat ->
  exists q, (of_nat c / of_nat n)%num = Fin q /\ 0 <= q /\ q <= 1.
Proof.
  intros Hn Hc. unfold of_nat, of_Z, Num.div.
  assert (Hpos : 0 < inject_Z (Z.of_nat n)).
  { change 0 with (inject_Z 0). rewrite <- Zlt_Qlt. lia. }
  assert (Hc' : 0 <= inject_Z (Z.of_nat c)).
  { change 0 with (inject_Z 0). rewrite <- Zle_Qle. lia. }
  assert (Hcn : inject_Z (Z.of_nat c) <= inject_Z (Z.of_nat n)).
  { rewrite <- Zle_Qle. lia. }
  destruct (Qeq_bool (inject_Z (Z.of_nat n)) 0) eqn:E.
  - apply Qeq_bool_iff in E. lra.
  - eexists; split; [reflexivity|]. split.
    + apply Qle_shift_div_l; lra.
    + apply Qle_shift_div_r; lra.
Qed.

Lemma temp_risk_unit (md : DataFrame machine_row) :
  rows md <> [] -> exists q, temp_risk md = Fin q /\ 0 <= q /\ q <= 1.
Proof.
  intros H. apply ratio_unit; [|apply count_rows_le].
  unfold len. destruct (rows md); [congruence|discriminate].
Qed.

Lemma vib_risk_unit (md : DataFrame machine_row) :
  rows md <> [] -> exists q, vib_risk md = Fin q /\ 0 <= q /\ q <= 1.
Proof.
  intros H. apply ratio_unit; [|apply count_rows_le].
  unfold len. destruct (rows md); [congruence|discriminate].
Qed.

Lemma machine_risk_bounds (md : DataFrame machine_row) :
  rows md <> [] -> exists q, machine_risk md = Fin q /\ 0 <= q /\ q <= 50.
Proof.
  intros H. unfold machine_risk.
  destruct (temp_risk_unit md H) as (t & -> & Ht0 & Ht1).
  destruct (vib_risk_unit md H) as (v & -> & Hv0 & Hv1).
  eexists; split; [reflexivity|].
  unfold Qdiv. change (/ inject_Z 2) with (1 # 2). change (inject_Z 50) with (50 # 1).
  split; lra.
Qed.

Lemma inventory_risk_bounds (inv : DataFrame inventory_row) :
  rows inv <> [] -> exists q, inventory_risk inv = Fin q /\ 0 <= q /\ q <= 30.
Proof.
  intros H. unfold inventory_risk, low_stock_risk.
  destruct (ratio_unit (count_rows
     (fun p => (Fin (current_stock p) <? Fin (safety_stock p))%num) inv) (len inv))
    as (q & -> & H0 & H1).
  - unfold len. destruct (rows inv); [congruence|discriminate].
  - apply count_rows_le.
  - eexists; split; [reflexivity|]. change (inject_Z 30) with (30 # 1).
    split; lra.
Qed.

(** C1: on non-empty frames the risk score is in [[0, 100]], whatever the
    generator draws for the operational risk. *)
Theorem calculate_risk_score_in_range
  (machine_data : DataFrame machine_row)
  (inventory_data : DataFrame inventory_row) (s : rng) :
  rows machine_data <> [] ->
  rows inventory_data <> [] ->
  exists v s',
    calculate_risk_score machine_data inventory_data s = (Ok v, s') /\
    (of_Z 0 <= v)%num /\ (v <= of_Z 100)%num.
Proof.
  intros Hm Hi. unfold calculate_risk_score, bind.
  destruct (uniform_range 5 15 s) as (r & -> & Hr5 & Hr15); [reflexivity|].
  destruct (machine_risk_bounds machine_data Hm) as (m & -> & Hm0 & Hm50).
  destruct (inventory_risk_bounds inventory_data Hi) as (i & -> & Hi0 & Hi30).
  unfold ret. eexists; eexists; split; [reflexivity|].
  cbn [Num.add]. unfold py_min, of_Z. cbn [Num.ltb].
  destruct (Qltb (m + i + r) (inject_Z 100)) eqn:E.
  - unfold Num.le; cbn [Num.leb]. rewrite !Qle_bool_iff.
    change (inject_Z 0) with 0. change (inject_Z 100) with (100 # 1).
    split; lra.
  - apply Qltb_ge in E. change (inject_Z 100) with (100 # 1) in E. lra.
Qed.

(** C5: on non-empty frames no divisor of the risk score is zero and
    every quotient is a finite number; nothing else guards the divisions,
    which yield [nan] on an empty frame. *)
Theorem calculate_risk_score_divisions_defined
  (machine_data : DataFrame machine_row)
  (inventory_data : DataFrame inventory_row) :
  rows machine_data <> [] ->
  rows inventory_data <> [] ->
  Num.is_zero (of_nat (len machine_data)) = false /\
  Num.is_zero (of_nat (len inventory_data)) = false /\
  is_finite (temp_risk machine_data) = true /\
  is_finite (vib_risk machine_data) = true /\
  is_finite (machine_risk machine_data) = true /\
  is_finite (inventory_risk inventory_data) = true /\
  (forall s, exists v s',
      calculate_risk_score machine_data inventory_data s = (Ok v, s') /\
      is_finite v = true) /\
  temp_risk (frame_of []) = NaN /\
  vib_risk (frame_of []) = NaN /\
  inventory_risk (frame_of []) = NaN.
Proof.
  intros Hm Hi.
  destruct (temp_risk_unit machine_data Hm) as (t & Ht & _).
  destruct (vib_risk_unit machine_data Hm) as (v & Hv & _).
  destruct (machine_risk_bounds machine_data Hm) as (m & Hmr & _).
  destruct (inventory_risk_bounds inventory_data Hi) as (i & Hir & _).
  repeat split; try (now apply len_nonzero);
    try (rewrite ?Ht, ?Hv, ?Hmr, ?Hir; reflexivity).
  intros s. unfold calculate_risk_score, bind.
  destruct (uniform_total 5 15 s) as (r & ->). rewrite Hmr, Hir.
  unfold ret. eexists; eexists; split; [reflexivity|].
  cbn [Num.add]. unfold py_min, of_Z. cbn [Num.ltb].
  now destruct (Qltb _ _).
Qed.

End risk_score_facts.

(** ** Loops in the monad *)

Section monad_facts.

(** A loop whose body always returns, with a result satisfying [P],
    returns one such result per element. *)
Lemma for_each_spec {A B} (f : A -> M B) (P : B -> Prop) (l : list A) :
  (forall x s, In x l -> exists y s', f x s = (Ok y, s') /\ P y) ->
  forall s, exists ys s',
    for_each f l s = (Ok ys, s') /\
    List.length ys = List.length l /\ Forall P ys.
Proof.
  induction l as [|x l IH]; intros Hf s.
  - exists [], s. repeat split. constructor.
  - destruct (Hf x s (or_introl eq_refl)) as (y & s1 & Hy & HP).
    destruct (IH (fun x' s' H => Hf x' s' (or_intror H)) s1)
      as (ys & s2 & Hys & Hlen & Hall).
    exists (y :: ys), s2. cbn [for_each]. unfold bind at 1. rewrite Hy.
    unfold bind at 1. rewrite Hys. unfold ret.
    repeat split; [cbn; now rewrite Hlen | now constructor].
Qed.

Lemma next_raw_run (s : rng) : next_raw s = (Ok (stream s (pos s)), advance s).
Proof. reflexivity. Qed.

Lemma randint_run (low high : Z) (s : rng) :
  low < high ->
  randint low high s = (Ok (low + stream s (pos s) mod (high - low)), advance s).
Proof.
  intros H. unfold randint. destruct (high <=? low) eqn:E; [lia|]. reflexivity.
Qed.

Lemma randint_range (low high : Z) (s : rng) :
  low < high ->
  exists z, randint low high s = (Ok z, advance s) /\ low <= z < high.
Proof.
  intros H. rewrite randint_run by exact H. eexists; split; [reflexivity|].
  pose proof (Z.mod_pos_bound (stream s (pos s)) (high - low)). lia.
Qed.

End monad_facts.

(** ** models/demand_forecasting.py *)

Section forecasting_facts.

Import demand_forecasting.
Context {L : Library}.

(** [max(0, x)] is never negative, whatever [x] is. *)
Lemma py_max_zero_nonneg (x : num) : (of_Z 0 <= py_max (of_Z 0) x)%num.
Proof. now apply py_max_lower. Qed.

Lemma forecast_step_nonneg (last_demand trend : num)
  (weekly_pattern : list (Z * num)) (i_date : nat * Z) (s : rng) :
  exists y s',
    forecast_step last_demand trend weekly_pattern i_date s = (Ok y, s') /\
    (of_Z 0 <= y)%num.
Proof.
  destruct i_date as [i d]. unfold forecast_step, normal, bind, ret.
  rewrite next_raw_run. eexists; eexists; split; [reflexivity|].
  apply py_max_zero_nonneg.
Qed.

End forecasting_facts.

Section reorder_facts.

Import demand_forecasting.
Context {L : Library}.
Local Open Scope Q_scope.

(** C4: for a positive unit cost the division of the EOQ formula is
    defined, the radicand is positive, and the economic order quantity
    is not negative. *)
Theorem calculate_reorder_point_eoq_nonneg (product_row : inventory_row) (s : rng) :
  sqrt_nonneg L ->
  0 < unit_cost product_row ->
  exists r s',
    calculate_reorder_point product_row s = (Ok r, s') /\
    economic_order_qty r =
      np_sqrt (of_Z 2 * of_Z (365 * 10) * of_Z 100
               / (Fin (unit_cost product_row) * dec 25 100))%num /\
    (of_Z 0 <= economic_order_qty r)%num.
Proof.
  intros Hsqrt Hcost. unfold calculate_reorder_point.
  unfold bind at 1, lift, true_div.
  set (h := (Fin (unit_cost product_row) * dec 25 100)%num).
  assert (Hh : h = Fin (unit_cost product_row * (25 # 100))) by reflexivity.
  assert (Hpos : 0 < unit_cost product_row * (25 # 100)) by lra.
  assert (Hz : Num.is_zero h = false).
  { rewrite Hh. cbn. destruct (Qeq_bool _ 0) eqn:E; [|reflexivity].
    apply Qeq_bool_iff in E. lra. }
  rewrite Hz. unfold bind at 1.
  destruct (uniform_total (8 # 10) (12 # 10) s) as (u & ->).
  unfold ret. eexists; eexists; split; [reflexivity|].
  cbn [economic_order_qty]. split; [reflexivity|].
  rewrite Hh. cbn [Num.mul Num.div of_Z].
  destruct (Qeq_bool (unit_cost product_row * (25 # 100)) 0) eqn:E.
  { apply Qeq_bool_iff in E. lra. }
  cbn [np_sqrt].
  set (q := inject_Z 2 * inject_Z (365 * 10) * inject_Z 100
            / (unit_cost product_row * (25 # 100))).
  assert (Hq : 0 < q).
  { subst q. apply Qlt_shift_div_l; [exact Hpos|]. reflexivity. }
  destruct (Qltb q 0) eqn:Eq0.
  { apply Qltb_lt in Eq0. lra. }
  unfold Num.le. cbn [Num.leb of_Z]. apply Qle_bool_iff.
  apply Hsqrt. lra.
Qed.

End reorder_facts.

Section inventory_health_facts.

Import demand_forecasting.
Local Open Scope string_scope.

Lemma get_set_extra (name : string) (values : list num) (cols : extra_columns) :
  get_extra name (set_extra name values cols) = Some values.
Proof.
  unfold get_extra. induction cols as [|[n v] cols IH]; cbn.
  - now rewrite String.eqb_refl.
  - destruct (String.eqb n name) eqn:E; cbn; rewrite E; [reflexivity|exact IH].
Qed.

(** After [calculate_inventory_health] the caller's frame carries the
    column [stock_value], whatever it carried before; its rows are the
    same. *)
Lemma calculate_inventory_health_assigns_stock_value
  (inventory_data : DataFrame inventory_row) :
  let after := snd (calculate_inventory_health inventory_data) in
  rows after = rows inventory_data /\
  get_extra "stock_value" (extra after) =
    Some (map (fun p => (Fin (current_stock p) * Fin (unit_cost p))%num)
              (rows inventory_data)).
Proof.
  cbn. split; [reflexivity|]. apply get_set_extra.
Qed.

(** A frame without the column [stock_value] is not left as it was. *)
Lemma calculate_inventory_health_modifies_frame
  (inventory_data : DataFrame inventory_row) :
  get_extra "stock_value" (extra inventory_data) = None ->
  snd (calculate_inventory_health inventory_data) <> inventory_data.
Proof.
  intros Hnone Heq.
  destruct (calculate_inventory_health_assigns_stock_value inventory_data)
    as [_ H].
  cbv zeta in H. rewrite Heq, Hnone in H. discriminate.
Qed.

End inventory_health_facts.

(** ** utils/data_processing.py: the demo data *)

Section demo_data_facts.

Import data_processing.
Context {L : Library}.

Lemma draws_ret {A} (P : A -> Prop) (a : A) : P a -> draws 0 P (ret a).
Proof.
  intros H s. exists a. unfold ret. rewrite Nat.add_0_r. now destruct s.
Qed.

Lemma draws_lift {A} (P : A -> Prop) (a : A) : P a -> draws 0 P (lift (Ok a)).
Proof. apply draws_ret. Qed.

Lemma draws_bind {A B} (k m : nat) (P : A -> Prop) (Q : B -> Prop)
  (c : M A) (f : A -> M B) :
  draws k P c -> (forall a, P a -> draws m Q (f a)) ->
  draws (k + m) Q (bind c f).
Proof.
  intros Hc Hf s. destruct (Hc s) as (a & Ha & HP).
  destruct (Hf a HP (mk_rng (stream s) (pos s + k))) as (b & Hb & HQ).
  exists b. unfold bind. rewrite Ha, Hb. cbn [stream pos].
  now rewrite Nat.add_assoc.
Qed.

Lemma draws_weaken {A} (k : nat) (P Q : A -> Prop) (c : M A) :
  (forall a, P a -> Q a) -> draws k P c -> draws k Q c.
Proof.
  intros HPQ Hc s. destruct (Hc s) as (a & Ha & HP). exists a; auto.
Qed.

Lemma draws_next_raw : draws 1 (fun _ => True) next_raw.
Proof.
  intros s. eexists. rewrite next_raw_run. unfold advance.
  now rewrite Nat.add_1_r.
Qed.

Lemma draws_uniform (low high : Q) : draws 1 (fun _ => True) (uniform low high).
Proof.
  intros s. destruct (uniform_total low high s) as (q & ->).
  eexists. unfold advance. now rewrite Nat.add_1_r.
Qed.

Lemma draws_randint (low high : Z) :
  low < high -> draws 1 (fun _ => True) (randint low high).
Proof.
  intros H s. rewrite randint_run by exact H.
  eexists. unfold advance. now rewrite Nat.add_1_r.
Qed.

(** A loop draws as many raw values as its iterations do together and
    returns one result per element. *)
Lemma draws_for_each {A B} (k : nat) (f : A -> M B) (l : list A) :
  (forall x, draws k (fun _ => True) (f x)) ->
  draws (List.length l * k)
        (fun ys => List.length ys = List.length l) (for_each f l).
Proof.
  intros Hf. induction l as [|x l IH].
  - apply draws_ret. reflexivity.
  - cbn [for_each List.length Nat.mul].
    apply draws_bind with (P := fun _ => True); [apply Hf|].
    intros y _. rewrite <- (Nat.add_0_r (List.length l * k)).
    apply draws_bind with (P := fun ys => List.length ys = List.length l);
      [exact IH|].
    intros ys Hys. apply draws_ret. cbn. now rewrite Hys.
Qed.

Lemma draws_randint_array (low high : Z) (n : nat) :
  low < high ->
  draws n (fun l => List.length l = n) (randint_array low high n).
Proof.
  intros H. unfold randint_array.
  pose proof (draws_for_each 1 (fun _ : nat => randint low high) (seq 0 n)
                (fun _ => draws_randint low high H)) as D.
  rewrite length_seq, Nat.mul_1_r in D. exact D.
Qed.

Lemma draws_uniform_array (low high : Q) (n : nat) :
  draws n (fun l => List.length l = n) (uniform_array low high n).
Proof.
  unfold uniform_array.
  pose proof (draws_for_each 1 (fun _ : nat => uniform low high) (seq 0 n)
                (fun _ => draws_uniform low high)) as D.
  rewrite length_seq, Nat.mul_1_r in D. exact D.
Qed.

Local Open Scope string_scope.

Lemma DataFrame_of_dict_ok (n : string) (c : column) (rest : list (string * column)) :
  forallb (fun p => Nat.eqb (column_length (snd p)) (column_length c)) rest = true ->
  DataFrame_of_dict ((n, c) :: rest) = Ok ((n, c) :: rest).
Proof. intros H. unfold DataFrame_of_dict. now rewrite H. Qed.

Lemma range_length (a b : Z) : List.length (range a b) = Z.to_nat (b - a).
Proof. unfold range. now rewrite length_map, length_seq. Qed.

Lemma date_range_end_length (e : Z) (n : nat) (step : Z) :
  List.length (date_range_end e n step) = n.
Proof. unfold date_range_end. now rewrite length_map, length_seq. Qed.

(** The inventory frame is always built and takes 80 raw values. *)
Lemma inventory_demo_draws : draws 80 (fun _ => True) inventory_demo.
Proof.
  unfold inventory_demo.
  change 80%nat with (20 + (20 + (20 + (20 + 0))))%nat.
  apply draws_bind with (P := fun l => List.length l = 20%nat);
    [apply draws_randint_array; lia|]. intros cs Hcs.
  apply draws_bind with (P := fun l => List.length l = 20%nat);
    [apply draws_randint_array; lia|]. intros ss Hss.
  apply draws_bind with (P := fun l => List.length l = 20%nat);
    [apply draws_randint_array; lia|]. intros lt Hlt.
  apply draws_bind with (P := fun l => List.length l = 20%nat);
    [apply draws_uniform_array|]. intros uc Huc.
  rewrite DataFrame_of_dict_ok; [now apply draws_lift|].
  cbn [forallb snd column_length]. rewrite length_map, Hcs, Hss, Hlt, Huc.
  reflexivity.
Qed.

(** The operations frame is always built and takes 40 raw values. *)
Lemma operations_demo_draws : draws 40 (fun _ => True) operations_demo.
Proof.
  unfold operations_demo.
  change 40%nat with (8 + (8 + (8 + (8 + (8 + 0)))))%nat.
  change (List.length operational_areas) with 8%nat.
  apply draws_bind with (P := fun l => List.length l = 8%nat);
    [apply draws_uniform_array|]. intros ut Hut.
  apply draws_bind with (P := fun l => List.length l = 8%nat);
    [apply draws_uniform_array|]. intros pr Hpr.
  apply draws_bind with (P := fun l => List.length l = 8%nat);
    [apply draws_uniform_array|]. intros dt Hdt.
  apply draws_bind with (P := fun l => List.length l = 8%nat);
    [apply draws_uniform_array|]. intros ef Hef.
  apply draws_bind with (P := fun l => List.length l = 8%nat);
    [apply draws_randint_array; lia|]. intros th Hth.
  rewrite DataFrame_of_dict_ok; [now apply draws_lift|].
  cbn [forallb snd column_length]. rewrite Hut, Hpr, Hdt, Hef, Hth.
  reflexivity.
Qed.

(** The machinery frame is always built and takes 30 raw values; the
    drawn columns and the state left behind do not depend on the date. *)
Lemma machines_demo_run (s : rng) :
  exists temperature vibration operational_hours,
    forall now,
      machines_demo now s =
        (Ok (machines_table now temperature vibration operational_hours),
         mk_rng (stream s) (pos s + 30)).
Proof.
  destruct (draws_uniform_array 65 95 num_machines s) as (t & Ht & Hlt).
  destruct (draws_uniform_array (8 # 10) (45 # 10) num_machines
              (mk_rng (stream s) (pos s + num_machines))) as (v & Hv & Hlv).
  destruct (draws_randint_array 1000 8000 num_machines ltac:(lia)
              (mk_rng (stream s) (pos s + num_machines + num_machines)))
    as (h & Hh & Hlh).
  cbn [stream pos] in Hv, Hh.
  exists t, v, h. intros now. unfold machines_demo.
  unfold bind at 1. rewrite Ht.
  unfold bind at 1. rewrite Hv.
  unfold bind at 1. rewrite Hh.
  unfold machines_table at 1. rewrite DataFrame_of_dict_ok.
  - unfold lift, machines_table. do 2 f_equal. unfold num_machines. lia.
  - cbn [forallb snd column_length].
    rewrite length_map, !range_length, Hlt, Hlv, Hlh, date_range_end_length.
    reflexivity.
Qed.

(** One demand record is always built and takes two raw values. *)
Lemma demand_record_for_draws (product_id date : Z) :
  draws 2 (fun _ => True) (demand_record_for product_id date).
Proof.
  unfold demand_record_for.
  change 2%nat with (1 + (0 + (0 + (1 + 0))))%nat.
  apply draws_bind with (P := fun _ => True); [apply draws_randint; lia|].
  intros b _.
  apply draws_bind with (P := fun _ => True).
  { destruct (_ || _); [now apply draws_lift | now apply draws_ret]. }
  intros b' _.
  apply draws_bind with (P := fun _ => True).
  { cbn. now apply draws_lift. }
  intros i _.
  apply draws_bind with (P := fun _ => True); [apply draws_randint; lia|].
  intros r _. now apply draws_ret.
Qed.

(** The demand frame is always built; the number of raw values it takes
    does not depend on the date. *)
Lemma demand_demo_draws (now : Z) :
  draws (20 * (180 * 2)) (fun _ => True) (demand_demo now).
Proof.
  unfold demand_demo.
  rewrite <- (Nat.add_0_r (20 * (180 * 2))).
  apply draws_bind with (P := fun _ => True).
  - eapply draws_weaken; [|apply draws_for_each with (k := (180 * 2)%nat)].
    + trivial.
    + intros pid. eapply draws_weaken; [trivial|].
      pose proof (draws_for_each 2 (demand_record_for pid)
                    (date_range_end now 180 1)
                    (demand_record_for_draws pid)) as D.
      rewrite date_range_end_length in D. exact D.
  - intros recs _. now apply draws_ret.
Qed.

(** The generator is seeded first: the state it was in is forgotten. *)
Lemma generate_demo_data_ignores_state (now : Z) (s1 s2 : rng) :
  generate_demo_data now s1 = generate_demo_data now s2.
Proof. reflexivity. Qed.

(** [generate_demo_data] always returns, and the inventory frame, the
    drawn columns of the machinery frame, the operations frame and the
    state it leaves the generator in are the same at every date. *)
Lemma generate_demo_data_run :
  exists inventory_df temperature vibration operational_hours operations_df final,
    forall now s, exists demand_df,
      generate_demo_data now s =
        (Ok (inventory_df,
             machines_table now temperature vibration operational_hours,
             demand_df, operations_df), final).
Proof.
  set (s0 := mk_rng (seed_stream 42) 0).
  destruct (inventory_demo_draws s0) as (inv & Hinv & _).
  destruct (machines_demo_run (mk_rng (stream s0) (pos s0 + 80)))
    as (t & v & h & Hm).
  cbn [stream pos] in Hm.
  set (s3 := mk_rng (stream s0) (pos s0 + 80 + 30)) in *.
  destruct (operations_demo_draws (mk_rng (stream s3) (pos s3 + 20 * (180 * 2))))
    as (ops & Hops & _).
  exists inv, t, v, h, ops. eexists. intros now s.
  destruct (demand_demo_draws now s3) as (d & Hd & _).
  exists d. unfold generate_demo_data, np_random_seed.
  unfold bind at 1. fold s0.
  unfold bind at 1. rewrite Hinv.
  unfold bind at 1. rewrite (Hm now).
  unfold bind at 1. rewrite Hd.
  unfold bind at 1. rewrite Hops. reflexivity.
Qed.

(** C7: two invocations of [generate_demo_data], at any dates and from
    any states of the generator, both return; they return the same
    inventory and operations frames and leave the generator in the same
    state; the machinery frames agree on every column but
    [last_maintenance]; and at equal dates they agree entirely, demand
    history included. *)
Theorem generate_demo_data_deterministic (now1 now2 : Z) (s1 s2 : rng) :
  exists inventory_df machines1 machines2 demand1 demand2 operations_df final,
    generate_demo_data now1 s1 =
      (Ok (inventory_df, machines1, demand1, operations_df), final) /\
    generate_demo_data now2 s2 =
      (Ok (inventory_df, machines2, demand2, operations_df), final) /\
    (forall name, name <> "last_maintenance" ->
       get_column name machines1 = get_column name machines2) /\
    (now1 = now2 -> machines1 = machines2 /\ demand1 = demand2).
Proof.
  destruct generate_demo_data_run as (inv & t & v & h & ops & final & Hrun).
  destruct (Hrun now1 s1) as (d1 & H1).
  destruct (Hrun now2 s2) as (d2 & H2).
  exists inv, (machines_table now1 t v h), (machines_table now2 t v h),
         d1, d2, ops, final.
  split; [exact H1|]. split; [exact H2|]. split.
  - intros name Hname. unfold machines_table, get_column. cbn [find fst].
    repeat match goal with
           | |- context [String.eqb ?a name] =>
               let E := fresh "E" in
               destruct (String.eqb a name) eqn:E;
               [try (apply String.eqb_eq in E; congruence)|]
           end; reflexivity.
  - intros <-. split; [reflexivity|].
    rewrite (generate_demo_data_ignores_state now1 s1 s2), H2 in H1.
    congruence.
Qed.

End demo_data_facts.

(** ** utils/data_processing.py: loading *)

Section load_data_facts.

Import data_processing.
Context {L : Library}.
Local Open Scope string_scope.

(** [generate_demo_data] always returns. *)
Lemma generate_demo_data_returns (now : Z) (s : rng) :
  exists frames final, generate_demo_data now s = (Ok frames, final).
Proof.
  destruct generate_demo_data_run as (inv & t & v & h & ops & final & Hrun).
  destruct (Hrun now s) as (d & H). eauto.
Qed.

(** Only [FileNotFoundError] is handled: the loader returns what the
    reading returns, raises what it raises, and runs the demo generator
    exactly when the reading raises [FileNotFoundError]. *)
Lemma load_data_handles_only_missing_files (fs : filesystem) (now : Z) (s : rng) :
  load_data fs now s =
    match read_all fs s with
    | (Raise FileNotFoundError, s') => generate_demo_data now s'
    | other => other
    end.
Proof.
  unfold load_data, try_except.
  destruct (read_all fs s) as [[r|e] s']; [reflexivity|].
  now destruct e.
Qed.

(** Reading does not touch the generator. *)
Lemma read_all_keeps_state (fs : filesystem) (s : rng) :
  snd (read_all fs s) = s.
Proof.
  unfold read_all, bind, lift, ret.
  destruct (fs "data/inventory_data.csv"); [|reflexivity].
  destruct (fs "data/machinery_data.csv"); [|reflexivity].
  destruct (fs "data/demand_history.csv") as [d|]; [|reflexivity].
  destruct (fs "data/operations_data.csv"); [|reflexivity].
  destruct (has_column "date" d); [|reflexivity].
  destruct (get_column "date" d); [|reflexivity].
  now destruct (to_datetime c).
Qed.

(** The first read that fails decides what the reading raises. *)
Lemma read_all_first_failure (fs : filesystem) (s : rng)
  (before : list string) (path : string) (after : list string) (e : exn) :
  csv_paths = (before ++ path :: after)%list ->
  Forall (fun p => exists t, fs p = Ok t) before ->
  fs path = Raise e ->
  read_all fs s = (Raise e, s).
Proof.
  intros Hsplit Hbefore Hpath. unfold csv_paths in Hsplit.
  unfold read_all, bind, lift.
  repeat (destruct before as [|? before];
          [cbn in Hsplit; injection Hsplit as <- <-; rewrite Hpath; reflexivity
          |cbn in Hsplit; injection Hsplit as <- Hsplit;
           apply Forall_cons_iff in Hbefore; destruct Hbefore as [[? ->] Hbefore]]).
  destruct before; discriminate.
Qed.

(** C3, amended: when the first read that fails raises
    [FileNotFoundError], [load_data] returns what [generate_demo_data]
    returns; and whatever else the reading raises, [load_data] raises. *)
Theorem load_data_falls_back_on_first_missing_file
  (fs : filesystem) (now : Z) (s : rng)
  (before : list string) (path : string) (after : list string) :
  csv_paths = (before ++ path :: after)%list ->
  Forall (fun p => exists t, fs p = Ok t) before ->
  fs path = Raise FileNotFoundError ->
  load_data fs now s = generate_demo_data now s /\
  (forall fs' e,
     fst (read_all fs' s) = Raise e -> e <> FileNotFoundError ->
     load_data fs' now s = (Raise e, s)).
Proof.
  intros Hsplit Hbefore Hpath. split.
  - rewrite load_data_handles_only_missing_files.
    now rewrite (read_all_first_failure fs s before path after
                   FileNotFoundError Hsplit Hbefore Hpath).
  - intros fs' e Hraise Hne.
    rewrite load_data_handles_only_missing_files.
    pose proof (read_all_keeps_state fs' s) as Hs.
    destruct (read_all fs' s) as [r s']. cbn in Hraise, Hs. subst.
    now destruct e.
Qed.

End load_data_facts.

(** C3 as stated fails: the machinery file is missing, but the
    inventory file, read before it, raises another exception; [load_data]
    raises that exception and does not return the demo data. *)
Lemma load_data_missing_file_behind_parse_error :
  (exists path, In path data_processing.csv_paths /\
                unparsable_inventory path = Raise FileNotFoundError) /\
  data_processing.load_data (L := toy_library) unparsable_inventory 0 toy_rng =
    (Raise (OtherError "ParserError"), toy_rng) /\
  data_processing.load_data (L := toy_library) unparsable_inventory 0 toy_rng <>
    data_processing.generate_demo_data (L := toy_library) 0 toy_rng.
Proof.
  split; [|split].
  - exists "data/machinery_data.csv"%string. split; [|reflexivity].
    cbn. auto.
  - reflexivity.
  - destruct (generate_demo_data_returns (L := toy_library) 0 toy_rng)
      as (frames & final & Hgen).
    rewrite Hgen. discriminate.
Qed.

(** ** models/decision_engine.py: the recommendations *)

Section recommendation_facts.

Import decision_engine.
Context {L : Library}.
Local Open Scope string_scope.

(** A loop raises as soon as one of its iterations does, when the other
    iterations return or raise the same exception. *)
Lemma for_each_raises {A B} (f : A -> M B) (e : exn) (l : list A) :
  (forall x s, In x l ->
     (exists y s', f x s = (Ok y, s')) \/ (exists s', f x s = (Raise e, s'))) ->
  (exists x, In x l /\ forall s, exists s', f x s = (Raise e, s')) ->
  forall s, exists s', for_each f l s = (Raise e, s').
Proof.
  induction l as [|x l IH]; intros Hall (x0 & Hin & Hx0) s; [destruct Hin|].
  cbn [for_each]. unfold bind at 1.
  destruct (Hall x s (or_introl eq_refl)) as [(y & s1 & Hy)|(s1 & Hy)];
    rewrite Hy; [|eauto].
  destruct Hin as [<-|Hin].
  - destruct (Hx0 s) as (s2 & H2). congruence.
  - destruct (IH (fun x' s' H => Hall x' s' (or_intror H))
                 (ex_intro _ x0 (conj Hin Hx0)) s1) as (s2 & H2).
    unfold bind. rewrite H2. eauto.
Qed.

Lemma true_div_defined (x y : num) :
  Num.is_zero y = false -> true_div x y = Ok (x / y)%num.
Proof. intros H. unfold true_div. now rewrite H. Qed.

Lemma true_div_by_zero (x y : num) :
  Num.is_zero y = true -> true_div x y = Raise ZeroDivisionError.
Proof. intros H. unfold true_div. now rewrite H. Qed.

Lemma critical_machine_recommendation_draws (machine : machine_row) :
  draws 2 (fun r => priority r = 1 /\ category r = "Predictive Maintenance")
        (critical_machine_recommendation machine).
Proof.
  unfold critical_machine_recommendation.
  rewrite !true_div_defined by reflexivity.
  change 2%nat with (0 + (0 + (1 + (1 + 0))))%nat.
  apply draws_bind with (P := fun _ => True); [now apply draws_lift|]. intros a _.
  apply draws_bind with (P := fun _ => True); [now apply draws_lift|]. intros b _.
  apply draws_bind with (P := fun _ => True); [apply draws_randint; lia|].
  intros d _.
  apply draws_bind with (P := fun _ => True); [apply draws_randint; lia|].
  intros c _. apply draws_ret. split; reflexivity.
Qed.

Lemma py_int_finite (q : Q) : exists z, py_int (Fin q) = Ok z.
Proof. eexists; reflexivity. Qed.

(** The body of the low-stock loop returns when the product has some
    stock left. *)
Lemma low_stock_recommendation_draws (product : inventory_row) :
  ~ (current_stock product == 0)%Q ->
  draws 2 (fun r => priority r = 2 /\ category r = "Inventory Management")
        (low_stock_recommendation product).
Proof.
  intros Hstock. unfold low_stock_recommendation.
  change 2%nat with (1 + (1 + (0 + (0 + 0))))%nat.
  apply draws_bind with (P := fun _ => True); [apply draws_randint; lia|].
  intros d _.
  apply draws_bind with (P := fun _ => True); [apply draws_randint; lia|].
  intros p _.
  apply draws_bind with (P := fun _ => True); [now apply draws_lift|].
  intros q _.
  rewrite true_div_defined.
  - apply draws_bind with (P := fun _ => True); [now apply draws_lift|].
    intros i _. apply draws_ret. split; reflexivity.
  - cbn. destruct (Qeq_bool (current_stock product) 0) eqn:E; [|reflexivity].
    apply Qeq_bool_iff in E. contradiction.
Qed.

(** The body of the low-stock loop raises [ZeroDivisionError] when the
    product is out of stock. *)
Lemma low_stock_recommendation_raises (product : inventory_row) (s : rng) :
  (current_stock product == 0)%Q ->
  exists s', low_stock_recommendation product s = (Raise ZeroDivisionError, s').
Proof.
  intros Hstock. unfold low_stock_recommendation.
  unfold bind at 1. rewrite randint_run by lia.
  unfold bind at 1. rewrite randint_run by lia.
  unfold bind at 1. cbn [Num.mul Num.sub Num.add Num.opp of_Z py_int lift].
  rewrite true_div_by_zero.
  - unfold bind, lift. eauto.
  - cbn. now apply Qeq_bool_iff.
Qed.

Lemma medium_risk_recommendation_draws (machine : machine_row) :
  draws 1 (fun r => priority r = 2 /\ category r = "Predictive Maintenance")
        (medium_risk_recommendation machine).
Proof.
  unfold medium_risk_recommendation.
  change 1%nat with (1 + 0)%nat.
  apply draws_bind with (P := fun _ => True); [apply draws_randint; lia|].
  intros r _. apply draws_ret. split; reflexivity.
Qed.

Lemma bottleneck_recommendation_draws (bottleneck : operations_row) :
  draws 3 (fun r => priority r = 3 /\ category r = "Operations Optimization")
        (bottleneck_recommendation bottleneck).
Proof.
  unfold bottleneck_recommendation.
  change 3%nat with (1 + (1 + (1 + 0)))%nat.
  apply draws_bind with (P := fun _ => True); [apply draws_randint; lia|].
  intros m _.
  apply draws_bind with (P := fun _ => True); [apply draws_randint; lia|].
  intros t _.
  apply draws_bind with (P := fun _ => True); [apply draws_randint; lia|].
  intros o _. apply draws_ret. split; reflexivity.
Qed.

Lemma overstock_recommendation_draws (product : inventory_row) :
  draws 0 (fun r => priority r = 3 /\ category r = "Inventory Optimization")
        (overstock_recommendation product).
Proof.
  unfold overstock_recommendation.
  change 0%nat with (0 + 0)%nat.
  apply draws_bind with (P := fun _ => True); [now apply draws_lift|].
  intros o _. apply draws_ret. split; reflexivity.
Qed.

Lemma draws_returns {A} (k : nat) (P : A -> Prop) (c : M A) (s : rng) :
  draws k P c -> exists a s', c s = (Ok a, s') /\ P a.
Proof. intros H. destruct (H s) as (a & Ha & HP). eauto. Qed.

Lemma insert_by_smallest {A} (key : A -> Z) (x : A) (l : list A) :
  Forall (fun y => key x <= key y) l -> insert_by key x l = x :: l.
Proof.
  intros H. destruct l as [|y l]; [reflexivity|].
  apply Forall_inv in H. cbn. destruct (key y <? key x)%Z eqn:E; [lia|reflexivity].
Qed.

(** The stable sort leaves a sorted list as it is. *)
Lemma sort_by_sorted {A} (key : A -> Z) (l : list A) :
  StronglySorted (fun a b => key a <= key b) l -> sort_by key l = l.
Proof.
  unfold sort_by. induction 1 as [|x l Hs IH Hx]; [reflexivity|].
  cbn [fold_right]. rewrite IH. now apply insert_by_smallest.
Qed.

Lemma sorted_blocks {A} (key : A -> Z) (a b : Z) (l1 l2 : list A) :
  a <= b ->
  Forall (fun x => key x = a) l1 ->
  Forall (fun x => b <= key x) l2 ->
  StronglySorted (fun x y => key x <= key y) l2 ->
  StronglySorted (fun x y => key x <= key y) (l1 ++ l2).
Proof.
  intros Hab H1 H2 Hs. induction H1 as [|x l1 Hx H1 IH]; [exact Hs|].
  cbn. constructor; [exact IH|].
  apply Forall_app. split.
  - eapply Forall_impl; [|exact H1]. cbn. intros y Hy. lia.
  - eapply Forall_impl; [|exact H2]. cbn. intros y Hy. lia.
Qed.

Lemma constant_sorted {A} (key : A -> Z) (a : Z) (l : list A) :
  Forall (fun x => key x = a) l ->
  StronglySorted (fun x y => key x <= key y) l.
Proof.
  intros H. rewrite <- (app_nil_r l).
  apply sorted_blocks with (a := a) (b := a);
    [lia | exact H | constructor | constructor].
Qed.

(** X15: what [generate_recommendations] returns when no product among
    the first three low-stock products is out of stock: the recommendations
    of the five loops, in that order, which is already the order of the
    priorities; one per critical machine, and at most three, two, two and
    two for the other loops. *)
Lemma generate_recommendations_structure
  (machine_data : DataFrame machine_row)
  (inventory_data : DataFrame inventory_row)
  (operations_data : DataFrame operations_row) (s : rng) :
  Forall (fun p => ~ (current_stock p == 0)%Q)
         (rows (head 3 (select is_low_stock inventory_data))) ->
  exists r1 r2 r3 r4 r5 s',
    generate_recommendations machine_data inventory_data operations_data s =
      (Ok (r1 ++ r2 ++ r3 ++ r4 ++ r5)%list, s') /\
    StronglySorted (fun a b => priority a <= priority b)
                   (r1 ++ r2 ++ r3 ++ r4 ++ r5)%list /\
    List.length r1 = count_rows is_critical machine_data /\
    Forall (fun r => priority r = 1 /\ category r = "Predictive Maintenance") r1 /\
    List.length r2 = Nat.min 3 (count_rows is_low_stock inventory_data) /\
    Forall (fun r => priority r = 2 /\ category r = "Inventory Management") r2 /\
    List.length r3 = Nat.min 2 (count_rows is_medium_risk machine_data) /\
    Forall (fun r => priority r = 2 /\ category r = "Predictive Maintenance") r3 /\
    List.length r4 = Nat.min 2 (count_rows is_bottleneck operations_data) /\
    Forall (fun r => priority r = 3 /\ category r = "Operations Optimization") r4 /\
    List.length r5 = Nat.min 2 (count_rows is_overstock inventory_data) /\
    Forall (fun r => priority r = 3 /\ category r = "Inventory Optimization") r5.
Proof.
  intros Hstock. unfold generate_recommendations.
  destruct (for_each_spec critical_machine_recommendation
              (fun r => priority r = 1 /\ category r = "Predictive Maintenance")
              (rows (select is_critical machine_data))
              (fun x s0 _ => draws_returns _ _ _ s0
                               (critical_machine_recommendation_draws x)) s)
    as (r1 & s1 & H1 & L1 & P1).
  destruct (for_each_spec low_stock_recommendation
              (fun r => priority r = 2 /\ category r = "Inventory Management")
              (rows (head 3 (select is_low_stock inventory_data)))) with (s := s1)
    as (r2 & s2 & H2 & L2 & P2).
  { intros x s0 Hin. apply draws_returns with (k := 2%nat).
    apply low_stock_recommendation_draws.
    rewrite Forall_forall in Hstock. now apply Hstock. }
  destruct (for_each_spec medium_risk_recommendation
              (fun r => priority r = 2 /\ category r = "Predictive Maintenance")
              (rows (head 2 (select is_medium_risk machine_data)))
              (fun x s0 _ => draws_returns _ _ _ s0
                               (medium_risk_recommendation_draws x)) s2)
    as (r3 & s3 & H3 & L3 & P3).
  destruct (for_each_spec bottleneck_recommendation
              (fun r => priority r = 3 /\ category r = "Operations Optimization")
              (rows (head 2 (select is_bottleneck operations_data)))
              (fun x s0 _ => draws_returns _ _ _ s0
                               (bottleneck_recommendation_draws x)) s3)
    as (r4 & s4 & H4 & L4 & P4).
  destruct (for_each_spec overstock_recommendation
              (fun r => priority r = 3 /\ category r = "Inventory Optimization")
              (rows (head 2 (select is_overstock inventory_data)))
              (fun x s0 _ => draws_returns _ _ _ s0
                               (overstock_recommendation_draws x)) s4)
    as (r5 & s5 & H5 & L5 & P5).
  assert (Hsorted : StronglySorted (fun a b => priority a <= priority b)
                      (r1 ++ r2 ++ r3 ++ r4 ++ r5)%list).
  { apply sorted_blocks with (a := 1) (b := 2); [lia| | |].
    - eapply Forall_impl; [|exact P1]. now intros r [? _].
    - repeat (apply Forall_app; split);
        (eapply Forall_impl; [|eassumption]); intros r [Hr _]; rewrite Hr; lia.
    - rewrite app_assoc.
      apply sorted_blocks with (a := 2) (b := 3); [lia| | |].
      + apply Forall_app; split;
          (eapply Forall_impl; [|eassumption]); now intros r [? _].
      + apply Forall_app; split;
          (eapply Forall_impl; [|eassumption]); intros r [Hr _]; rewrite Hr; lia.
      + apply constant_sorted with (a := 3).
        apply Forall_app; split;
          (eapply Forall_impl; [|eassumption]); now intros r [? _]. }
  exists r1, r2, r3, r4, r5, s5.
  split.
  { unfold bind at 1. rewrite H1. unfold bind at 1. rewrite H2.
    unfold bind at 1. rewrite H3. unfold bind at 1. rewrite H4.
    unfold bind at 1. rewrite H5. unfold ret. cbn [app].
    rewrite <- !app_assoc. now rewrite (sort_by_sorted priority _ Hsorted). }
  split; [exact Hsorted|].
  cbn [head select rows] in L2, L3, L4, L5. cbn [select rows] in L1.
  rewrite length_firstn in L2, L3, L4, L5.
  repeat split; assumption.
Qed.

(** X16: when a product among the first three low-stock products is out
    of stock, [generate_recommendations] raises [ZeroDivisionError]. *)
Lemma generate_recommendations_raises
  (machine_data : DataFrame machine_row)
  (inventory_data : DataFrame inventory_row)
  (operations_data : DataFrame operations_row) (s : rng) :
  Exists (fun p => (current_stock p == 0)%Q)
         (rows (head 3 (select is_low_stock inventory_data))) ->
  fst (generate_recommendations machine_data inventory_data operations_data s)
  = Raise ZeroDivisionError.
Proof.
  intros Hzero. unfold generate_recommendations.
  destruct (for_each_spec critical_machine_recommendation (fun _ => True)
              (rows (select is_critical machine_data))) with (s := s)
    as (r1 & s1 & H1 & _).
  { intros x s0 _.
    destruct (draws_returns _ _ _ s0 (critical_machine_recommendation_draws x))
      as (a & s' & Ha & _). eauto. }
  unfold bind at 1. rewrite H1.
  destruct (for_each_raises low_stock_recommendation ZeroDivisionError
              (rows (head 3 (select is_low_stock inventory_data)))) with (s := s1)
    as (s2 & H2).
  - intros x s0 _.
    destruct (Qeq_dec (current_stock x) 0) as [Hz|Hnz].
    + right. now apply low_stock_recommendation_raises.
    + left. destruct (draws_returns _ _ _ s0
                        (low_stock_recommendation_draws x Hnz))
        as (a & s' & Ha & _). eauto.
  - apply Exists_exists in Hzero. destruct Hzero as (x & Hin & Hz).
    exists x. split; [exact Hin|]. intros s0.
    now apply low_stock_recommendation_raises.
  - unfold bind at 1. rewrite H2. reflexivity.
Qed.

End recommendation_facts.

(** C8 fails on the code: with a product that is out of stock among the
    first three low-stock products, [generate_recommendations] raises
    [ZeroDivisionError] where it computes [increase_pct], and returns no
    list. *)
Theorem generate_recommendations_raises_when_out_of_stock :
  fst (decision_engine.generate_recommendations (L := toy_library)
         sample_machines out_of_stock_inventory sample_operations toy_rng)
  = Raise ZeroDivisionError.
Proof. vm_compute. reflexivity. Qed.

(** ** models/demand_forecasting.py: the inventory health *)

Section inventory_health_evaluation.

Import demand_forecasting.
Local Open Scope string_scope.

(** C2 fails on the code: [calculate_inventory_health] leaves the frame
    it was given with a new column, [stock_value]. *)
Theorem calculate_inventory_health_mutates_input :
  extra sample_inventory = [] /\
  extra (snd (calculate_inventory_health sample_inventory)) =
    [("stock_value",
      [(Fin 60 * Fin (125 # 10))%num; (Fin 310 * Fin 8)%num;
       (Fin 140 * Fin 42)%num])] /\
  snd (calculate_inventory_health sample_inventory) <> sample_inventory.
Proof.
  split; [reflexivity|]. split; [reflexivity|].
  now apply calculate_inventory_health_modifies_frame.
Qed.

End inventory_health_evaluation.

(** ** Instances *)

Section instances.

Local Open Scope string_scope.

(** The integer square root of the concrete library is not negative. *)
Lemma toy_library_sqrt_nonneg : sqrt_nonneg toy_library.
Proof.
  intros q _. cbn. change 0%Q with (inject_Z 0). rewrite <- Zle_Qle.
  apply Z.sqrt_nonneg.
Qed.

(** The risk score of the sample frames is in [[0, 100]]. *)
Lemma calculate_risk_score_in_range_witness :
  rows sample_machines <> [] /\
  rows sample_inventory <> [] /\
  exists v s',
    decision_engine.calculate_risk_score sample_machines sample_inventory toy_rng
      = (Ok v, s') /\
    (of_Z 0 <= v)%num /\ (v <= of_Z 100)%num.
Proof.
  split; [discriminate|]. split; [discriminate|].
  apply calculate_risk_score_in_range; discriminate.
Defined.

(** The divisors of the risk score of the sample frames are not zero and
    its quotients are finite. *)
Lemma calculate_risk_score_divisions_defined_witness :
  rows sample_machines <> [] /\
  rows sample_inventory <> [] /\
  Num.is_zero (of_nat (len sample_machines)) = false /\
  Num.is_zero (of_nat (len sample_inventory)) = false /\
  is_finite (decision_engine.temp_risk sample_machines) = true /\
  is_finite (decision_engine.vib_risk sample_machines) = true /\
  is_finite (decision_engine.inventory_risk sample_inventory) = true.
Proof.
  split; [discriminate|]. split; [discriminate|].
  destruct (calculate_risk_score_divisions_defined sample_machines sample_inventory)
    as (H1 & H2 & H3 & H4 & _ & H6 & _); [discriminate | discriminate |].
  repeat split; assumption.
Defined.

(** Without any of the four files the loader returns the demo data. *)
Lemma load_data_falls_back_on_first_missing_file_witness :
  no_files "data/inventory_data.csv" = Raise FileNotFoundError /\
  data_processing.load_data (L := toy_library) no_files 0 toy_rng =
  data_processing.generate_demo_data (L := toy_library) 0 toy_rng.
Proof.
  split; [reflexivity|].
  apply (load_data_falls_back_on_first_missing_file (L := toy_library)
           no_files 0 toy_rng [] "data/inventory_data.csv"
           ["data/machinery_data.csv"; "data/demand_history.csv";
            "data/operations_data.csv"]);
    [reflexivity | constructor | reflexivity].
Defined.

(** The economic order quantity of a product that costs 12.5. *)
Lemma calculate_reorder_point_eoq_nonneg_witness :
  (0 < unit_cost (mk_product 1 "Wheat Flour Premium" 60 90 5 (125 # 10)))%Q /\
  exists r s',
    demand_forecasting.calculate_reorder_point (L := toy_library)
      (mk_product 1 "Wheat Flour Premium" 60 90 5 (125 # 10)) toy_rng = (Ok r, s') /\
    (of_Z 0 <= demand_forecasting.economic_order_qty r)%num.
Proof.
  split; [reflexivity|].
  destruct (calculate_reorder_point_eoq_nonneg (L := toy_library)
              (mk_product 1 "Wheat Flour Premium" 60 90 5 (125 # 10)) toy_rng
              toy_library_sqrt_nonneg)
    as (r & s' & H1 & _ & H3); [reflexivity|].
  exists r, s'. split; [exact H1 | exact H3].
Defined.

End instances.

(* ================================================================== *)
(** * Further properties *)
(* ================================================================== *)

(** ** Clamping *)

Section clamp_facts.

Local Open Scope Q_scope.

(** [max(lo, min(hi, x))] of a finite [x], for [lo <= hi]: [x] itself
    inside the interval, the nearer bound outside. *)
Lemma clamp_fin (lo hi x : Q) :
  lo <= hi ->
  exists c, py_max (Fin lo) (py_min (Fin hi) (Fin x)) = Fin c /\
            lo <= c /\ c <= hi /\
            (lo <= x -> x <= hi -> c == x) /\
            (x <= lo -> c == lo) /\ (hi <= x -> c == hi).
Proof.
  intros Hlh. unfold py_max, py_min, Num.gtb. cbn [Num.ltb].
  destruct (Qltb x hi) eqn:E1.
  - apply Qltb_lt in E1. cbn [Num.ltb].
    destruct (Qltb lo x) eqn:E2.
    + apply Qltb_lt in E2. exists x. repeat split; try lra; intros; lra.
    + apply Qltb_ge in E2. exists lo. repeat split; try lra; intros; lra.
  - apply Qltb_ge in E1. cbn [Num.ltb].
    destruct (Qltb lo hi) eqn:E2.
    + apply Qltb_lt in E2. exists hi. repeat split; try lra; intros; lra.
    + apply Qltb_ge in E2. exists lo. repeat split; try lra; intros; lra.
Qed.

End clamp_facts.

(** ** models/decision_engine.py: more on the risk score *)

Section risk_score_more.

Import decision_engine.
Local Open Scope Q_scope.

(** X1: on non-empty frames the risk score is a finite number of at
    least 5 and at most 95: the cap at 100 is never reached. *)
Theorem calculate_risk_score_between_5_and_95
  (machine_data : DataFrame machine_row)
  (inventory_data : DataFrame inventory_row) (s : rng) :
  rows machine_data <> [] ->
  rows inventory_data <> [] ->
  exists q s',
    calculate_risk_score machine_data inventory_data s = (Ok (Fin q), s') /\
    5 <= q /\ q <= 95.
Proof.
  intros Hm Hi. unfold calculate_risk_score, bind.
  destruct (uniform_range 5 15 s) as (r & -> & Hr5 & Hr15); [reflexivity|].
  destruct (machine_risk_bounds machine_data Hm) as (m & -> & Hm0 & Hm50).
  destruct (inventory_risk_bounds inventory_data Hi) as (i & -> & Hi0 & Hi30).
  unfold ret. cbn [Num.add]. unfold py_min, of_Z. cbn [Num.ltb].
  destruct (Qltb (m + i + r) (inject_Z 100)) eqn:E.
  - eexists; eexists; split; [reflexivity|]. split; lra.
  - apply Qltb_ge in E. change (inject_Z 100) with (100 # 1) in E. lra.
Qed.

(** X2: when the machine frame or the inventory frame is empty, a
    quotient is [nan] and the risk score is 100. *)
Theorem calculate_risk_score_of_empty_frame
  (machine_data : DataFrame machine_row)
  (inventory_data : DataFrame inventory_row) (s : rng) :
  rows machine_data = [] \/ rows inventory_data = [] ->
  fst (calculate_risk_score machine_data inventory_data s) = Ok (of_Z 100).
Proof.
  intros Hempty. unfold calculate_risk_score, bind.
  destruct (uniform_total 5 15 s) as (r & ->). unfold ret. cbn [fst].
  assert (Hnan : (machine_risk machine_data + inventory_risk inventory_data)%num
                 = NaN).
  { destruct Hempty as [H|H].
    - unfold machine_risk, temp_risk, vib_risk, count_rows, len. rewrite H.
      cbn. reflexivity.
    - unfold inventory_risk, low_stock_risk, count_rows, len. rewrite H.
      cbn. now destruct (machine_risk machine_data). }
  rewrite Hnan. reflexivity.
Qed.

End risk_score_more.

(** ** models/maintenance_models.py: more on the two predictors *)

Section maintenance_more.

Import maintenance_models.
Local Open Scope Q_scope.

Lemma div_fin (a b : Q) : ~ b == 0 -> (Fin a / Fin b)%num = Fin (a / b).
Proof.
  intros Hb. unfold Num.div.
  destruct (Qeq_bool b 0) eqn:E; [|reflexivity].
  apply Qeq_bool_iff in E. contradiction.
Qed.

(** X3: the three partial risks are in [[0, 1]] and the failure
    probability stays within the noise of 0.1 around their weighted sum
    0.45 t + 0.35 v + 0.20 h; the bound is stated with a margin of
    10^-9, which the rounding of the sums in the code cannot use up. *)
Theorem predict_failure_near_weighted_risks (machine : machine_row) (s : rng) :
  exists p s' t v h f,
    predict_failure machine s = (Ok p, s') /\
    temperature_risk p = Fin t /\ vibration_risk p = Fin v /\
    hours_risk p = Fin h /\ failure_probability p = Fin f /\
    (0 <= t /\ t <= 1) /\ (0 <= v /\ v <= 1) /\ (0 <= h /\ h <= 1) /\
    (45 # 100) * t + (35 # 100) * v + (20 # 100) * h
      - ((1 # 10) + (1 # 1000000000)) <= f /\
    f <= (45 # 100) * t + (35 # 100) * v + (20 # 100) * h
         + ((1 # 10) + (1 # 1000000000)).
Proof.
  unfold predict_failure, bind.
  destruct (uniform_range (-1 # 10) (1 # 10) s) as (n & -> & Hn0 & Hn1);
    [reflexivity|].
  unfold ret, of_Z, dec. cbn [Num.sub Num.opp Num.add].
  rewrite !div_fin by discriminate.
  destruct (clamp_fin (inject_Z 0) (inject_Z 1)
              ((temperature machine + - inject_Z 60) / inject_Z 40))
    as (t & -> & Ht0 & Ht1 & _); [discriminate|].
  destruct (clamp_fin (inject_Z 0) (inject_Z 1) (vibration machine / inject_Z 5))
    as (v & -> & Hv0 & Hv1 & _); [discriminate|].
  destruct (clamp_fin (inject_Z 0) (inject_Z 1)
              (operational_hours machine / inject_Z 10000))
    as (h & -> & Hh0 & Hh1 & _); [discriminate|].
  cbn [Num.mul Num.add].
  destruct (clamp_fin (inject_Z 0) (inject_Z 1)
              (t * (45 # 100) + v * (35 # 100) + h * (20 # 100) + n))
    as (f & -> & Hf0 & Hf1 & Hin & Hlo & Hhi); [discriminate|].
  exists (mk_failure_prediction (Fin f)
            (if (Fin f >? Fin (6 # 10))%num then High
             else if (Fin f >? Fin (3 # 10))%num then Medium else Low)
            [Fin (45 # 100); Fin (35 # 100); Fin (20 # 100)]
            (Fin t) (Fin v) (Fin h)).
  eexists. exists t, v, h, f.
  change (inject_Z 0) with 0 in *. change (inject_Z 1) with 1 in *.
  repeat split; try reflexivity; try assumption.
  - destruct (Qlt_le_dec (t * (45 # 100) + v * (35 # 100) + h * (20 # 100) + n) 0)
      as [Hneg|Hpos].
    + rewrite (Hlo (Qlt_le_weak _ _ Hneg)). lra.
    + destruct (Qlt_le_dec 1 (t * (45 # 100) + v * (35 # 100) + h * (20 # 100) + n))
        as [Hbig|Hsmall].
      * rewrite (Hhi (Qlt_le_weak _ _ Hbig)). lra.
      * rewrite (Hin Hpos Hsmall). lra.
  - destruct (Qlt_le_dec (t * (45 # 100) + v * (35 # 100) + h * (20 # 100) + n) 0)
      as [Hneg|Hpos].
    + rewrite (Hlo (Qlt_le_weak _ _ Hneg)). lra.
    + destruct (Qlt_le_dec 1 (t * (45 # 100) + v * (35 # 100) + h * (20 # 100) + n))
        as [Hbig|Hsmall].
      * rewrite (Hhi (Qlt_le_weak _ _ Hbig)). lra.
      * rewrite (Hin Hpos Hsmall). lra.
Qed.

Lemma py_max_fin_cases (a b : Q) :
  exists c, py_max (Fin a) (Fin b) = Fin c /\
            ((a < b /\ c = b) \/ (b <= a /\ c = a)).
Proof.
  unfold py_max, Num.gtb. cbn [Num.ltb].
  destruct (Qltb a b) eqn:E.
  - apply Qltb_lt in E. eauto.
  - apply Qltb_ge in E. eauto.
Qed.

(** A maintenance date at least one day ahead that is not after
    9999-12-31 is a date both the [timedelta] and the sum can hold. *)
Lemma maintenance_date_defined (now : Z) (d : Q) :
  (datetime_min_day <= now)%Z ->
  1 <= d ->
  inject_Z now + d <= inject_Z datetime_max_day ->
  timedelta_days (Fin d) = Ok d /\
  datetime_add now d = Ok (inject_Z now + d).
Proof.
  intros Hmin H1 Hmax.
  assert (Hnow : inject_Z datetime_min_day <= inject_Z now)
    by now rewrite <- Zle_Qle.
  unfold datetime_add, timedelta_days, timedelta_max_days.
  unfold datetime_min_day, datetime_max_day in *.
  change (inject_Z (-719162)) with (-719162 # 1) in *.
  change (inject_Z 2932896) with (2932896 # 1) in Hmax.
  change (inject_Z (2932896 + 1)) with (2932897 # 1).
  change (inject_Z 999999999) with (999999999 # 1).
  change (inject_Z (- (999999999))) with (-999999999 # 1).
  set (n := inject_Z now) in *. clearbody n.
  split.
  - destruct (Qltb (999999999 # 1) d) eqn:E1.
    { apply Qltb_lt in E1. lra. }
    destruct (Qltb d (-999999999 # 1)) eqn:E2; [|reflexivity].
    apply Qltb_lt in E2. lra.
  - destruct (Qle_bool (-719162 # 1) (n + d)) eqn:E1.
    + destruct (Qltb (n + d) (2932897 # 1)) eqn:E2; [reflexivity|].
      apply Qltb_ge in E2. lra.
    + exfalso. assert (H : Qle_bool (-719162 # 1) (n + d) = true).
      { apply Qle_bool_iff. lra. }
      congruence.
Qed.

(** What [estimate_rul] returns when the maintenance date, taken
    without the degradation factors, is a date a [datetime] can hold. *)
Lemma estimate_rul_run (now : Z) (machine : machine_row) (s : rng) :
  (datetime_min_day <= now)%Z ->
  inject_Z now + 1 <= inject_Z datetime_max_day ->
  inject_Z now + (10000 - operational_hours machine) / 24
    <= inject_Z datetime_max_day ->
  exists r s' hrs c,
    estimate_rul now machine s = (Ok r, s') /\
    rul_hours r = Fin hrs /\
    rul_days r = Fin (hrs / inject_Z 24) /\
    24 <= hrs /\
    (hrs == 24 \/ hrs <= 10000 - operational_hours machine) /\
    confidence r = Fin c /\ (75 # 100) <= c /\ c <= (95 # 100) /\
    maintenance_date r = inject_Z now + hrs / inject_Z 24.
Proof.
  intros Hmin Hday Hbase. unfold estimate_rul.
  set (tf := if (Fin (temperature machine) >? of_Z 90)%num then _ else _).
  set (vf := if (Fin (vibration machine) >? of_Z 4)%num then _ else _).
  assert (Htf : exists t, tf = Fin t /\ 0 < t /\ t <= 1).
  { subst tf. repeat match goal with |- context [if ?b then _ else _] =>
      destruct b end; unfold dec, of_Z; eexists; (split; [reflexivity|]);
      split; (reflexivity || discriminate). }
  assert (Hvf : exists v, vf = Fin v /\ 0 < v /\ v <= 1).
  { subst vf. repeat match goal with |- context [if ?b then _ else _] =>
      destruct b end; unfold dec, of_Z; eexists; (split; [reflexivity|]);
      split; (reflexivity || discriminate). }
  destruct Htf as (t & Htf & Ht0 & Ht1), Hvf as (v & Hvf & Hv0 & Hv1).
  rewrite Htf, Hvf. clearbody tf vf.
  cbn [Num.sub Num.opp Num.add Num.mul of_Z]. unfold of_Z, dec.
  destruct (py_max_fin_cases (inject_Z 24)
              ((inject_Z 10000 + - operational_hours machine) * t * v))
    as (hrs & Hh & Hcase).
  rewrite Hh. rewrite div_fin by discriminate.
  assert (Hhrs : 24 <= hrs /\
                 (hrs == 24 \/ hrs <= 10000 - operational_hours machine)).
  { change (inject_Z 24) with (24 # 1) in Hcase.
    change (inject_Z 10000) with (10000 # 1) in Hcase.
    destruct Hcase as [[Hlt ->]|[Hle ->]].
    - split; [lra|]. right.
      set (b := (10000 # 1) + - operational_hours machine) in *.
      assert (Hbdef : b == 10000 - operational_hours machine)
        by (subst b; ring).
      clearbody b.
      assert (Hb : 0 < b).
      { destruct (Qlt_le_dec 0 b) as [Hpos|Hneg]; [exact Hpos|].
        assert (Hbt : 0 <= (- b) * t) by (apply Qmult_le_0_compat; lra).
        assert (Hbtv : 0 <= ((- b) * t) * v) by (apply Qmult_le_0_compat; lra).
        lra. }
      assert (Hbt : 0 <= b * (1 - t)) by (apply Qmult_le_0_compat; lra).
      assert (Hbt0 : 0 <= b * t) by (apply Qmult_le_0_compat; lra).
      assert (Hprod : 0 <= (b * t) * (1 - v))
        by (apply Qmult_le_0_compat; lra).
      lra.
    - split; [lra|]. left. reflexivity. }
  clear Hcase Hh. destruct Hhrs as [H24 Hle].
  assert (Hd1 : 1 <= hrs / inject_Z 24).
  { change (inject_Z 24) with (24 # 1). apply Qle_shift_div_l; lra. }
  assert (Hdmax : inject_Z now + hrs / inject_Z 24 <= inject_Z datetime_max_day).
  { change (inject_Z 24) with (24 # 1).
    destruct Hle as [Heq|Hle].
    - assert (hrs / (24 # 1) <= 1) by (apply Qle_shift_div_r; lra). lra.
    - assert (hrs / (24 # 1) <= (10000 - operational_hours machine) / 24).
      { apply Qle_shift_div_r; [reflexivity|].
        unfold Qdiv. rewrite <- Qmult_assoc.
        setoid_replace (/ 24 * (24 # 1)) with 1 by reflexivity. lra. }
      lra. }
  destruct (maintenance_date_defined now (hrs / inject_Z 24) Hmin Hd1 Hdmax)
    as [Htd Hda].
  unfold bind.
  destruct (uniform_range (-1 # 10) (1 # 10) s) as (n & -> & Hn0 & Hn1);
    [reflexivity|].
  unfold lift. rewrite Htd, Hda. unfold ret.
  cbn [Num.add].
  destruct (clamp_fin (7 # 10) (95 # 100) ((85 # 100) + n))
    as (c & Hc & _ & Hc95 & Hin & _); [discriminate|].
  rewrite Hc.
  eexists; eexists; exists hrs, c.
  split; [reflexivity|]. cbn.
  assert (Hceq : c == (85 # 100) + n) by (apply Hin; lra).
  split; [reflexivity|]. split; [reflexivity|]. split; [exact H24|].
  split; [exact Hle|]. split; [reflexivity|]. split; [lra|].
  split; [exact Hc95|]. reflexivity.
Qed.

(** C9, amended: when the date [(10000 - operational_hours) / 24] days
    from now, and tomorrow, are dates a [datetime] can hold, the
    remaining useful life is at least 24 hours, i.e. at least one day,
    and the days are the hours divided by 24. *)
Theorem estimate_rul_at_least_one_day (now : Z) (machine : machine_row) (s : rng) :
  (datetime_min_day <= now)%Z ->
  inject_Z now + 1 <= inject_Z datetime_max_day ->
  inject_Z now + (10000 - operational_hours machine) / 24
    <= inject_Z datetime_max_day ->
  exists r s',
    estimate_rul now machine s = (Ok r, s') /\
    (of_Z 24 <= rul_hours r)%num /\
    rul_days r = (rul_hours r / of_Z 24)%num /\
    (of_Z 1 <= rul_days r)%num.
Proof.
  intros Hmin Hday Hbase.
  destruct (estimate_rul_run now machine s Hmin Hday Hbase)
    as (r & s' & hrs & c & Hrun & Hh & Hd & H24 & _).
  exists r, s'. split; [exact Hrun|]. rewrite Hh, Hd. unfold of_Z.
  rewrite div_fin by discriminate.
  unfold Num.le. cbn [Num.leb]. rewrite !Qle_bool_iff.
  change (inject_Z 24) with (24 # 1). change (inject_Z 1) with 1.
  split; [exact H24|]. split; [reflexivity|].
  apply Qle_shift_div_l; lra.
Qed.

(** X4: when the maintenance date can be held, the remaining hours are
    at least 24 and, above that floor, never exceed what is left of the
    10000 operating hours; the confidence is at least 0.75 and at most
    0.95; and the maintenance date is the current date plus the
    remaining days, at least one day ahead. *)
Theorem estimate_rul_bounds (now : Z) (machine : machine_row) (s : rng) :
  (datetime_min_day <= now)%Z ->
  inject_Z now + 1 <= inject_Z datetime_max_day ->
  inject_Z now + (10000 - operational_hours machine) / 24
    <= inject_Z datetime_max_day ->
  exists r s' hrs c d,
    estimate_rul now machine s = (Ok r, s') /\
    rul_hours r = Fin hrs /\
    24 <= hrs /\
    (hrs == 24 \/ hrs <= 10000 - operational_hours machine) /\
    confidence r = Fin c /\ (75 # 100) <= c /\ c <= (95 # 100) /\
    rul_days r = Fin d /\ 1 <= d /\
    maintenance_date r == inject_Z now + d.
Proof.
  intros Hmin Hday Hbase.
  destruct (estimate_rul_run now machine s Hmin Hday Hbase)
    as (r & s' & hrs & c & Hrun & Hh & Hd & H24 & Hle & Hc & Hc1 & Hc2 & Hdate).
  exists r, s', hrs, c, (hrs / inject_Z 24).
  repeat (split; [assumption|]). split.
  - change (inject_Z 24) with (24 # 1). apply Qle_shift_div_l; lra.
  - rewrite Hdate. reflexivity.
Qed.

End maintenance_more.

(** ** models/demand_forecasting.py: more on the reorder point *)

Section reorder_more.

Import demand_forecasting.
Context {L : Library}.
Local Open Scope Q_scope.

(** X6: for a positive unit cost, the reorder quantity is the economic
    order quantity plus the stock deficit [max(0, safety_stock -
    current_stock)], hence never below it; the reorder point is ten times
    the lead time plus the safety stock; and the predicted weekly demand
    is at least 56 and at most 84. *)
Theorem calculate_reorder_point_quantities (product_row : inventory_row) (s : rng) :
  sqrt_nonneg L ->
  0 < unit_cost product_row ->
  exists r s' e q p,
    calculate_reorder_point product_row s = (Ok r, s') /\
    economic_order_qty r = Fin e /\ reorder_quantity r = Fin q /\
    predicted_demand r = Fin p /\
    0 <= e /\ e <= q /\
    (safety_stock product_row <= current_stock product_row -> q == e) /\
    (current_stock product_row <= safety_stock product_row ->
     q == e + (safety_stock product_row - current_stock product_row)) /\
    reorder_point r =
      Fin (inject_Z 10 * lead_time_days product_row + safety_stock product_row) /\
    56 <= p /\ p <= 84.
Proof.
  intros Hsqrt Hcost. unfold calculate_reorder_point.
  unfold bind at 1, lift, true_div.
  assert (Hpos : 0 < unit_cost product_row * (25 # 100)) by lra.
  assert (Hnz : ~ unit_cost product_row * (25 # 100) == 0) by lra.
  unfold dec, of_Z. cbn [Num.mul Num.is_zero].
  destruct (Qeq_bool (unit_cost product_row * (25 # 100)) 0) eqn:E.
  { apply Qeq_bool_iff in E. contradiction. }
  unfold bind at 1.
  destruct (uniform_range (8 # 10) (12 # 10) s) as (u & -> & Hu0 & Hu1);
    [reflexivity|].
  unfold ret. rewrite div_fin by exact Hnz. cbn [np_sqrt].
  set (rad := inject_Z 2 * inject_Z (365 * 10) * inject_Z 100
              / (unit_cost product_row * (25 # 100))).
  assert (Hrad : 0 < rad).
  { subst rad. apply Qlt_shift_div_l; [exact Hpos|]. reflexivity. }
  destruct (Qltb rad 0) eqn:Er.
  { apply Qltb_lt in Er. lra. }
  cbn [Num.sub Num.opp Num.add Num.mul].
  destruct (py_max_fin_cases (inject_Z 0)
              (safety_stock product_row + - current_stock product_row))
    as (d & Hd & Hcase).
  rewrite Hd. cbn [Num.add].
  eexists; eexists; exists (sqrt_fin rad), (sqrt_fin rad + d),
    (inject_Z 10 * inject_Z 7 * u).
  split; [reflexivity|]. cbn.
  pose proof (Hsqrt rad (Qlt_le_weak _ _ Hrad)) as He.
  change (inject_Z 0) with 0 in Hcase.
  change (inject_Z 10 * inject_Z 7) with (70 # 1).
  repeat split; try reflexivity; try exact He;
    destruct Hcase as [[Hlt ->]|[Hle ->]]; intros; lra.
Qed.

(** X7: for a negative unit cost nothing raises: the radicand is
    negative, and both the economic order quantity and the reorder
    quantity are [nan]. *)
Theorem calculate_reorder_point_negative_cost (product_row : inventory_row) (s : rng) :
  unit_cost product_row < 0 ->
  exists r s',
    calculate_reorder_point product_row s = (Ok r, s') /\
    economic_order_qty r = NaN /\ reorder_quantity r = NaN.
Proof.
  intros Hcost. unfold calculate_reorder_point.
  unfold bind at 1, lift, true_div.
  assert (Hneg : unit_cost product_row * (25 # 100) < 0) by lra.
  assert (Hnz : ~ unit_cost product_row * (25 # 100) == 0) by lra.
  unfold dec, of_Z. cbn [Num.mul Num.is_zero].
  destruct (Qeq_bool (unit_cost product_row * (25 # 100)) 0) eqn:E.
  { apply Qeq_bool_iff in E. contradiction. }
  unfold bind at 1.
  destruct (uniform_total (8 # 10) (12 # 10) s) as (u & ->).
  unfold ret. rewrite div_fin by exact Hnz. cbn [np_sqrt].
  set (rad := inject_Z 2 * inject_Z (365 * 10) * inject_Z 100
              / (unit_cost product_row * (25 # 100))).
  assert (Hrad : rad < 0).
  { subst rad. unfold Qdiv.
    assert (Hinv : / (unit_cost product_row * (25 # 100)) < 0).
    { destruct (Qlt_le_dec (/ (unit_cost product_row * (25 # 100))) 0)
        as [Hl|Hg]; [exact Hl|].
      assert (Hone : (unit_cost product_row * (25 # 100))
                     * / (unit_cost product_row * (25 # 100)) == 1)
        by (apply Qmult_inv_r; exact Hnz).
      assert (Hprod : 0 <= (- (unit_cost product_row * (25 # 100)))
                           * / (unit_cost product_row * (25 # 100)))
        by (apply Qmult_le_0_compat; lra).
      lra. }
    change (inject_Z 2 * inject_Z (365 * 10) * inject_Z 100) with (730000 # 1).
    assert (Hprod : 0 <= (730000 # 1)
                         * - / (unit_cost product_row * (25 # 100)))
      by (apply Qmult_le_0_compat; lra).
    assert (Hne : ~ / (unit_cost product_row * (25 # 100)) == 0) by lra.
    lra. }
  destruct (Qltb rad 0) eqn:Er.
  - eexists; eexists; split; [reflexivity|]. cbn. split; reflexivity.
  - apply Qltb_ge in Er. lra.
Qed.

End reorder_more.

(** ** models/demand_forecasting.py: the inventory health *)

Section inventory_health_more.

Import demand_forecasting.
Local Open Scope Q_scope.

Lemma ratio_unit_Q (a b : Q) :
  0 <= a -> a <= b -> 0 < b ->
  exists q, (Fin a / Fin b)%num = Fin q /\ 0 <= q /\ q <= 1.
Proof.
  intros Ha Hab Hb. rewrite div_fin by lra.
  eexists; split; [reflexivity|]. split.
  - apply Qle_shift_div_l; lra.
  - apply Qle_shift_div_r; lra.
Qed.

(** The sum of finite values is finite; of non-negative values, it is at
    least each of them. *)
Lemma sum_fin_from (l : list Q) (a : Q) :
  exists S, fold_left Num.add (map Fin l) (Fin a) = Fin S /\
            (Forall (fun x => 0 <= x) l ->
             a <= S /\ Forall (fun x => a + x <= S) l).
Proof.
  revert a. induction l as [|x l IH]; intros a.
  - exists a. split; [reflexivity|]. intros _. split; [lra|constructor].
  - destruct (IH (a + x)) as (S & HS & Hb). exists S.
    split; [exact HS|]. intros Hall.
    apply Forall_cons_iff in Hall. destruct Hall as [Hx Hl].
    destruct (Hb Hl) as [H1 H2]. split; [lra|].
    constructor; [exact H1|].
    eapply Forall_impl; [|exact H2]. cbn. intros y Hy. lra.
Qed.

(** The maximum of finite values is one of them. *)
Lemma max_fin_from (l : list Q) (a : Q) :
  exists m, fold_left (fun x y => py_max x y) (map Fin l) (Fin a) = Fin m /\
            (m = a \/ In m l).
Proof.
  revert a. induction l as [|x l IH]; intros a.
  - exists a. split; [reflexivity|now left].
  - cbn [map fold_left].
    destruct (py_max_fin_cases a x) as (c & -> & Hc).
    destruct (IH c) as (m & Hm & Hin). exists m. split; [exact Hm|].
    destruct Hc as [[_ ->]|[_ ->]]; destruct Hin as [->|Hin]; cbn; auto.
Qed.

(** X8: for a non-empty inventory without negative stocks or costs the
    health score is a finite number between 15 and 100. *)
Theorem calculate_inventory_health_range (inventory_data : DataFrame inventory_row) :
  rows inventory_data <> [] ->
  Forall (fun p => 0 <= current_stock p /\ 0 <= unit_cost p)
         (rows inventory_data) ->
  exists q,
    fst (calculate_inventory_health inventory_data) = Fin q /\
    15 <= q /\ q <= 100.
Proof.
  intros Hne Hpos. unfold calculate_inventory_health. cbn [fst].
  cbn [assign_column extra]. rewrite get_set_extra.
  (* stock adequacy *)
  destruct (ratio_unit
              (count_rows
                 (fun p => (Fin (current_stock p) >=? Fin (safety_stock p))%num)
                 inventory_data) (len inventory_data))
    as (a & -> & Ha0 & Ha1).
  { unfold len. destruct (rows inventory_data); [congruence|discriminate]. }
  { apply count_rows_le. }
  (* turnover *)
  set (o := count_rows _ inventory_data).
  assert (Ho : (o <= len inventory_data)%nat) by apply count_rows_le.
  assert (Hn : (0 < len inventory_data)%nat).
  { unfold len. destruct (rows inventory_data); [congruence|cbn; lia]. }
  unfold of_nat, of_Z. cbn [Num.sub Num.opp Num.add].
  destruct (ratio_unit_Q
              (inject_Z (Z.of_nat (len inventory_data)) + - inject_Z (Z.of_nat o))
              (inject_Z (Z.of_nat (len inventory_data))))
    as (t & -> & Ht0 & Ht1).
  { rewrite <- inject_Z_opp, <- inject_Z_plus.
    change 0 with (inject_Z 0). rewrite <- Zle_Qle. lia. }
  { rewrite <- inject_Z_opp, <- inject_Z_plus. rewrite <- Zle_Qle. lia. }
  { change 0 with (inject_Z 0). rewrite <- Zlt_Qlt. lia. }
  cbn [Num.mul].
  (* value distribution *)
  set (values := map (fun p => current_stock p * unit_cost p)
                     (rows inventory_data)).
  assert (Hvals : map (fun p => Fin (current_stock p * unit_cost p))
                      (rows inventory_data) = map Fin values).
  { subst values. now rewrite map_map. }
  rewrite Hvals.
  assert (Hvpos : Forall (fun x => 0 <= x) values).
  { subst values. apply Forall_map. eapply Forall_impl; [|exact Hpos].
    cbn. intros p [Hc Hu]. now apply Qmult_le_0_compat. }
  assert (Hdist : exists d,
    (if (series_max (map Fin values) / Num.sum (map Fin values)
         <? Fin (5 # 10))%num
     then ((Fin (inject_Z 1)
            - series_max (map Fin values) / Num.sum (map Fin values))
           * Fin (inject_Z 30))%num
     else Fin (inject_Z 15)) = Fin d /\ 15 <= d /\ d <= 30).
  { destruct values as [|x values]; [exists 15; repeat split; discriminate|].
    unfold Num.sum, of_Z. cbn [map series_max].
    destruct (sum_fin_from (x :: values) (inject_Z 0)) as (S & HS & HSb).
    cbn [map] in HS. rewrite HS.
    destruct (HSb Hvpos) as [HS0 HSall].
    destruct (max_fin_from values x) as (m & -> & Hm).
    change (inject_Z 0) with 0 in *.
    assert (Hm0 : 0 <= m /\ m <= S).
    { rewrite Forall_forall in Hvpos, HSall.
      assert (Hin : In m (x :: values)) by (destruct Hm as [->|Hm]; cbn; auto).
      pose proof (Hvpos m Hin). pose proof (HSall m Hin). lra. }
    destruct (Qeq_dec S 0) as [Hz|Hnz].
    - unfold Num.div. rewrite (proj2 (Qeq_bool_iff S 0) Hz).
      unfold scaled_inf.
      assert (Hmz : m == 0) by lra.
      rewrite (proj1 (Qeq_alt m 0) Hmz). cbn.
      exists 15. repeat split; discriminate.
    - rewrite div_fin by exact Hnz.
      assert (Hr : 0 <= m / S /\ m / S <= 1).
      { split; [apply Qle_shift_div_l | apply Qle_shift_div_r]; lra. }
      unfold dec. cbn [Num.ltb].
      destruct (Qltb (m / S) (5 # 10)) eqn:E.
      + apply Qltb_lt in E. cbn [Num.sub Num.opp Num.add Num.mul].
        eexists; split; [reflexivity|].
        change (inject_Z 1) with 1. change (inject_Z 30) with (30 # 1).
        split; lra.
      + exists 15. repeat split; discriminate. }
  unfold dec, of_Z in *.
  destruct Hdist as (d & Hd & Hd0 & Hd1).
  cbn [Num.sub Num.add] in Hd. rewrite Hd.
  cbn [Num.add]. eexists; split; [reflexivity|].
  change (inject_Z 40) with (40 # 1). change (inject_Z 30) with (30 # 1).
  split; lra.
Qed.

Lemma set_extra_twice (name : string) (values : list num) (cols : extra_columns) :
  set_extra name values (set_extra name values cols) = set_extra name values cols.
Proof.
  induction cols as [|[n v] cols IH]; cbn.
  - now rewrite String.eqb_refl.
  - destruct (String.eqb n name) eqn:E; cbn; rewrite E; [reflexivity|].
    now rewrite IH.
Qed.

(** X9: the assignment of [stock_value] is idempotent: a second call on
    the same frame returns the same score and leaves the frame as the
    first call left it. *)
Theorem calculate_inventory_health_twice (inventory_data : DataFrame inventory_row) :
  calculate_inventory_health (snd (calculate_inventory_health inventory_data)) =
  calculate_inventory_health inventory_data.
Proof.
  unfold calculate_inventory_health, assign_column, count_rows, len.
  cbn [snd rows extra].
  rewrite !get_set_extra, set_extra_twice. reflexivity.
Qed.

End inventory_health_more.

(** ** Sorting and maxima *)

Section sorting_facts.

Import decision_engine.

Lemma insert_by_in {A} (key : A -> Z) (x y : A) (l : list A) :
  In y (insert_by key x l) <-> y = x \/ In y l.
Proof.
  induction l as [|z l IH]; cbn; [intuition|].
  destruct (key z <? key x); cbn; rewrite ?IH; intuition.
Qed.

(** The sort keeps the elements. *)
Lemma sort_by_in {A} (key : A -> Z) (y : A) (l : list A) :
  In y (sort_by key l) <-> In y l.
Proof.
  unfold sort_by. induction l as [|x l IH]; cbn; [reflexivity|].
  rewrite insert_by_in, IH. intuition.
Qed.

Lemma insert_by_sorted {A} (key : A -> Z) (x : A) (l : list A) :
  StronglySorted (fun a b => key a <= key b) l ->
  StronglySorted (fun a b => key a <= key b) (insert_by key x l).
Proof.
  induction 1 as [|z l Hs IH Hz]; cbn; [repeat constructor|].
  destruct (key z <? key x) eqn:E.
  - constructor; [exact IH|].
    rewrite Forall_forall in *. intros y Hy.
    apply insert_by_in in Hy. destruct Hy as [->|Hy]; [lia|auto].
  - constructor; [now constructor|].
    constructor; [lia|].
    eapply Forall_impl; [|exact Hz]. cbn. intros; lia.
Qed.

(** The sort orders by the key. *)
Lemma sort_by_is_sorted {A} (key : A -> Z) (l : list A) :
  StronglySorted (fun a b => key a <= key b) (sort_by key l).
Proof.
  unfold sort_by. induction l as [|x l IH]; cbn; [constructor|].
  now apply insert_by_sorted.
Qed.

Lemma sort_by_length {A} (key : A -> Z) (l : list A) :
  List.length (sort_by key l) = List.length l.
Proof.
  unfold sort_by. induction l as [|x l IH]; cbn; [reflexivity|].
  rewrite <- IH. generalize (fold_right (insert_by key) [] l). intros m.
  induction m as [|z m IHm]; cbn; [reflexivity|].
  destruct (key z <? key x); cbn; [now rewrite IHm|reflexivity].
Qed.

Lemma fold_max_spec (l : list Z) (d : Z) :
  (fold_left Z.max l d = d \/ In (fold_left Z.max l d) l) /\
  d <= fold_left Z.max l d /\
  Forall (fun x => x <= fold_left Z.max l d) l.
Proof.
  revert d. induction l as [|x l IH]; intros d; cbn.
  - split; [now left|]. split; [lia|constructor].
  - destruct (IH (Z.max d x)) as (Hin & Hle & Hall).
    split; [|split].
    + destruct Hin as [Heq|Hin]; [|now right; right].
      rewrite Heq. destruct (Z.max_spec d x) as [[_ ->]|[_ ->]]; auto.
    + lia.
    + constructor; [lia|exact Hall].
Qed.

(** The maximum of a non-empty column is one of its values and bounds
    them all. *)
Lemma max_date_spec (l : list Z) :
  l <> [] ->
  In (demand_forecasting.max_date l) l /\
  Forall (fun x => x <= demand_forecasting.max_date l) l.
Proof.
  destruct l as [|d l]; [congruence|]. intros _. cbn.
  destruct (fold_max_spec l d) as (Hin & Hle & Hall).
  split; [destruct Hin as [->|Hin]; auto|].
  constructor; [exact Hle|exact Hall].
Qed.

Lemma sorted_keys {A} (key : A -> Z) (l : list A) :
  StronglySorted (fun a b => key a <= key b) l ->
  StronglySorted Z.le (map key l).
Proof.
  induction 1 as [|x l Hs IH Hx]; cbn; constructor; [exact IH|].
  now apply Forall_map.
Qed.

End sorting_facts.

(** ** models/demand_forecasting.py: more on the forecast *)

Section forecast_more.

Import demand_forecasting.
Context {L : Library}.

(** The sixty generated dates are dates pandas can hold when the
    first of them is. *)
Lemma generated_dates_defined (now : Z) :
  - timestamp_max_day + 59 <= now -> now <= timestamp_max_day ->
  checked_dates (date_range_end now 60 1) = Ok (date_range_end now 60 1) /\
  Forall (fun d => - timestamp_max_day <= d <= now) (date_range_end now 60 1).
Proof.
  intros Hlow Hhigh.
  assert (Hall : Forall (fun d => - timestamp_max_day <= d <= now)
                        (date_range_end now 60 1)).
  { unfold date_range_end. apply Forall_forall. intros d Hd.
    apply in_map_iff in Hd. destruct Hd as (i & <- & Hi).
    apply in_seq in Hi. lia. }
  split; [|exact Hall]. unfold checked_dates.
  replace (forallb in_timestamp_range (date_range_end now 60 1)) with true;
    [reflexivity|].
  symmetry. apply forallb_forall. intros d Hd.
  rewrite Forall_forall in Hall. specialize (Hall d Hd).
  unfold in_timestamp_range. apply andb_true_iff. split; apply Z.leb_le; lia.
Qed.

(** The day after the latest date and the range that starts there are
    dates pandas can hold when the last day of the range is. *)
Lemma forecast_dates_defined (latest days_ahead : Z) :
  0 < days_ahead ->
  - timestamp_max_day <= latest ->
  latest + days_ahead <= timestamp_max_day ->
  timestamp_add latest 1 = Ok (latest + 1) /\
  date_range_start (latest + 1) days_ahead =
    Ok (map (fun i => latest + 1 + Z.of_nat i) (seq 0 (Z.to_nat days_ahead))).
Proof.
  intros Hdays Hlow Hhigh.
  assert (Hin : forall d, - timestamp_max_day <= d <= timestamp_max_day ->
                          in_timestamp_range d = true).
  { intros d Hd. unfold in_timestamp_range. apply andb_true_iff.
    split; apply Z.leb_le; lia. }
  split.
  - unfold timestamp_add. change (timedelta_max_days <? Z.abs 1) with false.
    change (timestamp_max_day <? Z.abs 1) with false. cbv iota.
    rewrite Hin by lia. reflexivity.
  - unfold date_range_start.
    replace (days_ahead <? 0) with false by (symmetry; apply Z.ltb_ge; lia).
    rewrite !Hin by lia. rewrite orb_true_r. reflexivity.
Qed.

(** The slope of a line through two points or more is defined. *)
Lemma np_polyfit_slope_defined (y : list num) :
  (2 <= List.length y)%nat ->
  np_polyfit_slope (map of_nat (seq 0 (List.length y))) y =
  Ok (polyfit_slope (map of_nat (seq 0 (List.length y))) y).
Proof.
  intros Hlen. destruct y as [|a [|b y]]; cbn [List.length] in Hlen; try lia.
  reflexivity.
Qed.

(** The shape of what [forecast_demand] returns for a positive number
    of days, when the product has no history or one of two rows at
    least, and the history, or today without one, leaves room for the
    forecast dates among the dates pandas can hold: a sorted history of
    two rows or more, the dates that follow it, one clamped value per
    date, and the band around the values. *)
Lemma forecast_demand_run (now : Z) (demand_data : DataFrame demand_row)
  (product_id days_ahead : Z) (s : rng) :
  0 < days_ahead ->
  count_rows (fun r => demand_product_id r =? product_id) demand_data <> 1%nat ->
  (count_rows (fun r => demand_product_id r =? product_id) demand_data = 0%nat ->
   - timestamp_max_day + 59 <= now /\ now + days_ahead <= timestamp_max_day) ->
  Forall (fun r => demand_product_id r = product_id ->
                   - timestamp_max_day <= date r /\
                   date r + days_ahead <= timestamp_max_day)
         (rows demand_data) ->
  exists history values s',
    (2 <= List.length history)%nat /\
    List.length values = Z.to_nat days_ahead /\
    Forall (fun x => (of_Z 0 <= x)%num) values /\
    let recent := map (fun r => Fin (snd r)) (tail 30 (sort_values_date history)) in
    forecast_demand now demand_data product_id days_ahead s =
      (Ok {| historical_dates := map fst (sort_values_date history);
             historical_demand := map snd (sort_values_date history);
             forecast_dates :=
               map (fun i => max_date (map fst (sort_values_date history)) + 1
                             + Z.of_nat i)
                   (seq 0 (Z.to_nat days_ahead));
             forecast_demand_values := values;
             confidence_upper :=
               map (fun f => (f + dec 196 100 * np_std recent)%num) values;
             confidence_lower :=
               map (fun f => py_max (of_Z 0) (f - dec 196 100 * np_std recent)%num)
                   values;
             trend := polyfit_slope
                        (map of_nat (seq 0 (List.length recent))) recent;
             avg_demand := np_mean recent |}, s').
Proof.
  intros Hdays Hrows Hnow Hdates. unfold forecast_demand.
  set (pd0 := map _ (rows (select _ demand_data))).
  assert (Hlen0 : List.length pd0 =
                  count_rows (fun r => demand_product_id r =? product_id)
                             demand_data).
  { subst pd0. unfold select, count_rows. cbn [rows]. now rewrite length_map. }
  unfold bind at 1.
  assert (Hfirst : exists pd s1,
    (2 <= List.length pd)%nat /\
    Forall (fun e => - timestamp_max_day <= fst e /\
                     fst e + days_ahead <= timestamp_max_day) pd /\
    (if Nat.eqb (List.length pd0) 0
     then dates <- lift (checked_dates (date_range_end now 60 1));;
          p <- poisson_array 150 60;;
          r <- randint_array (-20) 20 60;;
          ret (combine dates
                 (map inject_Z (map (fun pr => fst pr + snd pr) (combine p r))))
     else ret pd0) s = (Ok pd, s1)).
  { destruct (Nat.eqb (List.length pd0) 0) eqn:E.
    - apply Nat.eqb_eq in E. rewrite Hlen0 in E.
      destruct (Hnow E) as [Hlow Hhigh].
      destruct (generated_dates_defined now Hlow ltac:(lia)) as [Hchk Hgen].
      destruct (for_each_spec
                  (fun _ : nat => r <- next_raw ;; ret (poisson_deviate 150 r))
                  (fun _ => True) (seq 0 60)) with (s := s)
        as (p & s1 & Hp & Hlp & _).
      { intros x s0 _. unfold bind, ret. rewrite next_raw_run. eauto. }
      destruct (for_each_spec (fun _ : nat => randint (-20) 20)
                  (fun _ => True) (seq 0 60)) with (s := s1)
        as (r & s2 & Hr & Hlr & _).
      { intros x s0 _. rewrite randint_run by lia. eauto. }
      unfold poisson_array, randint_array.
      unfold bind at 1, lift. rewrite Hchk.
      unfold bind at 1. rewrite Hp. unfold bind at 1. rewrite Hr.
      unfold ret. eexists; eexists; split; [|split; [|reflexivity]].
      + rewrite length_combine, !length_map, length_combine, Hlp, Hlr.
        unfold date_range_end. rewrite length_map, !length_seq. cbn. lia.
      + apply Forall_forall. intros [d q] Hin. apply in_combine_l in Hin.
        rewrite Forall_forall in Hgen. specialize (Hgen d Hin). cbn [fst]. lia.
    - apply Nat.eqb_neq in E. unfold ret. exists pd0, s.
      split; [rewrite Hlen0 in *; lia|]. split; [|reflexivity].
      subst pd0. apply Forall_map. unfold select. cbn [rows fst].
      apply Forall_forall. intros r Hr. apply filter_In in Hr.
      destruct Hr as [Hr Hmask]. apply Z.eqb_eq in Hmask.
      rewrite Forall_forall in Hdates. exact (Hdates r Hr Hmask). }
  destruct Hfirst as (pd & s1 & Hlen & Hrange & ->).
  set (sp := sort_values_date pd).
  assert (Hsp : List.length sp = List.length pd)
    by (subst sp; unfold sort_values_date; apply sort_by_length).
  assert (Hrecent : (2 <= List.length (map (fun r => Fin (snd r)) (tail 30 sp)))%nat).
  { rewrite length_map. unfold tail. rewrite length_skipn. lia. }
  unfold bind at 1, lift.
  rewrite (np_polyfit_slope_defined _ Hrecent).
  assert (Hne : map fst sp <> []).
  { intros Hnil. apply (f_equal (@List.length _)) in Hnil.
    rewrite length_map, Hsp in Hnil. cbn [List.length] in Hnil. lia. }
  destruct (max_date_spec _ Hne) as [Hin _].
  apply in_map_iff in Hin. destruct Hin as (e & He & Hin).
  apply sort_by_in in Hin. rewrite Forall_forall in Hrange.
  specialize (Hrange e Hin). rewrite He in Hrange.
  destruct (forecast_dates_defined (max_date (map fst sp)) days_ahead Hdays)
    as [Hstart Hdr]; [lia|lia|].
  unfold bind at 1. rewrite Hstart.
  unfold bind at 1. rewrite Hdr.
  unfold bind at 1.
  match goal with |- context [for_each ?f ?l s1] =>
    destruct (for_each_spec f (fun x => (of_Z 0 <= x)%num) l
                (fun x s0 _ => forecast_step_nonneg _ _ _ x s0) s1)
      as (ys & s2 & -> & Hys & Hall)
  end.
  rewrite length_combine, length_map, !length_seq, Nat.min_id in Hys.
  exists pd, ys, s2. split; [exact Hlen|]. split; [exact Hys|].
  split; [exact Hall|]. reflexivity.
Qed.

(** C6, amended: for a positive number of days, a product without
    history or with two rows of history at least, and forecast dates
    that pandas can hold, the forecast and the lower confidence bound
    have exactly that many elements, none negative, for every state of
    the generator. *)
Theorem forecast_demand_lengths_and_signs (now : Z)
  (demand_data : DataFrame demand_row) (product_id days_ahead : Z) (s : rng) :
  0 < days_ahead ->
  count_rows (fun r => demand_product_id r =? product_id) demand_data <> 1%nat ->
  (count_rows (fun r => demand_product_id r =? product_id) demand_data = 0%nat ->
   - timestamp_max_day + 59 <= now /\ now + days_ahead <= timestamp_max_day) ->
  Forall (fun r => demand_product_id r = product_id ->
                   - timestamp_max_day <= date r /\
                   date r + days_ahead <= timestamp_max_day)
         (rows demand_data) ->
  exists f s',
    forecast_demand now demand_data product_id days_ahead s = (Ok f, s') /\
    Z.of_nat (List.length (forecast_demand_values f)) = days_ahead /\
    Z.of_nat (List.length (confidence_lower f)) = days_ahead /\
    Forall (fun x => (of_Z 0 <= x)%num) (forecast_demand_values f) /\
    Forall (fun x => (of_Z 0 <= x)%num) (confidence_lower f).
Proof.
  intros Hdays Hrows Hnow Hdates.
  destruct (forecast_demand_run now demand_data product_id days_ahead s
              Hdays Hrows Hnow Hdates)
    as (pd & ys & s' & _ & Hlen & Hpos & Hrun).
  cbv zeta in Hrun. rewrite Hrun. eexists; exists s'.
  split; [reflexivity|].
  cbn [forecast_demand_values confidence_lower].
  rewrite length_map, Hlen.
  split; [lia|]. split; [lia|]. split; [exact Hpos|].
  apply Forall_map, Forall_forall. intros x _. apply py_max_zero_nonneg.
Qed.

(** X10: for a positive number of days, a product without history or
    with two rows of history at least, and forecast dates that pandas
    can hold, the history comes back sorted by date, and the forecast
    dates are the consecutive days that follow its latest date: no
    forecast date is on or before a date of the history. *)
Theorem forecast_demand_dates_follow_history (now : Z)
  (demand_data : DataFrame demand_row) (product_id days_ahead : Z) (s : rng) :
  0 < days_ahead ->
  count_rows (fun r => demand_product_id r =? product_id) demand_data <> 1%nat ->
  (count_rows (fun r => demand_product_id r =? product_id) demand_data = 0%nat ->
   - timestamp_max_day + 59 <= now /\ now + days_ahead <= timestamp_max_day) ->
  Forall (fun r => demand_product_id r = product_id ->
                   - timestamp_max_day <= date r /\
                   date r + days_ahead <= timestamp_max_day)
         (rows demand_data) ->
  exists f s' latest,
    forecast_demand now demand_data product_id days_ahead s = (Ok f, s') /\
    StronglySorted Z.le (historical_dates f) /\
    In latest (historical_dates f) /\
    Forall (fun d => d <= latest) (historical_dates f) /\
    forecast_dates f =
      map (fun i => latest + 1 + Z.of_nat i) (seq 0 (Z.to_nat days_ahead)) /\
    List.length (historical_dates f) = List.length (historical_demand f).
Proof.
  intros Hdays Hrows Hnow Hdates.
  destruct (forecast_demand_run now demand_data product_id days_ahead s
              Hdays Hrows Hnow Hdates)
    as (pd & ys & s' & Hne & _ & _ & Hrun).
  cbv zeta in Hrun. rewrite Hrun.
  eexists; exists s', (max_date (map fst (sort_values_date pd))).
  split; [reflexivity|]. cbn.
  assert (Hne' : map fst (sort_values_date pd) <> []).
  { intros Hnil. apply (f_equal (@List.length _)) in Hnil.
    unfold sort_values_date in Hnil.
    rewrite length_map, sort_by_length in Hnil.
    cbn [List.length] in Hnil. lia. }
  destruct (max_date_spec _ Hne') as [Hin Hall].
  repeat split; try assumption.
  - unfold sort_values_date. apply sorted_keys, sort_by_is_sorted.
  - now rewrite !length_map.
Qed.

Local Open Scope Q_scope.

(** The mean of a non-empty array of finite values is finite, and not
    negative when they are not. *)
Lemma np_mean_fin (l : list Q) :
  l <> [] ->
  exists m, np_mean (map Fin l) = Fin m /\
            (Forall (fun x => 0 <= x) l -> 0 <= m).
Proof.
  intros Hne. unfold np_mean, Num.sum, of_Z.
  destruct (sum_fin_from l (inject_Z 0)) as (S & -> & HS).
  rewrite length_map. unfold of_nat, of_Z.
  assert (Hn : 0 < inject_Z (Z.of_nat (List.length l))).
  { change 0 with (inject_Z 0). rewrite <- Zlt_Qlt.
    destruct l; [congruence|cbn; lia]. }
  rewrite div_fin by lra. eexists; split; [reflexivity|].
  intros Hall. destruct (HS Hall) as [HS0 _].
  change (inject_Z 0) with 0 in HS0. apply Qle_shift_div_l; lra.
Qed.

(** The standard deviation of a non-empty array of finite values is a
    finite number that is not negative. *)
Lemma np_std_fin (l : list Q) :
  sqrt_nonneg L -> l <> [] ->
  exists d, np_std (map Fin l) = Fin d /\ 0 <= d.
Proof.
  intros Hsqrt Hne. unfold np_std.
  destruct (np_mean_fin l Hne) as (m & -> & _).
  rewrite map_map. cbn [Num.sub Num.opp Num.add Num.mul].
  rewrite <- (map_map (fun x => (x + - m) * (x + - m)) Fin).
  destruct (np_mean_fin (map (fun x => (x + - m) * (x + - m)) l))
    as (v & -> & Hv).
  { destruct l; [congruence|discriminate]. }
  assert (Hv0 : 0 <= v).
  { apply Hv. apply Forall_map, Forall_forall. intros x _.
    destruct (Qlt_le_dec (x + - m) 0) as [Hneg|Hpos].
    - setoid_replace ((x + - m) * (x + - m))
        with ((- (x + - m)) * (- (x + - m))) by ring.
      apply Qmult_le_0_compat; lra.
    - now apply Qmult_le_0_compat. }
  cbn [np_sqrt]. destruct (Qltb v 0) eqn:E.
  { apply Qltb_lt in E. lra. }
  eexists; split; [reflexivity|]. now apply Hsqrt.
Qed.

(** Around a value that is not negative, the band of half-width [w]
    holds the value, [inf] included. *)
Lemma band_holds_value (x : num) (w : Q) :
  (of_Z 0 <= x)%num -> 0 <= w ->
  (py_max (of_Z 0) (x - Fin w) <= x)%num /\ (x <= x + Fin w)%num.
Proof.
  intros Hx Hw. destruct x as [q| | |]; try discriminate.
  - unfold Num.le in Hx. cbn in Hx. apply Qle_bool_iff in Hx.
    change (inject_Z 0) with 0 in Hx.
    cbn [Num.sub Num.opp Num.add]. unfold of_Z.
    destruct (py_max_fin_cases (inject_Z 0) (q + - w)) as (c & -> & Hc).
    change (inject_Z 0) with 0 in Hc.
    unfold Num.le. cbn [Num.leb]. rewrite !Qle_bool_iff.
    destruct Hc as [[_ ->]|[_ ->]]; split; lra.
  - split; reflexivity.
Qed.

(** X11: for a positive number of days, a product without history or
    with two rows of history at least, and forecast dates that pandas
    can hold, the confidence band holds the forecast: every lower bound
    is at most its forecast value and every upper bound at least; the
    half-width of the band is 1.96 times a standard deviation that is
    finite and not negative. *)
Theorem forecast_demand_band_holds_forecast (now : Z)
  (demand_data : DataFrame demand_row) (product_id days_ahead : Z) (s : rng) :
  sqrt_nonneg L ->
  (0 < days_ahead)%Z ->
  count_rows (fun r => demand_product_id r =? product_id) demand_data <> 1%nat ->
  (count_rows (fun r => demand_product_id r =? product_id) demand_data = 0%nat ->
   (- timestamp_max_day + 59 <= now /\ now + days_ahead <= timestamp_max_day)%Z) ->
  Forall (fun r => demand_product_id r = product_id ->
                   (- timestamp_max_day <= date r /\
                    date r + days_ahead <= timestamp_max_day)%Z)
         (rows demand_data) ->
  exists f s' w,
    forecast_demand now demand_data product_id days_ahead s = (Ok f, s') /\
    0 <= w /\
    confidence_upper f =
      map (fun x => (x + Fin w)%num) (forecast_demand_values f) /\
    confidence_lower f =
      map (fun x => py_max (of_Z 0) (x - Fin w)%num) (forecast_demand_values f) /\
    Forall (fun x => (py_max (of_Z 0) (x - Fin w) <= x)%num /\
                     (x <= x + Fin w)%num)
           (forecast_demand_values f).
Proof.
  intros Hsqrt Hdays Hrows Hnow Hdates.
  destruct (forecast_demand_run now demand_data product_id days_ahead s
              Hdays Hrows Hnow Hdates)
    as (pd & ys & s' & Hne & _ & Hpos & Hrun).
  cbv zeta in Hrun. rewrite Hrun.
  rewrite <- (map_map snd Fin) in *.
  destruct (np_std_fin (map snd (tail 30 (sort_values_date pd))) Hsqrt)
    as (d & Hd & Hd0).
  { intros Hnil. apply (f_equal (@List.length _)) in Hnil.
    unfold tail, sort_values_date in Hnil.
    rewrite length_map, length_skipn, sort_by_length in Hnil.
    cbn [List.length] in Hnil. lia. }
  eexists; exists s', ((196 # 100) * d).
  split; [reflexivity|]. cbn [confidence_upper confidence_lower
                              forecast_demand_values].
  rewrite Hd. unfold dec. cbn [Num.mul].
  assert (Hw : 0 <= (196 # 100) * d) by (apply Qmult_le_0_compat; lra).
  split; [exact Hw|]. split; [reflexivity|]. split; [reflexivity|].
  eapply Forall_impl; [|exact Hpos]. cbn. intros x Hx.
  now apply band_holds_value.
Qed.

End forecast_more.

(** ** utils/data_processing.py: what the demo data looks like *)

Section demo_data_more.

Import data_processing.
Context {L : Library}.

Lemma draws_randint_in (low high : Z) :
  low < high -> draws 1 (fun z => low <= z < high) (randint low high).
Proof.
  intros H s. destruct (randint_range low high s H) as (z & Hz & Hr).
  exists z. split; [|exact Hr]. rewrite Hz. unfold advance.
  now rewrite Nat.add_1_r.
Qed.

Lemma draws_uniform_in (low high : Q) :
  (low < high)%Q ->
  draws 1 (fun x => exists q, x = Fin q /\ (low <= q)%Q /\ (q < high)%Q)
        (uniform low high).
Proof.
  intros H s. destruct (uniform_range low high s H) as (q & Hq & Hr).
  exists (Fin q). split; [|eauto]. rewrite Hq. unfold advance.
  now rewrite Nat.add_1_r.
Qed.

(** A loop whose iterations each take [k] raw values and relate their
    element to their result by [R] relates the list to the results
    pointwise. *)
Lemma draws_for_each_related {A B} (k : nat) (R : A -> B -> Prop)
  (f : A -> M B) (l : list A) :
  (forall x, draws k (R x) (f x)) ->
  draws (List.length l * k) (Forall2 R l) (for_each f l).
Proof.
  intros Hf. induction l as [|x l IH].
  - apply draws_ret. constructor.
  - cbn [for_each List.length Nat.mul].
    apply draws_bind with (P := R x); [apply Hf|].
    intros y Hy. rewrite <- (Nat.add_0_r (List.length l * k)).
    apply draws_bind with (P := Forall2 R l); [exact IH|].
    intros ys Hys. apply draws_ret. now constructor.
Qed.

Lemma Forall2_const {A B} (P : B -> Prop) (l : list A) (ys : list B) :
  Forall2 (fun _ y => P y) l ys ->
  List.length ys = List.length l /\ Forall P ys.
Proof.
  induction 1 as [|x y l ys Hy _ [IH1 IH2]]; [split; [reflexivity|constructor]|].
  split; [cbn; now rewrite IH1 | now constructor].
Qed.

Lemma draws_randint_array_in (low high : Z) (n : nat) :
  low < high ->
  draws n (fun l => List.length l = n /\ Forall (fun z => low <= z < high) l)
        (randint_array low high n).
Proof.
  intros H. unfold randint_array.
  pose proof (draws_for_each_related 1 (fun (_ : nat) z => low <= z < high)
                (fun _ => randint low high) (seq 0 n)
                (fun _ => draws_randint_in low high H)) as D.
  rewrite length_seq, Nat.mul_1_r in D.
  eapply draws_weaken; [|exact D]. cbn. intros ys Hys.
  apply Forall2_const in Hys. now rewrite length_seq in Hys.
Qed.

Lemma draws_uniform_array_in (low high : Q) (n : nat) :
  (low < high)%Q ->
  draws n (fun l => List.length l = n /\
                    Forall (fun x => exists q, x = Fin q /\
                                               (low <= q)%Q /\ (q < high)%Q) l)
        (uniform_array low high n).
Proof.
  intros H. unfold uniform_array.
  pose proof (draws_for_each_related 1
                (fun (_ : nat) x => exists q, x = Fin q /\
                                              (low <= q)%Q /\ (q < high)%Q)
                (fun _ => uniform low high) (seq 0 n)
                (fun _ => draws_uniform_in low high H)) as D.
  rewrite length_seq, Nat.mul_1_r in D.
  eapply draws_weaken; [|exact D]. cbn. intros ys Hys.
  apply Forall2_const in Hys. now rewrite length_seq in Hys.
Qed.

(** Rounding to the nearest integer stays between integer bounds. *)
Lemma round_half_even_between (a b : Z) (q : Q) :
  (inject_Z a <= q)%Q -> (q < inject_Z b)%Q ->
  a <= round_half_even q <= b.
Proof.
  intros Ha Hb. unfold round_half_even.
  assert (Hfa : a <= Qfloor q).
  { rewrite <- (Qfloor_Z a). now apply Qfloor_resp_le. }
  assert (Hfb : Qfloor q < b).
  { apply Z.lt_nge. intros Hge.
    assert (Hq : (inject_Z b <= q)%Q).
    { eapply Qle_trans; [|apply Qfloor_le]. now rewrite <- Zle_Qle. }
    apply (Qlt_not_le _ _ Hb Hq). }
  destruct (Qcompare _ _); [destruct (Z.even _)| |]; lia.
Qed.

(** A price drawn in [[10, 500)] and rounded to two decimals is in
    [[10, 500]]. *)
Lemma round2_between (x : num) :
  (exists q, x = Fin q /\ (10 <= q)%Q /\ (q < 500)%Q) ->
  exists q, round2 x = Fin q /\ (10 <= q)%Q /\ (q <= 500)%Q.
Proof.
  intros (q & -> & H10 & H500). cbn [round2].
  destruct (round_half_even_between 1000 50000 (q * 100)) as [H1 H2].
  { change (inject_Z 1000) with (1000 # 1)%Q. lra. }
  { change (inject_Z 50000) with (50000 # 1)%Q. lra. }
  eexists; split; [reflexivity|].
  rewrite Zle_Qle in H1, H2.
  change (inject_Z 1000) with (1000 # 1)%Q in H1.
  change (inject_Z 50000) with (50000 # 1)%Q in H2.
  split; [apply Qle_shift_div_l | apply Qle_shift_div_r]; lra.
Qed.

Local Open Scope string_scope.

Lemma draws_ints (low high : Z) (n : nat) :
  low < high -> draws n (ints_between low high n) (randint_array low high n).
Proof. apply draws_randint_array_in. Qed.

Lemma draws_nums (low high : Q) (n : nat) :
  (low < high)%Q -> draws n (nums_between low high n) (uniform_array low high n).
Proof. apply draws_uniform_array_in. Qed.

(** The inventory frame: its columns, twenty rows, and the ranges of the
    drawn values. *)
Lemma inventory_demo_shape :
  draws 80
    (fun t => exists cs ss lt uc,
       t = [("product_id", IntCol (range 1 21));
            ("product_name", StrCol product_names);
            ("current_stock", IntCol cs);
            ("safety_stock", IntCol ss);
            ("lead_time_days", IntCol lt);
            ("unit_cost", FloatCol uc)] /\
       ints_between 30 300 20 cs /\ ints_between 50 100 20 ss /\
       ints_between 3 14 20 lt /\
       List.length uc = 20%nat /\ Forall (fin_within 10 500) uc)
    inventory_demo.
Proof.
  unfold inventory_demo.
  change 80%nat with (20 + (20 + (20 + (20 + 0))))%nat.
  eapply draws_bind; [apply (draws_ints 30 300 20); lia|]. intros cs Hcs.
  eapply draws_bind; [apply (draws_ints 50 100 20); lia|]. intros ss Hss.
  eapply draws_bind; [apply (draws_ints 3 14 20); lia|]. intros lt Hlt.
  eapply draws_bind; [apply (draws_nums 10 500 20); reflexivity|].
  intros uc [Hluc Huc].
  rewrite DataFrame_of_dict_ok.
  - apply draws_lift. exists cs, ss, lt, (map round2 uc).
    split; [reflexivity|]. split; [exact Hcs|]. split; [exact Hss|].
    split; [exact Hlt|]. split; [now rewrite length_map|].
    apply Forall_map. eapply Forall_impl; [|exact Huc].
    intros x Hx. now apply round2_between.
  - destruct Hcs as [Hcs _], Hss as [Hss _], Hlt as [Hlt _].
    cbn [forallb snd column_length]. rewrite length_map, Hcs, Hss, Hlt, Hluc.
    reflexivity.
Qed.

(** The operations frame: its columns, eight rows, and the ranges of the
    drawn values. *)
Lemma operations_demo_shape :
  draws 40
    (fun t => exists ut pr dt ef th,
       t = [("area", StrCol operational_areas);
            ("utilization", FloatCol ut);
            ("productivity_score", FloatCol pr);
            ("downtime_hours", FloatCol dt);
            ("efficiency_rate", FloatCol ef);
            ("throughput", IntCol th)] /\
       nums_between 60 95 8 ut /\ nums_between 70 95 8 pr /\
       nums_between (5 # 10) (35 # 10) 8 dt /\ nums_between 75 95 8 ef /\
       ints_between 100 500 8 th)
    operations_demo.
Proof.
  unfold operations_demo.
  change 40%nat with (8 + (8 + (8 + (8 + (8 + 0)))))%nat.
  change (List.length operational_areas) with 8%nat.
  eapply draws_bind; [apply (draws_nums 60 95 8); reflexivity|]. intros ut Hut.
  eapply draws_bind; [apply (draws_nums 70 95 8); reflexivity|]. intros pr Hpr.
  eapply draws_bind; [apply (draws_nums (5 # 10) (35 # 10) 8); reflexivity|].
  intros dt Hdt.
  eapply draws_bind; [apply (draws_nums 75 95 8); reflexivity|]. intros ef Hef.
  eapply draws_bind; [apply (draws_ints 100 500 8); lia|]. intros th Hth.
  rewrite DataFrame_of_dict_ok.
  - apply draws_lift. exists ut, pr, dt, ef, th.
    split; [reflexivity|]. repeat split; assumption || apply Hut || apply Hpr
      || apply Hdt || apply Hef || apply Hth.
  - destruct Hut as [Hut _], Hpr as [Hpr _], Hdt as [Hdt _], Hef as [Hef _],
             Hth as [Hth _].
    cbn [forallb snd column_length]. rewrite Hut, Hpr, Hdt, Hef, Hth.
    reflexivity.
Qed.

(** The machinery frame: ten rows, the ranges of the drawn values, and
    maintenance dates 45 days apart that end today. *)
Lemma machines_demo_shape (now : Z) :
  draws 30
    (fun t => exists tp vb oh,
       t = machines_table now tp vb oh /\
       nums_between 65 95 10 tp /\ nums_between (8 # 10) (45 # 10) 10 vb /\
       ints_between 1000 8000 10 oh)
    (machines_demo now).
Proof.
  unfold machines_demo.
  change 30%nat with (10 + (10 + (10 + 0)))%nat.
  change num_machines with 10%nat.
  eapply draws_bind; [apply (draws_nums 65 95 10); reflexivity|]. intros tp Htp.
  eapply draws_bind; [apply (draws_nums (8 # 10) (45 # 10) 10); reflexivity|].
  intros vb Hvb.
  eapply draws_bind; [apply (draws_ints 1000 8000 10); lia|]. intros oh Hoh.
  assert (Hok : DataFrame_of_dict (machines_table now tp vb oh)
                = Ok (machines_table now tp vb oh)).
  { unfold machines_table. apply DataFrame_of_dict_ok.
    destruct Htp as [Htp _], Hvb as [Hvb _], Hoh as [Hoh _].
    cbn [forallb snd column_length].
    rewrite length_map, !range_length, Htp, Hvb, Hoh, date_range_end_length.
    reflexivity. }
  rewrite Hok. apply draws_lift. exists tp, vb, oh.
  split; [reflexivity|]. split; [exact Htp|]. split; [exact Hvb|exact Hoh].
Qed.

(** [generate_demo_data] returns four frames with the properties its
    four parts establish. *)
Lemma generate_demo_data_parts
  (Pi Po : table -> Prop) (Pm Pd : Z -> table -> Prop) :
  draws 80 Pi inventory_demo ->
  (forall now, draws 30 (Pm now) (machines_demo now)) ->
  (forall now, draws (20 * (180 * 2)) (Pd now) (demand_demo now)) ->
  draws 40 Po operations_demo ->
  forall now s, exists inventory_df machines_df demand_df operations_df final,
    generate_demo_data now s =
      (Ok (inventory_df, machines_df, demand_df, operations_df), final) /\
    Pi inventory_df /\ Pm now machines_df /\ Pd now demand_df /\
    Po operations_df.
Proof.
  intros Hi Hm Hd Ho now s.
  unfold generate_demo_data, np_random_seed. unfold bind at 1.
  set (s0 := mk_rng (seed_stream 42) 0).
  destruct (Hi s0) as (inv & Hinv & HPi).
  unfold bind at 1. rewrite Hinv.
  match goal with |- context [bind (machines_demo now) _ ?st] =>
    destruct (Hm now st) as (m & Hmr & HPm) end.
  unfold bind at 1. rewrite Hmr.
  match goal with |- context [bind (demand_demo now) _ ?st] =>
    destruct (Hd now st) as (d & Hdr & HPd) end.
  unfold bind at 1. rewrite Hdr.
  match goal with |- context [bind operations_demo _ ?st] =>
    destruct (Ho st) as (o & Hor & HPo) end.
  unfold bind at 1. rewrite Hor.
  unfold ret. exists inv, m, d, o. eexists. split; [reflexivity|].
  repeat split; assumption.
Qed.

Lemma machines_demo_draws (now : Z) :
  draws 30 (fun _ => True) (machines_demo now).
Proof.
  eapply draws_weaken; [|apply machines_demo_shape]. trivial.
Qed.

(** One demand record carries its date and product and a demand that
    is not negative. *)
Lemma demand_record_for_shape (product_id date : Z) :
  draws 2 (fun r => rec_date r = date /\ rec_product_id r = product_id /\
                    0 <= rec_demand r)
        (demand_record_for product_id date).
Proof.
  unfold demand_record_for.
  change 2%nat with (1 + (0 + (0 + (1 + 0))))%nat.
  apply draws_bind with (P := fun _ => True); [apply draws_randint; lia|].
  intros b _.
  apply draws_bind with (P := fun _ => True).
  { destruct (_ || _); [now apply draws_lift | now apply draws_ret]. }
  intros b' _.
  apply draws_bind with (P := fun _ => True).
  { cbn. now apply draws_lift. }
  intros i _.
  apply draws_bind with (P := fun _ => True); [apply draws_randint; lia|].
  intros r _. apply draws_ret. cbn. repeat split. lia.
Qed.

(** Records built date by date for each product, flattened. *)
Lemma demand_records_columns (dates : list Z) (pids : list Z)
  (per_product : list (list demand_record)) :
  Forall2 (fun pid ys =>
             Forall2 (fun d r => rec_date r = d /\ rec_product_id r = pid /\
                                 0 <= rec_demand r) dates ys)
          pids per_product ->
  map rec_date (List.concat per_product) =
    List.concat (map (fun _ => dates) pids) /\
  map rec_product_id (List.concat per_product) =
    flat_map (fun pid => repeat pid (List.length dates)) pids /\
  Forall (fun r => 0 <= rec_demand r) (List.concat per_product).
Proof.
  induction 1 as [|pid ys pids pp Hys _ (IH1 & IH2 & IH3)];
    [repeat split; constructor|].
  cbn [List.concat map flat_map]. rewrite !map_app, IH1, IH2.
  assert (Hrow : map rec_date ys = dates /\
                 map rec_product_id ys = repeat pid (List.length dates) /\
                 Forall (fun r => 0 <= rec_demand r) ys).
  { clear -Hys. induction Hys as [|d r dates ys (H1 & H2 & H3) _ (I1 & I2 & I3)];
      [repeat split; constructor|].
    cbn. rewrite H1, H2, I1, I2. repeat split. now constructor. }
  destruct Hrow as (-> & -> & Hr). repeat split.
  apply Forall_app. now split.
Qed.

(** The demand frame: for each of the twenty products, in turn, one row
    per day of the 180 days that end today, with a demand that is not
    negative. *)
Lemma demand_demo_shape (now : Z) :
  draws (20 * (180 * 2))
    (fun t => exists demand,
       t = [("date",
             DateCol (List.concat (map (fun _ => date_range_end now 180 1)
                                       (range 1 21))));
            ("product_id",
             IntCol (flat_map (fun pid => repeat pid 180) (range 1 21)));
            ("demand", IntCol demand)] /\
       List.length demand = 3600%nat /\ Forall (fun z => 0 <= z) demand)
    (demand_demo now).
Proof.
  unfold demand_demo.
  rewrite <- (Nat.add_0_r (20 * (180 * 2))).
  eapply draws_bind.
  - apply (draws_for_each_related (180 * 2)
             (fun pid ys =>
                Forall2 (fun d r => rec_date r = d /\ rec_product_id r = pid /\
                                    0 <= rec_demand r)
                        (date_range_end now 180 1) ys)
             _ (range 1 (Z.of_nat num_products + 1))).
    intros pid.
    pose proof (draws_for_each_related 2
                  (fun d r => rec_date r = d /\ rec_product_id r = pid /\
                              0 <= rec_demand r)
                  (demand_record_for pid) (date_range_end now 180 1)
                  (demand_record_for_shape pid)) as D.
    rewrite date_range_end_length in D. exact D.
  - intros pp Hpp. apply draws_ret.
    destruct (demand_records_columns _ _ _ Hpp) as (Hd & Hp & Hq).
    rewrite date_range_end_length in Hp.
    assert (Hlen : List.length (List.concat pp) = 3600%nat).
    { rewrite <- (length_map rec_product_id), Hp. reflexivity. }
    exists (map rec_demand (List.concat pp)).
    unfold DataFrame_of_records.
    destruct (List.concat pp) as [|r0 recs] eqn:E; [discriminate|].
    rewrite <- E in *. rewrite Hd, Hp.
    split; [reflexivity|]. split; [now rewrite length_map|].
    now apply Forall_map.
Qed.

(** X14: the demand history of the demo data has 3600 rows: for each
    product 1 to 20, in turn, one row per day of the 180 days that end
    today; no demand is negative. *)
Theorem generate_demo_data_demand_history (now : Z) (s : rng) :
  exists inventory_df machines_df demand_df operations_df final demand,
    generate_demo_data now s =
      (Ok (inventory_df, machines_df, demand_df, operations_df), final) /\
    demand_df =
      [("date",
        DateCol (List.concat (map (fun _ => date_range_end now 180 1)
                                  (range 1 21))));
       ("product_id",
        IntCol (flat_map (fun pid => repeat pid 180) (range 1 21)));
       ("demand", IntCol demand)] /\
    List.length demand = 3600%nat /\ Forall (fun z => 0 <= z) demand.
Proof.
  destruct (generate_demo_data_parts (fun _ => True) (fun _ => True)
              (fun _ _ => True) _ inventory_demo_draws machines_demo_draws
              demand_demo_shape operations_demo_draws now s)
    as (inv & m & d & o & final & Hrun & _ & _ & (demand & Hshape) & _).
  exists inv, m, d, o, final, demand. split; [exact Hrun|exact Hshape].
Qed.

(** X12: the inventory frame of the demo data has the six columns of
    the schema and twenty rows; stocks are in [[30, 300)], safety stocks
    in [[50, 100)], lead times in [[3, 14)] and unit costs, rounded to
    two decimals, in [[10, 500]]. *)
Theorem generate_demo_data_inventory_ranges (now : Z) (s : rng) :
  exists inventory_df machines_df demand_df operations_df final cs ss lt uc,
    generate_demo_data now s =
      (Ok (inventory_df, machines_df, demand_df, operations_df), final) /\
    inventory_df =
      [("product_id", IntCol (range 1 21));
       ("product_name", StrCol product_names);
       ("current_stock", IntCol cs);
       ("safety_stock", IntCol ss);
       ("lead_time_days", IntCol lt);
       ("unit_cost", FloatCol uc)] /\
    ints_between 30 300 20 cs /\ ints_between 50 100 20 ss /\
    ints_between 3 14 20 lt /\
    List.length uc = 20%nat /\ Forall (fin_within 10 500) uc.
Proof.
  destruct (generate_demo_data_parts _ (fun _ => True) (fun _ _ => True)
              (fun _ _ => True) inventory_demo_shape machines_demo_draws
              demand_demo_draws operations_demo_draws now s)
    as (inv & m & d & o & final & Hrun & (cs & ss & lt & uc & Hshape) & _).
  exists inv, m, d, o, final, cs, ss, lt, uc. split; [exact Hrun|exact Hshape].
Qed.

(** X13: the machinery frame of the demo data has ten rows with
    temperatures in [[65, 95)], vibrations in [[0.8, 4.5)], operating
    hours in [[1000, 8000)] and maintenance dates 45 days apart, the
    last one today; the operations frame has eight rows with utilization
    in [[60, 95)], productivity in [[70, 95)], downtime in [[0.5, 3.5)],
    efficiency in [[75, 95)] and throughput in [[100, 500)]. *)
Theorem generate_demo_data_machine_and_operations_ranges (now : Z) (s : rng) :
  exists inventory_df machines_df demand_df operations_df final
         tp vb oh ut pr dt ef th,
    generate_demo_data now s =
      (Ok (inventory_df, machines_df, demand_df, operations_df), final) /\
    machines_df = machines_table now tp vb oh /\
    nums_between 65 95 10 tp /\ nums_between (8 # 10) (45 # 10) 10 vb /\
    ints_between 1000 8000 10 oh /\
    operations_df =
      [("area", StrCol operational_areas);
       ("utilization", FloatCol ut);
       ("productivity_score", FloatCol pr);
       ("downtime_hours", FloatCol dt);
       ("efficiency_rate", FloatCol ef);
       ("throughput", IntCol th)] /\
    nums_between 60 95 8 ut /\ nums_between 70 95 8 pr /\
    nums_between (5 # 10) (35 # 10) 8 dt /\ nums_between 75 95 8 ef /\
    ints_between 100 500 8 th.
Proof.
  destruct (generate_demo_data_parts (fun _ => True) _ _ (fun _ _ => True)
              inventory_demo_draws machines_demo_shape
              demand_demo_draws operations_demo_shape now s)
    as (inv & m & d & o & final & Hrun & _ & (tp & vb & oh & Hm) & _
        & (ut & pr & dt & ef & th & Ho)).
  exists inv, m, d, o, final, tp, vb, oh, ut, pr, dt, ef, th.
  split; [exact Hrun|]. destruct Hm as (Hm1 & Hm2 & Hm3 & Hm4).
  repeat split; try (apply Hm2 || apply Hm3 || apply Hm4); try exact Hm1;
    apply Ho.
Qed.

End demo_data_more.

(** ** models/decision_engine.py: savings and return on investment *)

Section savings_and_roi.

Import decision_engine.
Local Open Scope Q_scope.

(** X17: the estimated savings are an integer of at least
    3000 c + 1000 l + 2000 and at most 5999 c + 2499 l + 3999, for [c]
    critical machines and [l] low-stock products: at least 2000 even when
    nothing is wrong. *)
Theorem calculate_savings_bounds (machine_data : DataFrame machine_row)
  (inventory_data : DataFrame inventory_row) (s : rng) :
  exists total s',
    calculate_savings machine_data inventory_data s = (Ok total, s') /\
    let c := Z.of_nat (count_rows is_critical machine_data) in
    let l := Z.of_nat (count_rows is_low_stock inventory_data) in
    (3000 * c + 1000 * l + 2000 <= total)%Z /\
    (total <= 5999 * c + 2499 * l + 3999)%Z /\
    (2000 <= total)%Z.
Proof.
  unfold calculate_savings.
  unfold bind at 1.
  destruct (randint_range 3000 6000 s ltac:(lia)) as (r1 & -> & Hr1).
  unfold bind at 1.
  destruct (randint_range 1000 2500 (advance s) ltac:(lia)) as (r2 & -> & Hr2).
  unfold bind at 1.
  destruct (randint_range 2000 4000 (advance (advance s)) ltac:(lia))
    as (r3 & -> & Hr3).
  unfold ret. eexists; eexists; split; [reflexivity|].
  unfold len, select, count_rows. cbn [rows].
  set (c := Z.of_nat (List.length (filter is_critical (rows machine_data)))).
  set (l := Z.of_nat (List.length (filter is_low_stock (rows inventory_data)))).
  assert (Hc : (0 <= c)%Z) by (subst c; lia).
  assert (Hl : (0 <= l)%Z) by (subst l; lia).
  cbv zeta. repeat split; nia.
Qed.

(** X18: with an estimated cost, [calculate_roi] always returns: the
    cost is drawn in the range of the priority, the monthly benefit in
    [[3000, 10000)], the payback period is positive and below 5/3 of a
    month, and the return on investment exceeds 620 percent. *)
Theorem calculate_roi_with_estimated_cost (recommendation : recommendation)
  (s : rng) :
  exists r s' c p q,
    calculate_roi recommendation None s = (Ok r, s') /\
    implementation_cost r = of_Z c /\
    (priority recommendation = 1%Z -> (2000 <= c < 5000)%Z) /\
    (priority recommendation = 2%Z -> (1000 <= c < 3000)%Z) /\
    (priority recommendation <> 1%Z -> priority recommendation <> 2%Z ->
     (500 <= c < 1500)%Z) /\
    (3000 <= monthly_benefit r < 10000)%Z /\
    annual_benefit r = (monthly_benefit r * 12)%Z /\
    payback_period_months r = Fin p /\ 0 < p /\ p < 5 # 3 /\
    roi_percentage r = Fin q /\ 620 < q.
Proof.
  unfold calculate_roi.
  assert (Hcost : exists c s1,
    (if (priority recommendation =? 1)%Z
     then c <- randint 2000 5000;; ret (of_Z c)
     else if (priority recommendation =? 2)%Z
          then c <- randint 1000 3000;; ret (of_Z c)
          else c <- randint 500 1500;; ret (of_Z c)) s = (Ok (of_Z c), s1) /\
    (500 <= c < 5000)%Z /\
    (priority recommendation = 1%Z -> (2000 <= c < 5000)%Z) /\
    (priority recommendation = 2%Z -> (1000 <= c < 3000)%Z) /\
    (priority recommendation <> 1%Z -> priority recommendation <> 2%Z ->
     (500 <= c < 1500)%Z)).
  { destruct (priority recommendation =? 1)%Z eqn:E1;
      [|destruct (priority recommendation =? 2)%Z eqn:E2]; unfold bind, ret.
    - destruct (randint_range 2000 5000 s ltac:(lia)) as (c & -> & Hc).
      exists c. eexists. split; [reflexivity|]. apply Z.eqb_eq in E1.
      repeat split; intros; lia.
    - destruct (randint_range 1000 3000 s ltac:(lia)) as (c & -> & Hc).
      exists c. eexists. split; [reflexivity|].
      apply Z.eqb_neq in E1. apply Z.eqb_eq in E2.
      repeat split; intros; lia.
    - destruct (randint_range 500 1500 s ltac:(lia)) as (c & -> & Hc).
      exists c. eexists. split; [reflexivity|].
      apply Z.eqb_neq in E1, E2. repeat split; intros; lia. }
  destruct Hcost as (c & s1 & Hrun & Hc & H1 & H2 & H3).
  unfold bind at 1. rewrite Hrun.
  unfold bind at 1.
  destruct (randint_range 3000 10000 s1 ltac:(lia)) as (m & -> & Hm).
  assert (HcQ : 500 <= inject_Z c /\ inject_Z c < 5000).
  { change 500 with (inject_Z 500). change 5000 with (inject_Z 5000).
    rewrite <- Zle_Qle, <- Zlt_Qlt. lia. }
  assert (HmQ : 3000 <= inject_Z m /\ inject_Z m < 10000).
  { change 3000 with (inject_Z 3000). change 10000 with (inject_Z 10000).
    rewrite <- Zle_Qle, <- Zlt_Qlt. lia. }
  unfold of_Z. cbn [Num.sub Num.opp Num.add].
  rewrite !true_div_defined.
  2:{ cbn. destruct (Qeq_bool (inject_Z c) 0) eqn:E; [|reflexivity].
      apply Qeq_bool_iff in E. lra. }
  2:{ cbn. destruct (Qeq_bool (inject_Z m) 0) eqn:E; [|reflexivity].
      apply Qeq_bool_iff in E. lra. }
  rewrite !div_fin by lra.
  unfold bind, lift, ret. cbn [Num.mul].
  eexists; eexists; exists c, (inject_Z c / inject_Z m),
    ((inject_Z (m * 12) + - inject_Z c) / inject_Z c * inject_Z 100).
  split; [reflexivity|]. cbn.
  split; [reflexivity|]. split; [exact H1|]. split; [exact H2|].
  split; [exact H3|]. split; [exact Hm|]. split; [reflexivity|].
  split; [reflexivity|].
  split; [apply Qlt_shift_div_l; lra|].
  split; [apply Qlt_shift_div_r; lra|].
  split; [reflexivity|].
  rewrite inject_Z_mult. change (inject_Z 12) with (12 # 1).
  change (inject_Z 100) with (100 # 1).
  assert (Hq : 62 # 10 < (inject_Z m * (12 # 1) + - inject_Z c) / inject_Z c).
  { apply Qlt_shift_div_l; lra. }
  lra.
Qed.

(** X19: with a cost of zero, [calculate_roi] raises
    [ZeroDivisionError] where it divides by the cost. *)
Theorem calculate_roi_with_zero_cost (recommendation : recommendation)
  (cost : Q) (s : rng) :
  cost == 0 ->
  fst (calculate_roi recommendation (Some (Fin cost)) s) = Raise ZeroDivisionError.
Proof.
  intros Hzero. unfold calculate_roi.
  unfold bind at 1. unfold ret at 1.
  unfold bind at 1.
  destruct (randint_range 3000 10000 s ltac:(lia)) as (m & -> & Hm).
  assert (HmQ : 3000 <= inject_Z m).
  { change 3000 with (inject_Z 3000). rewrite <- Zle_Qle. lia. }
  rewrite (true_div_defined (Fin cost) (of_Z m)).
  2:{ cbn. destruct (Qeq_bool (inject_Z m) 0) eqn:E; [|reflexivity].
      apply Qeq_bool_iff in E. lra. }
  rewrite true_div_by_zero by (cbn; now apply Qeq_bool_iff).
  reflexivity.
Qed.

End savings_and_roi.

(** ** models/maintenance_models.py: anomalies *)

Section anomaly_facts.

Import maintenance_models.
Local Open Scope Q_scope.

(** The distance of a reading from its normal range, scaled by [d]:
    zero exactly inside the range. *)
Lemma range_score (lo hi d x : Q) :
  lo <= hi -> 0 < d ->
  exists sc,
    (if (Fin x >? Fin hi)%num then ((Fin x - Fin hi) / Fin d)%num
     else if (Fin x <? Fin lo)%num then ((Fin lo - Fin x) / Fin d)%num
     else of_Z 0) = Fin sc /\
    0 <= sc /\
    (sc == 0 <-> lo <= x /\ x <= hi) /\
    (((Fin x <? Fin lo)%num || (Fin x >? Fin hi)%num) = false
     <-> lo <= x /\ x <= hi).
Proof.
  intros Hlh Hd. unfold Num.gtb. cbn [Num.ltb Num.sub Num.opp Num.add].
  rewrite !div_fin by lra.
  destruct (Qltb hi x) eqn:E1; destruct (Qltb x lo) eqn:E2;
    try apply Qltb_lt in E1; try apply Qltb_ge in E1;
    try apply Qltb_lt in E2; try apply Qltb_ge in E2; cbn [orb].
  - lra.
  - exists ((x + - hi) / d). split; [reflexivity|].
    assert (H : 0 < (x + - hi) / d) by (apply Qlt_shift_div_l; lra).
    repeat split; try lra; try discriminate; intros; lra.
  - exists ((lo + - x) / d). split; [reflexivity|].
    assert (H : 0 < (lo + - x) / d) by (apply Qlt_shift_div_l; lra).
    repeat split; try lra; try discriminate; intros; lra.
  - exists 0. split; [reflexivity|].
    repeat split; try lra; try reflexivity; intros; lra.
Qed.

(** X20: the anomaly score is in [[0, 1]]; a machine is flagged exactly
    when its temperature is outside [[65, 85]] or its vibration outside
    [[0.5, 3.5]], and exactly then the score is positive. *)
Theorem detect_anomalies_flag_and_score (machine : machine_row) :
  exists q,
    anomaly_score (detect_anomalies machine) = Fin q /\
    0 <= q /\ q <= 1 /\
    (is_anomaly (detect_anomalies machine) = false <->
     (65 <= temperature machine /\ temperature machine <= 85) /\
     ((5 # 10) <= vibration machine /\ vibration machine <= (35 # 10))) /\
    (is_anomaly (detect_anomalies machine) = true <-> 0 < q).
Proof.
  unfold detect_anomalies. cbn [anomaly_score is_anomaly fst snd].
  unfold dec.
  change (of_Z 65) with (Fin 65). change (of_Z 85) with (Fin 85).
  change (of_Z 20) with (Fin 20). change (of_Z 2) with (Fin 2).
  destruct (range_score 65 85 20 (temperature machine))
    as (ts & Hts & Hts0 & Htz & Hta); [discriminate | reflexivity |].
  destruct (range_score (5 # 10) (35 # 10) 2 (vibration machine))
    as (vs & Hvs & Hvs0 & Hvz & Hva); [discriminate | reflexivity |].
  rewrite Hts, Hvs.
  destruct (py_max_fin_cases ts vs) as (m & -> & Hm).
  unfold of_Z.
  assert (Hmin : exists q, py_min (Fin (inject_Z 1)) (Fin m) = Fin q /\
                           ((m < 1 /\ q = m) \/ (1 <= m /\ q = 1))).
  { unfold py_min. cbn [Num.ltb]. change (inject_Z 1) with 1.
    destruct (Qltb m 1) eqn:E.
    - apply Qltb_lt in E. eauto.
    - apply Qltb_ge in E. eauto. }
  destruct Hmin as (q & -> & Hq).
  set (ta := ((Fin (temperature machine) <? Fin 65)%num
              || (Fin (temperature machine) >? Fin 85)%num)) in *.
  set (va := ((Fin (vibration machine) <? Fin (5 # 10))%num
              || (Fin (vibration machine) >? Fin (35 # 10))%num)) in *.
  exists q. split; [reflexivity|].
  assert (Hm0 : 0 <= m) by (destruct Hm as [[_ ->]|[_ ->]]; lra).
  assert (Hmz : m == 0 <-> ts == 0 /\ vs == 0).
  { destruct Hm as [[H ->]|[H ->]]; split; intros; try lra. }
  assert (Hqz : q == 0 <-> m == 0).
  { destruct Hq as [[H ->]|[H ->]]; split; intros; lra. }
  split; [destruct Hq as [[H ->]|[H ->]]; lra|].
  split; [destruct Hq as [[H ->]|[H ->]]; lra|].
  split.
  - rewrite orb_false_iff, Hta, Hva. reflexivity.
  - assert (Hflag : ta || va = false <-> q == 0).
    { rewrite orb_false_iff, Hta, Hva, Hqz, Hmz, Htz, Hvz. reflexivity. }
    destruct (ta || va); split; intros H; try reflexivity; try discriminate.
    + destruct (Qlt_le_dec 0 q) as [Hpos|Hneg]; [exact Hpos|].
      assert (Hq0 : 0 <= q) by (destruct Hq as [[? ->]|[? ->]]; lra).
      assert (Hz : q == 0) by lra.
      apply Hflag in Hz. discriminate.
    + assert (Hz : q == 0) by (apply Hflag; reflexivity). lra.
Qed.

End anomaly_facts.

(** ** models/demand_forecasting.py: slow-moving items and safety stock *)

Section slow_moving_facts.

Import demand_forecasting.
Local Open Scope Q_scope.

Lemma flat_map_singleton {A} (l : list A) : flat_map (fun x => [x]) l = l.
Proof. induction l as [|x l IH]; cbn; [reflexivity|now rewrite IH]. Qed.

(** Without a date there is nothing to move: the cutoff is [NaT] when
    the [timedelta] can be built. *)
Lemma cutoff_of_nothing (n : Z) :
  (Z.abs n <= timedelta_max_days)%Z -> cutoff None n = Ok None.
Proof.
  intros Hn. unfold cutoff.
  replace (timedelta_max_days <? Z.abs n)%Z with false
    by (symmetry; apply Z.ltb_ge; exact Hn).
  reflexivity.
Qed.

(** The cutoff of a date is the date moved back, when the span and the
    result are ones pandas can hold. *)
Lemma cutoff_of_date (d n : Z) :
  (Z.abs n <= timestamp_max_day)%Z ->
  (- timestamp_max_day <= d - n <= timestamp_max_day)%Z ->
  cutoff (Some d) n = Ok (Some (d - n)%Z).
Proof.
  intros Hn Hd. unfold cutoff, timestamp_add, in_timestamp_range.
  rewrite Z.abs_opp.
  replace (timedelta_max_days <? Z.abs n)%Z with false
    by (symmetry; apply Z.ltb_ge; unfold timedelta_max_days, timestamp_max_day in *;
        lia).
  replace (timestamp_max_day <? Z.abs n)%Z with false
    by (symmetry; apply Z.ltb_ge; exact Hn).
  replace (- timestamp_max_day <=? d + - n)%Z with true
    by (symmetry; apply Z.leb_le; lia).
  replace (d + - n <=? timestamp_max_day)%Z with true
    by (symmetry; apply Z.leb_le; lia).
  reflexivity.
Qed.

(** X21: when the demand history is empty and the threshold a number of
    days a [timedelta] can hold, or the threshold is negative and the
    cutoff, which is then after the latest date, a date pandas can hold,
    no demand counts as recent and every product of the inventory is
    reported, in the order of the frame. *)
Theorem identify_slow_moving_items_reports_all
  (inventory_data : DataFrame inventory_row)
  (demand_data : DataFrame demand_row) (threshold_days : Z) :
  (rows demand_data = [] /\ (Z.abs threshold_days <= timedelta_max_days)%Z) \/
  ((- timestamp_max_day <= threshold_days < 0)%Z /\
   forall d, latest_date (map date (rows demand_data)) = Some d ->
             (- timestamp_max_day <= d /\
              d - threshold_days <= timestamp_max_day)%Z) ->
  identify_slow_moving_items inventory_data demand_data threshold_days =
  Ok (map product_id (rows inventory_data)).
Proof.
  intros Hcase. unfold identify_slow_moving_items.
  assert (Hcut : exists c,
    cutoff (latest_date (map date (rows demand_data))) threshold_days = Ok c /\
    Forall (fun r => match c with
                     | Some c => (c <=? date r)%Z
                     | None => false
                     end = false) (rows demand_data)).
  { destruct Hcase as [[Hempty Hn]|[Hneg Hlatest]].
    - rewrite Hempty. cbn [map latest_date]. rewrite cutoff_of_nothing by exact Hn.
      eexists. split; [reflexivity|constructor].
    - destruct (rows demand_data) as [|r0 l] eqn:E.
      + cbn [map latest_date]. rewrite cutoff_of_nothing
          by (unfold timedelta_max_days, timestamp_max_day in *; lia).
        eexists. split; [reflexivity|constructor].
      + cbn [map latest_date] in *.
        destruct (fold_max_spec (map date l) (date r0)) as (_ & Hle & Hall).
        set (latest := fold_left Z.max (map date l) (date r0)) in *.
        destruct (Hlatest latest eq_refl) as [Hlow Hhigh].
        rewrite cutoff_of_date by lia.
        eexists. split; [reflexivity|].
        assert (Hdates : Forall (fun r => (date r <= latest)%Z) (r0 :: l)).
        { constructor; [exact Hle|]. rewrite Forall_forall in *. intros r Hr.
          apply Hall. now apply in_map. }
        eapply Forall_impl; [|exact Hdates]. intros r Hr. cbv beta in *.
        apply Z.leb_gt. lia. }
  destruct Hcut as (c & -> & Hnone). f_equal.
  rewrite <- (flat_map_singleton (map product_id (rows inventory_data))) at 2.
  apply flat_map_ext. intros pid.
  match goal with |- context [select ?m demand_data] =>
    assert (Hsel : rows (select m demand_data) = []) end.
  { unfold select. cbn [rows]. clear -Hnone.
    induction Hnone as [|r l Hr _ IH]; [reflexivity|].
    cbn [filter]. rewrite Hr, andb_false_r. exact IH. }
  unfold len. rewrite Hsel. reflexivity.
Qed.

(** X22: when the threshold and the cutoff are ones pandas can hold, a
    product without any row in the demand history is reported. *)
Theorem identify_slow_moving_items_reports_products_without_demand
  (inventory_data : DataFrame inventory_row)
  (demand_data : DataFrame demand_row) (threshold_days : Z) (p : inventory_row) :
  In p (rows inventory_data) ->
  Forall (fun r => demand_product_id r <> product_id p) (rows demand_data) ->
  (Z.abs threshold_days <= timestamp_max_day)%Z ->
  (forall d, latest_date (map date (rows demand_data)) = Some d ->
             (- timestamp_max_day <= d - threshold_days <= timestamp_max_day)%Z) ->
  exists slow_moving,
    identify_slow_moving_items inventory_data demand_data threshold_days
      = Ok slow_moving /\
    In (product_id p) slow_moving.
Proof.
  intros Hin Hnone Hn Hlatest. unfold identify_slow_moving_items.
  assert (Hcut : exists c,
    cutoff (latest_date (map date (rows demand_data))) threshold_days = Ok c).
  { destruct (latest_date (map date (rows demand_data))) as [d|].
    - rewrite cutoff_of_date; eauto.
    - rewrite cutoff_of_nothing
        by (unfold timedelta_max_days, timestamp_max_day in *; lia).
      eauto. }
  destruct Hcut as (c & ->). eexists. split; [reflexivity|].
  apply in_flat_map. exists (product_id p). split; [now apply in_map|].
  match goal with |- context [select ?m demand_data] =>
    assert (Hsel : rows (select m demand_data) = []) end.
  { unfold select. cbn [rows]. clear -Hnone.
    induction Hnone as [|r l Hr _ IH]; [reflexivity|].
    cbn [filter]. apply Z.eqb_neq in Hr. rewrite Hr. exact IH. }
  unfold len. rewrite Hsel. cbn. now left.
Qed.

End slow_moving_facts.

Section safety_stock_facts.

Import demand_forecasting.
Context {L : Library}.
Local Open Scope Q_scope.

(** [int(x)] of a finite [x] that is not negative is its floor. *)
Lemma py_int_nonneg (a : Q) : 0 <= a -> py_int (Fin a) = Ok (Qfloor a).
Proof.
  intros Ha. destruct a as [n d]. cbn. f_equal.
  apply Z.quot_div_nonneg; [|reflexivity].
  unfold Qle in Ha. cbn in Ha. lia.
Qed.

(** X23: for a lead time that is not negative the recommended safety
    stock is an integer that is not negative, it grows with the
    volatility, low then medium then high, and every other volatility is
    treated as medium. *)
Theorem optimize_safety_stock_levels (product_row : inventory_row) :
  sqrt_nonneg L ->
  0 <= lead_time_days product_row ->
  exists low medium high,
    optimize_safety_stock product_row "low" = Ok low /\
    optimize_safety_stock product_row "medium" = Ok medium /\
    optimize_safety_stock product_row "high" = Ok high /\
    (0 <= low <= medium)%Z /\ (medium <= high)%Z /\
    forall other : string,
      other <> "low"%string -> other <> "medium"%string ->
      other <> "high"%string ->
      optimize_safety_stock product_row other = Ok medium.
Proof.
  intros Hsqrt Hlead. unfold optimize_safety_stock.
  cbn [np_sqrt]. destruct (Qltb (lead_time_days product_row) 0) eqn:E.
  { apply Qltb_lt in E. lra. }
  pose proof (Hsqrt _ Hlead) as Hs.
  set (sq := sqrt_fin (lead_time_days product_row)) in *.
  unfold dec, of_Z.
  assert (Hget : forall key z,
    dict_get key service_levels (Fin (165 # 100)) = Fin z -> 0 <= z ->
    py_int (Fin z * (Fin (inject_Z 10) * Fin (3 # 10)) * Fin sq)%num =
    Ok (Qfloor (z * (inject_Z 10 * (3 # 10)) * sq))).
  { intros key z _ Hz. cbn [Num.mul]. apply py_int_nonneg.
    change (inject_Z 10) with (10 # 1).
    assert (H1 : 0 <= z * ((10 # 1) * (3 # 10))) by lra.
    now apply Qmult_le_0_compat. }
  exists (Qfloor ((128 # 100) * (inject_Z 10 * (3 # 10)) * sq)),
         (Qfloor ((165 # 100) * (inject_Z 10 * (3 # 10)) * sq)),
         (Qfloor ((233 # 100) * (inject_Z 10 * (3 # 10)) * sq)).
  change (inject_Z 10) with (10 # 1) in *.
  split; [apply (Hget "low"%string); [reflexivity|discriminate]|].
  split; [apply (Hget "medium"%string); [reflexivity|discriminate]|].
  split; [apply (Hget "high"%string); [reflexivity|discriminate]|].
  assert (Hmono : forall a b, a <= b ->
            (Qfloor (a * ((10 # 1) * (3 # 10)) * sq)
             <= Qfloor (b * ((10 # 1) * (3 # 10)) * sq))%Z).
  { intros a b Hab. apply Qfloor_resp_le.
    assert (H0 : 0 <= (b - a) * (3 * sq)) by (apply Qmult_le_0_compat; lra).
    lra. }
  split; [split|split].
  - rewrite <- (Qfloor_Z 0). apply Qfloor_resp_le.
    change (inject_Z 0) with 0.
    assert (H0 : 0 <= (128 # 100) * (3 * sq)) by (apply Qmult_le_0_compat; lra).
    lra.
  - apply Hmono. discriminate.
  - apply Hmono. discriminate.
  - intros other H1 H2 H3.
    assert (Hd : dict_get other service_levels (Fin (165 # 100))
                 = Fin (165 # 100)).
    { unfold dict_get, service_levels, dec. cbn [find fst].
      apply String.eqb_neq in H1, H2, H3.
      rewrite (String.eqb_sym "low" other), H1.
      rewrite (String.eqb_sym "medium" other), H2.
      rewrite (String.eqb_sym "high" other), H3. reflexivity. }
    unfold dec in Hd. rewrite Hd.
    apply (Hget "medium"%string); [reflexivity|discriminate].
Qed.

(** X24: for a negative lead time the square root is [nan] and
    [int(nan)] raises [ValueError], whatever the volatility. *)
Theorem optimize_safety_stock_negative_lead_time (product_row : inventory_row)
  (demand_volatility : string) :
  lead_time_days product_row < 0 ->
  optimize_safety_stock product_row demand_volatility = Raise ValueError.
Proof.
  intros Hlead. unfold optimize_safety_stock. cbn [np_sqrt].
  destruct (Qltb (lead_time_days product_row) 0) eqn:E.
  - match goal with |- py_int (?x * NaN)%num = _ => now destruct x end.
  - apply Qltb_ge in E. lra.
Qed.

End safety_stock_facts.

(** ** utils/calculations.py *)

Section calculations_facts.

Import calculations.
Context {L : Library}.
Local Open Scope Q_scope.

Lemma inject_nat_succ (n : nat) :
  inject_Z (Z.of_nat (S n)) == inject_Z (Z.of_nat n) + 1.
Proof. rewrite Nat2Z.inj_succ. unfold Z.succ. rewrite inject_Z_plus. reflexivity. Qed.

(** The sum of numbers that all lie in one interval. *)
Lemma sum_between (l : list num) (a lo hi : Q) :
  Forall (fin_within lo hi) l ->
  exists S, fold_left Num.add l (Fin a) = Fin S /\
            a + inject_Z (Z.of_nat (List.length l)) * lo <= S /\
            S <= a + inject_Z (Z.of_nat (List.length l)) * hi.
Proof.
  intros Hall. revert a. induction Hall as [|y l Hy _ IH]; intros a.
  - exists a. split; [reflexivity|]. cbn [List.length].
    change (inject_Z (Z.of_nat 0)) with 0. lra.
  - destruct Hy as (q & -> & Hq1 & Hq2).
    destruct (IH (a + q)) as (S & HS & Hlo & Hhi). exists S.
    split; [exact HS|]. cbn [List.length].
    pose proof (inject_nat_succ (List.length l)) as Hn.
    set (n := inject_Z (Z.of_nat (List.length l))) in *.
    set (n' := inject_Z (Z.of_nat (Datatypes.S (List.length l)))) in *.
    clearbody n n'. split; nra.
Qed.

(** The mean of numbers that all lie in one interval lies in it. *)
Lemma np_mean_between (l : list num) (lo hi : Q) :
  l <> [] -> Forall (fin_within lo hi) l ->
  exists m, np_mean l = Fin m /\ lo <= m <= hi.
Proof.
  intros Hne Hall. unfold np_mean, Num.sum, of_Z.
  destruct (sum_between l (inject_Z 0) lo hi Hall) as (S & -> & Hlo & Hhi).
  unfold of_nat, of_Z.
  assert (Hn : 0 < inject_Z (Z.of_nat (List.length l))).
  { change 0 with (inject_Z 0). rewrite <- Zlt_Qlt.
    destruct l; [congruence|cbn [List.length]; lia]. }
  set (n := inject_Z (Z.of_nat (List.length l))) in *. clearbody n.
  rewrite div_fin by lra. eexists; split; [reflexivity|].
  change (inject_Z 0) with 0 in *.
  split.
  - apply Qle_shift_div_l; [exact Hn|]. lra.
  - apply Qle_shift_div_r; [exact Hn|]. lra.
Qed.

(** One of the three partial scores of [calculate_health_score]: 100 up
    to the limit, then 100 less a penalty, and never below 0. *)
Lemma partial_score (x limit penalty : Q) :
  (limit < x -> 0 <= penalty) ->
  fin_within 0 100
    (if (Fin x <=? Fin limit)%num then of_Z 100
     else py_max (of_Z 0) (of_Z 100 - Fin penalty)%num) /\
  (x <= limit ->
   fin_within 100 100
     (if (Fin x <=? Fin limit)%num then of_Z 100
      else py_max (of_Z 0) (of_Z 100 - Fin penalty)%num)).
Proof.
  intros Hpen. cbn [Num.leb]. destruct (Qle_bool x limit) eqn:E.
  - split; [|intros _]; exists (inject_Z 100);
      (split; [reflexivity|]); change (inject_Z 100) with 100; lra.
  - assert (Hx : limit < x).
    { apply Qnot_le_lt. intros H. apply Qle_bool_iff in H. congruence. }
    specialize (Hpen Hx). unfold of_Z. cbn [Num.sub Num.opp Num.add].
    destruct (py_max_fin_cases (inject_Z 0) (inject_Z 100 + - penalty))
      as (c & -> & Hc).
    change (inject_Z 0) with 0 in Hc. change (inject_Z 100) with 100 in Hc.
    split; [|intros H; lra].
    exists c. split; [reflexivity|]. destruct Hc as [[H ->]|[H ->]]; lra.
Qed.

(** X25: on a frame with at least one machine the health score is a
    number between 0 and 100, and it is 100 when no machine is above
    75 degrees, 2.5 mm/s or 3000 operational hours. *)
Theorem calculate_health_score_range (machine_data : DataFrame machine_row) :
  rows machine_data <> [] ->
  exists q, calculate_health_score machine_data = Fin q /\
            0 <= q <= 100 /\
            (Forall (fun m => temperature m <= 75 /\ vibration m <= 25 # 10 /\
                              operational_hours m <= 3000)
                    (rows machine_data) -> q == 100).
Proof.
  intros Hne. unfold calculate_health_score.
  set (ts := map _ (rows machine_data)).
  set (vs := map _ (rows machine_data)).
  set (hs := map _ (rows machine_data)).
  assert (Hlen : forall (f : machine_row -> num),
            map f (rows machine_data) <> []).
  { intros f H. apply map_eq_nil in H. contradiction. }
  assert (Ht : Forall (fin_within 0 100) ts /\
               (Forall (fun m => temperature m <= 75) (rows machine_data) ->
                Forall (fin_within 100 100) ts)).
  { subst ts. split; [|intros Hall]; apply Forall_map.
    - apply Forall_forall. intros m _. unfold of_Z.
      cbn [Num.sub Num.opp Num.add Num.mul].
      apply (partial_score (temperature m) (inject_Z 75)
               ((temperature m + - inject_Z 75) * inject_Z 5)).
      change (inject_Z 75) with 75. change (inject_Z 5) with 5. intros H. lra.
    - eapply Forall_impl; [|exact Hall]. intros m Hm. unfold of_Z.
      cbn [Num.sub Num.opp Num.add Num.mul].
      apply (partial_score (temperature m) (inject_Z 75)
               ((temperature m + - inject_Z 75) * inject_Z 5)).
      + change (inject_Z 75) with 75. change (inject_Z 5) with 5. intros H. lra.
      + exact Hm. }
  assert (Hv : Forall (fin_within 0 100) vs /\
               (Forall (fun m => vibration m <= 25 # 10) (rows machine_data) ->
                Forall (fin_within 100 100) vs)).
  { subst vs. split; [|intros Hall]; apply Forall_map.
    - apply Forall_forall. intros m _. unfold dec, of_Z.
      cbn [Num.sub Num.opp Num.add Num.mul].
      apply (partial_score (vibration m) (25 # 10)
               ((vibration m + - (25 # 10)) * inject_Z 20)).
      change (inject_Z 20) with 20. intros H. lra.
    - eapply Forall_impl; [|exact Hall]. intros m Hm. unfold dec, of_Z.
      cbn [Num.sub Num.opp Num.add Num.mul].
      apply (partial_score (vibration m) (25 # 10)
               ((vibration m + - (25 # 10)) * inject_Z 20)).
      + change (inject_Z 20) with 20. intros H. lra.
      + exact Hm. }
  assert (Hh : Forall (fin_within 0 100) hs /\
               (Forall (fun m => operational_hours m <= 3000) (rows machine_data) ->
                Forall (fin_within 100 100) hs)).
  { subst hs. split; [|intros Hall]; apply Forall_map.
    - apply Forall_forall. intros m _. unfold of_Z.
      cbn [Num.sub Num.opp Num.add]. rewrite div_fin by discriminate.
      apply (partial_score (operational_hours m) (inject_Z 3000)
               ((operational_hours m + - inject_Z 3000) / inject_Z 50)).
      change (inject_Z 3000) with 3000. change (inject_Z 50) with 50.
      intros H. apply Qle_shift_div_l; lra.
    - eapply Forall_impl; [|exact Hall]. intros m Hm. unfold of_Z.
      cbn [Num.sub Num.opp Num.add]. rewrite div_fin by discriminate.
      apply (partial_score (operational_hours m) (inject_Z 3000)
               ((operational_hours m + - inject_Z 3000) / inject_Z 50)).
      + change (inject_Z 3000) with 3000. change (inject_Z 50) with 50.
        intros H. apply Qle_shift_div_l; lra.
      + exact Hm. }
  destruct Ht as [Ht Ht100], Hv as [Hv Hv100], Hh as [Hh Hh100].
  destruct (np_mean_between ts 0 100 (Hlen _) Ht) as (mt & Emt & Hmt).
  destruct (np_mean_between vs 0 100 (Hlen _) Hv) as (mv & Emv & Hmv).
  destruct (np_mean_between hs 0 100 (Hlen _) Hh) as (mh & Emh & Hmh).
  rewrite Emt, Emv, Emh. unfold dec. cbn [Num.mul Num.add].
  eexists. split; [reflexivity|]. split; [lra|].
  intros Hideal.
  assert (H1 : Forall (fun m => temperature m <= 75) (rows machine_data))
    by (eapply Forall_impl; [|exact Hideal]; tauto).
  assert (H2 : Forall (fun m => vibration m <= 25 # 10) (rows machine_data))
    by (eapply Forall_impl; [|exact Hideal]; tauto).
  assert (H3 : Forall (fun m => operational_hours m <= 3000) (rows machine_data))
    by (eapply Forall_impl; [|exact Hideal]; tauto).
  destruct (np_mean_between ts 100 100 (Hlen _) (Ht100 H1)) as (mt' & Emt' & Hmt').
  destruct (np_mean_between vs 100 100 (Hlen _) (Hv100 H2)) as (mv' & Emv' & Hmv').
  destruct (np_mean_between hs 100 100 (Hlen _) (Hh100 H3)) as (mh' & Emh' & Hmh').
  rewrite Emt in Emt'. rewrite Emv in Emv'. rewrite Emh in Emh'.
  injection Emt' as <-. injection Emv' as <-. injection Emh' as <-. lra.
Qed.

Lemma filter_none {A} (f : A -> bool) (l : list A) :
  List.length (filter f l) = 0%nat <-> Forall (fun x => f x = false) l.
Proof.
  induction l as [|x l IH]; cbn [filter].
  - split; [constructor|reflexivity].
  - destruct (f x) eqn:E; cbn [List.length]; split.
    + discriminate.
    + intros H. inversion H; congruence.
    + intros H. constructor; [exact E|now apply IH].
    + intros H. inversion H. now apply IH.
Qed.

(** X26: the mean time between failures is infinite exactly when no
    machine is above 85 degrees; otherwise it is a finite number, and it
    never is [nan]. *)
Theorem calculate_mtbf_infinite_without_hot_machine
  (machine_data : DataFrame machine_row) (failure_threshold : num) :
  (calculate_mtbf machine_data failure_threshold = PInf <->
   Forall (fun m => temperature m <= 85) (rows machine_data)) /\
  (calculate_mtbf machine_data failure_threshold = PInf \/
   exists q, calculate_mtbf machine_data failure_threshold = Fin q).
Proof.
  unfold calculate_mtbf, Num.sum, of_Z, len, select. cbn [rows].
  rewrite <- (map_map operational_hours Fin).
  destruct (sum_fin_from (map operational_hours (rows machine_data)) (inject_Z 0))
    as (S & -> & _).
  set (hot := fun m : machine_row => (Fin (temperature m) >? Fin (inject_Z 85))%num).
  pose proof (filter_none hot (rows machine_data)) as Hnone.
  set (k := List.length (filter hot (rows machine_data))) in *.
  assert (Hcool : Forall (fun m => hot m = false) (rows machine_data) <->
                  Forall (fun m => temperature m <= 85) (rows machine_data)).
  { split; intros H; (eapply Forall_impl; [|exact H]); intros m; subst hot;
      unfold Num.gtb; cbn [Num.ltb]; rewrite Qltb_ge;
      change (inject_Z 85) with 85; tauto. }
  unfold of_nat, of_Z, dec. cbn [Num.mul num_eqb].
  destruct (Qeq_bool (inject_Z (Z.of_nat k) * (15 # 10)) (inject_Z 0)) eqn:E.
  - split; [|now left]. split; [intros _|reflexivity].
    apply Hcool, Hnone. apply Qeq_bool_iff in E.
    change (inject_Z 0) with 0 in E.
    assert (Hk : inject_Z (Z.of_nat k) == inject_Z 0).
    { change (inject_Z 0) with 0. set (n := inject_Z (Z.of_nat k)) in *.
      clearbody n. clear -E. lra. }
    unfold Qeq in Hk. cbn in Hk. clearbody k. clear -Hk. lia.
  - assert (Hk : k <> 0%nat).
    { intros Hk. rewrite Hk in E. discriminate. }
    rewrite div_fin.
    + split; [|right; eauto]. split; [discriminate|].
      intros H. apply Hcool, Hnone in H. contradiction.
    + apply Qeq_bool_neq in E. exact E.
Qed.

(** A sum of numbers that are not negative is the start value when all
    of them are zero, and above it when one of them is positive. *)
Lemma sum_zero_or_positive (l : list Q) (a : Q) :
  Forall (fun x => 0 <= x) l ->
  exists S, fold_left Num.add (map Fin l) (Fin a) = Fin S /\
            ((S == a /\ Forall (fun x => x == 0) l) \/
             (a < S /\ Exists (fun x => 0 < x) l)).
Proof.
  intros Hall. revert a. induction Hall as [|x l Hx _ IH]; intros a.
  - exists a. split; [reflexivity|]. left. split; [reflexivity|constructor].
  - destruct (IH (a + x)) as (S & HS & Hcase). exists S.
    split; [exact HS|]. destruct Hcase as [[HSa Hz]|[HSa Hp]].
    + destruct (Qlt_le_dec 0 x) as [Hpos|Hle].
      * right. split; [lra|]. now constructor.
      * left. split; [lra|]. constructor; [lra|exact Hz].
    + right. split; [lra|]. now apply Exists_cons_tl.
Qed.

(** The mean of positive numbers is positive. *)
Lemma np_mean_positive (l : list Q) :
  l <> [] -> Forall (fun x => 0 < x) l ->
  exists m, np_mean (map Fin l) = Fin m /\ 0 < m.
Proof.
  intros Hne Hall. unfold np_mean, Num.sum, of_Z.
  destruct (sum_fin_from l (inject_Z 0)) as (S & -> & HS).
  rewrite length_map. unfold of_nat, of_Z.
  assert (Hn : 0 < inject_Z (Z.of_nat (List.length l))).
  { change 0 with (inject_Z 0). rewrite <- Zlt_Qlt.
    destruct l; [congruence|cbn [List.length]; lia]. }
  set (n := inject_Z (Z.of_nat (List.length l))) in *. clearbody n.
  rewrite div_fin by lra. eexists; split; [reflexivity|].
  destruct HS as [_ HS].
  { eapply Forall_impl; [|exact Hall]. intros x Hx. cbv beta in *. lra. }
  destruct l as [|x l]; [congruence|].
  inversion HS; subst. inversion Hall; subst.
  change (inject_Z 0) with 0 in *.
  apply Qlt_shift_div_l; [exact Hn|]. lra.
Qed.

(** X27: with the estimated demand, when no stock is negative and every
    unit cost is positive, the days of inventory computed from the
    turnover are never an error: they are infinite when every stock is
    zero, and a positive number when some product is in stock. *)
Theorem calculate_days_of_inventory_of_estimated_turnover
  (inventory_data : DataFrame inventory_row) :
  Forall (fun p => 0 <= current_stock p /\ 0 < unit_cost p)
         (rows inventory_data) ->
  (Forall (fun p => current_stock p == 0) (rows inventory_data) /\
   calculate_days_of_inventory
     (calculate_inventory_turnover inventory_data None) = Ok PInf) \/
  (Exists (fun p => 0 < current_stock p) (rows inventory_data) /\
   exists q,
     calculate_days_of_inventory
       (calculate_inventory_turnover inventory_data None) = Ok (Fin q) /\
     0 < q).
Proof.
  intros Hall. unfold calculate_inventory_turnover.
  assert (Hvalues :
    map (fun p => (Fin (current_stock p) * Fin (unit_cost p))%num)
        (rows inventory_data) =
    map Fin (map (fun p => current_stock p * unit_cost p) (rows inventory_data)))
    by (rewrite map_map; reflexivity).
  rewrite Hvalues. clear Hvalues. unfold Num.sum.
  change (of_Z 0) with (Fin (inject_Z 0)).
  destruct (sum_zero_or_positive
              (map (fun p => current_stock p * unit_cost p) (rows inventory_data))
              (inject_Z 0)) as (V & -> & Hcase).
  { apply Forall_map. eapply Forall_impl; [|exact Hall].
    intros p [H1 H2]. apply Qmult_le_0_compat; lra. }
  change (inject_Z 0) with 0 in Hcase.
  destruct Hcase as [[HV Hz]|[HV Hp]].
  - left. split.
    + apply Forall_map in Hz. rewrite Forall_forall in *. intros p Hin.
      specialize (Hz p Hin). destruct (Hall p Hin) as [H1 H2].
      destruct (Qmult_integral _ _ Hz) as [H|H]; [exact H|lra].
    + unfold of_Z, num_eqb at 1.
      replace (Qeq_bool V (inject_Z 0)) with true
        by (symmetry; apply Qeq_bool_iff; exact HV).
      reflexivity.
  - right. split.
    + rewrite Exists_exists in *.
      destruct Hp as (v & Hv & Hpos). apply in_map_iff in Hv.
      destruct Hv as (p & <- & Hin). exists p. split; [exact Hin|].
      rewrite Forall_forall in Hall. destruct (Hall p Hin) as [H1 H2].
      destruct (Qlt_le_dec 0 (current_stock p)) as [H|H]; [exact H|].
      assert (H0 : current_stock p == 0) by lra.
      rewrite H0 in Hpos. lra.
    + assert (Hne : rows inventory_data <> []).
      { intros E. rewrite E in Hp. inversion Hp. }
      rewrite <- (map_map unit_cost Fin).
      destruct (np_mean_positive (map unit_cost (rows inventory_data)))
        as (m & -> & Hm).
      { intros E. apply map_eq_nil in E. contradiction. }
      { apply Forall_map. eapply Forall_impl; [|exact Hall].
        intros p Hp'. exact (proj2 Hp'). }
      unfold len, of_Z. cbn [Num.mul num_eqb].
      assert (Hn : 0 < inject_Z (365 * 10 * Z.of_nat (List.length (rows inventory_data)))).
      { change 0 with (inject_Z 0). rewrite <- Zlt_Qlt.
        destruct (rows inventory_data); [congruence|cbn [List.length]; lia]. }
      set (n := inject_Z _) in *. clearbody n.
      replace (Qeq_bool V (inject_Z 0)) with false
        by (symmetry; apply not_true_is_false; intros E;
            apply Qeq_bool_iff in E; change (inject_Z 0) with 0 in E; lra).
      rewrite div_fin by lra.
      assert (Ht : 0 < n * m / V).
      { apply Qlt_shift_div_l; [exact HV|].
        assert (0 < n * m) by (apply Qmult_lt_0_compat; assumption). lra. }
      set (t := n * m / V) in *. clearbody t.
      unfold calculate_days_of_inventory, of_Z. cbn [num_eqb].
      assert (Hz : Qeq_bool t (inject_Z 0) = false).
      { apply not_true_is_false. intros E. apply Qeq_bool_iff in E.
        change (inject_Z 0) with 0 in E. lra. }
      rewrite Hz. unfold true_div, Num.is_zero.
      change (inject_Z 0) with 0 in Hz. rewrite Hz.
      rewrite div_fin by lra. eexists. split; [reflexivity|].
      apply Qlt_shift_div_l; [exact Ht|]. change (inject_Z 365) with 365. lra.
Qed.

(** X28: for a part of a whole, [0 <= part <= whole], the fill rate and
    the warehouse utilization are percentages between 0 and 100 and never
    an error; they agree when the whole is positive, and for a whole of
    zero the fill rate is 100 and the utilization 0. *)
Theorem calculate_fill_rate_and_utilization_percentages (part whole : Q) :
  0 <= part <= whole ->
  exists f u,
    calculate_fill_rate (Fin part) (Fin whole) = Ok (Fin f) /\
    calculate_warehouse_utilization (Fin part) (Fin whole) = Ok (Fin u) /\
    0 <= f <= 100 /\ 0 <= u <= 100 /\
    (0 < whole -> f == u) /\
    (whole == 0 -> f == 100 /\ u == 0).
Proof.
  intros [Hp Hw]. unfold calculate_fill_rate, calculate_warehouse_utilization.
  unfold of_Z. cbn [num_eqb]. change (inject_Z 0) with 0.
  destruct (Qeq_bool whole 0) eqn:E.
  - apply Qeq_bool_iff in E. exists (inject_Z 100), 0.
    change (inject_Z 100) with 100.
    split; [reflexivity|]. split; [reflexivity|].
    split; [lra|]. split; [lra|]. split; intros H; lra.
  - assert (Hpos : 0 < whole).
    { apply Qeq_bool_neq in E. destruct (Qlt_le_dec 0 whole) as [H|H];
        [exact H|]. exfalso. apply E. lra. }
    unfold true_div, Num.is_zero. rewrite E. rewrite div_fin by lra.
    cbn [Num.mul]. change (inject_Z 100) with 100.
    exists (part / whole * 100), (part / whole * 100).
    assert (H0 : 0 <= part / whole) by (apply Qle_shift_div_l; lra).
    assert (H1 : part / whole <= 1) by (apply Qle_shift_div_r; lra).
    split; [reflexivity|]. split; [reflexivity|].
    split; [lra|]. split; [lra|]. split; intros H; [reflexivity|lra].
Qed.

End calculations_facts.

(** ** utils/data_processing.py: filling missing values *)

Section preprocess_facts.

Import data_processing.

Lemma Forall2_rev {A B} (R : A -> B -> Prop) (l : list A) (l' : list B) :
  Forall2 R l l' -> Forall2 R (rev l) (rev l').
Proof.
  induction 1 as [|x y l l' Hxy _ IH]; cbn [rev]; [constructor|].
  apply Forall2_app; [exact IH|]. now repeat constructor.
Qed.

Lemma Forall2_map_r {A B} (R : A -> B -> Prop) (f : A -> B) (l : list A) :
  (forall x, In x l -> R x (f x)) -> Forall2 R l (map f l).
Proof.
  induction l as [|x l IH]; intros H; cbn [map]; constructor.
  - apply H. now left.
  - apply IH. intros y Hy. apply H. now right.
Qed.

(** Forward filling keeps every value that is present. *)
Lemma ffill_from_keeps (prev : option num) (l : list num) :
  Forall2 (fun x x' => isna x = false -> x' = x) l (ffill_from prev l).
Proof.
  revert prev. induction l as [|x l IH]; intros prev; cbn [ffill_from];
    [constructor|].
  destruct (isna x) eqn:E; constructor; try apply IH; congruence.
Qed.

(** After a value that is present, forward filling leaves nothing missing. *)
Lemma ffill_from_some (p : num) (l : list num) :
  isna p = false ->
  Forall (fun x => isna x = false) (ffill_from (Some p) l).
Proof.
  revert p. induction l as [|x l IH]; intros p Hp; cbn [ffill_from];
    [constructor|].
  destruct (isna x) eqn:E; constructor; auto.
Qed.

(** Forward filling leaves missing values only at the start of the
    column. *)
Lemma ffill_split (l : list num) :
  exists nans rest,
    ffill l = (nans ++ rest)%list /\
    Forall (fun x => isna x = false) rest /\
    (Exists (fun x => isna x = false) l -> rest <> []).
Proof.
  unfold ffill. induction l as [|x l IH]; cbn [ffill_from].
  - exists [], []. split; [reflexivity|]. split; [constructor|].
    intros H. inversion H.
  - destruct (isna x) eqn:E.
    + destruct IH as (nans & rest & -> & Hrest & Hne).
      exists (x :: nans), rest. split; [reflexivity|]. split; [exact Hrest|].
      intros H. inversion H; subst; [congruence|auto].
    + exists [], (x :: ffill_from (Some x) l). split; [reflexivity|].
      split; [|discriminate]. constructor; [exact E|].
      now apply ffill_from_some.
Qed.

Lemma bfill_keeps (l : list num) :
  Forall2 (fun x x' => isna x = false -> x' = x) l (bfill l).
Proof.
  unfold bfill, ffill. rewrite <- (rev_involutive l) at 1.
  apply Forall2_rev, ffill_from_keeps.
Qed.

(** Backward filling a column whose values are present from some row
    on leaves nothing missing. *)
Lemma bfill_clean (nans rest : list num) :
  Forall (fun x => isna x = false) rest -> rest <> [] ->
  Forall (fun x => isna x = false) (bfill (nans ++ rest)).
Proof.
  intros Hrest Hne. unfold bfill, ffill. apply Forall_rev.
  rewrite rev_app_distr. apply Forall_rev in Hrest.
  destruct (rev rest) as [|y t] eqn:E.
  - apply (f_equal (@rev num)) in E. rewrite rev_involutive in E.
    cbn in E. contradiction.
  - inversion Hrest as [|? ? Hy _]; subst. cbn [app ffill_from]. rewrite Hy.
    constructor; [exact Hy|]. now apply ffill_from_some.
Qed.

(** Forward filling and then backward filling one column. *)
Lemma fill_both_ways (l : list num) :
  Forall2 (fun x x' => isna x = false -> x' = x) l (bfill (ffill l)) /\
  (Exists (fun x => isna x = false) l ->
   Forall (fun x => isna x = false) (bfill (ffill l))).
Proof.
  split.
  - pose proof (ffill_from_keeps None l) as H1.
    pose proof (bfill_keeps (ffill l)) as H2. unfold ffill in *.
    revert H2. generalize (bfill (ffill_from None l)).
    induction H1 as [|x y l1 l2 Hxy _ IH]; intros l3 H2;
      inversion H2 as [|? z ? l4 Hyz H4]; subst; constructor.
    + intros Hx. specialize (Hxy Hx). subst y. auto.
    + now apply IH.
  - intros Hex. destruct (ffill_split l) as (nans & rest & -> & Hrest & Hne).
    apply bfill_clean; auto.
Qed.

(** X29: without columns to normalise, [preprocess_data] returns a frame
    with the same columns in which every value that was present is kept
    in its place, and a numeric column with at least one value has no
    missing value left; the other columns are returned as they are. *)
Theorem preprocess_data_fills_missing_values
  (fit_transform : list column -> result (list column)) (df : table)
  (columns_to_normalize : option (list string)) :
  columns_to_normalize = None \/ columns_to_normalize = Some [] ->
  exists df_processed,
    preprocess_data fit_transform df columns_to_normalize = Ok df_processed /\
    Forall2
      (fun c c' =>
         fst c' = fst c /\
         match snd c with
         | FloatCol l =>
             exists l',
               snd c' = FloatCol l' /\
               Forall2 (fun x x' => isna x = false -> x' = x) l l' /\
               (Exists (fun x => isna x = false) l ->
                Forall (fun x => isna x = false) l')
         | other => snd c' = other
         end)
      df df_processed.
Proof.
  intros Hcols. exists (fillna bfill (fillna ffill df)). split.
  - unfold preprocess_data. now destruct Hcols as [-> | ->].
  - unfold fillna. rewrite map_map. apply Forall2_map_r.
    intros [name c] _. cbn [fst snd]. split; [reflexivity|].
    destruct c as [l|l|l|l]; try reflexivity.
    exists (bfill (ffill l)). split; [reflexivity|]. apply fill_both_ways.
Qed.

End preprocess_facts.

(** ** utils/data_processing.py: outliers *)

Section outlier_facts.

Import data_processing.
Local Open Scope Q_scope.

Lemma insert_sorted_Forall (P : Q -> Prop) (x : Q) (l : list Q) :
  P x -> Forall P l -> Forall P (insert_sorted x l).
Proof.
  intros Hx Hl. induction Hl as [|y l Hy Hl IH]; cbn [insert_sorted].
  - now repeat constructor.
  - destruct (Qle_bool x y); repeat constructor; assumption.
Qed.

Lemma insert_sorted_sorted (x : Q) (l : list Q) :
  StronglySorted Qle l -> StronglySorted Qle (insert_sorted x l).
Proof.
  induction 1 as [|y l Hs IH Hy]; cbn [insert_sorted].
  - repeat constructor.
  - destruct (Qle_bool x y) eqn:E.
    + apply Qle_bool_iff in E. constructor; [now constructor|].
      constructor; [exact E|]. eapply Forall_impl; [|exact Hy].
      intros z Hz. cbv beta in *. lra.
    + assert (Hyx : y <= x).
      { destruct (Qlt_le_dec x y) as [H|H]; [|exact H].
        apply Qlt_le_weak, Qle_bool_iff in H. congruence. }
      constructor; [exact IH|]. now apply insert_sorted_Forall.
Qed.

Lemma sort_values_sorted (l : list Q) : StronglySorted Qle (sort_values l).
Proof.
  unfold sort_values. induction l as [|x l IH]; cbn [fold_right].
  - constructor.
  - now apply insert_sorted_sorted.
Qed.

(** In a sorted list a later element is not smaller. *)
Lemma sorted_nth_le (s : list Q) (d1 d2 : Q) (i j : nat) :
  StronglySorted Qle s -> (i <= j)%nat -> (j < List.length s)%nat ->
  nth i s d1 <= nth j s d2.
Proof.
  intros Hs. revert i j. induction Hs as [|x l Hs IH Hx]; intros i j Hij Hj.
  - cbn [List.length] in Hj. lia.
  - cbn [List.length] in Hj. destruct i as [|i], j as [|j]; cbn [nth].
    + lra.
    + rewrite Forall_forall in Hx. apply Hx, nth_In. lia.
    + lia.
    + apply IH; lia.
Qed.

(** The interpolation of [quantile] on a sorted list grows with the
    probability. *)
Lemma interpolation_monotone (s : list Q) (first q1 q2 : Q) :
  StronglySorted Qle s -> s <> [] -> 0 <= q1 -> q1 <= q2 -> q2 <= 1 ->
  let value := fun q =>
    let position := inject_Z (Z.of_nat (List.length s) - 1) * q in
    let lower := Z.to_nat (Qfloor position) in
    let fraction := position - inject_Z (Qfloor position) in
    let a := nth lower s first in
    let b := nth (S lower) s a in
    a + (b - a) * fraction in
  value q1 <= value q2.
Proof.
  intros Hs Hne H0 H12 H1. cbv beta zeta.
  assert (Hlen : (1 <= Z.of_nat (List.length s))%Z).
  { destruct s; [congruence|cbn [List.length]; lia]. }
  set (n := Z.of_nat (List.length s)) in *.
  assert (HN : 0 <= inject_Z (n - 1)).
  { change 0 with (inject_Z 0). rewrite <- Zle_Qle. lia. }
  set (p1 := inject_Z (n - 1) * q1). set (p2 := inject_Z (n - 1) * q2).
  assert (Hp1 : 0 <= p1) by (apply Qmult_le_0_compat; assumption).
  assert (Hp12 : p1 <= p2).
  { unfold p1, p2. assert (0 <= inject_Z (n - 1) * (q2 - q1))
      by (apply Qmult_le_0_compat; lra). lra. }
  assert (Hp2 : p2 <= inject_Z (n - 1)).
  { unfold p2. assert (0 <= inject_Z (n - 1) * (1 - q2))
      by (apply Qmult_le_0_compat; lra). lra. }
  assert (Hk1 : (0 <= Qfloor p1)%Z).
  { rewrite <- (Qfloor_Z 0). now apply Qfloor_resp_le. }
  assert (Hk12 : (Qfloor p1 <= Qfloor p2)%Z) by now apply Qfloor_resp_le.
  assert (Hk2 : (Qfloor p2 <= n - 1)%Z).
  { rewrite <- (Qfloor_Z (n - 1)). now apply Qfloor_resp_le. }
  pose proof (Qfloor_le p1) as Hf1. pose proof (Qlt_floor p1) as Hf1'.
  pose proof (Qfloor_le p2) as Hf2. pose proof (Qlt_floor p2) as Hf2'.
  rewrite inject_Z_plus in Hf1', Hf2'. change (inject_Z 1) with 1 in Hf1', Hf2'.
  set (k1 := Qfloor p1) in *. set (k2 := Qfloor p2) in *.
  clearbody k1 k2. clearbody p1 p2.
  assert (Hnext : forall k, (0 <= k <= n - 1)%Z ->
            nth (Z.to_nat k) s first
            <= nth (S (Z.to_nat k)) s (nth (Z.to_nat k) s first)).
  { intros k Hk.
    destruct (Nat.lt_ge_cases (S (Z.to_nat k)) (List.length s)) as [Hin|Hout].
    - apply sorted_nth_le; [exact Hs|lia|exact Hin].
    - rewrite (nth_overflow s _ Hout). lra. }
  pose proof (Hnext k1 ltac:(lia)) as Hab1.
  pose proof (Hnext k2 ltac:(lia)) as Hab2.
  destruct (Z.eq_dec k1 k2) as [Heq|Hneq].
  - subst k2.
    set (a := nth (Z.to_nat k1) s first) in *.
    set (b := nth (S (Z.to_nat k1)) s a) in *.
    assert (Hprod : 0 <= (b - a) * (p2 - p1))
      by (apply Qmult_le_0_compat; lra).
    clearbody a b. clear -Hprod. set (z := inject_Z k1) in *. clearbody z.
    nra.
  - assert (Hmid : nth (S (Z.to_nat k1)) s (nth (Z.to_nat k1) s first)
                   <= nth (Z.to_nat k2) s first).
    { apply sorted_nth_le; [exact Hs|lia|lia]. }
    set (a1 := nth (Z.to_nat k1) s first) in *.
    set (b1 := nth (S (Z.to_nat k1)) s a1) in *.
    set (a2 := nth (Z.to_nat k2) s first) in *.
    set (b2 := nth (S (Z.to_nat k2)) s a2) in *.
    assert (Hlow : 0 <= (b1 - a1) * (1 - (p1 - inject_Z k1)))
      by (apply Qmult_le_0_compat; lra).
    assert (Hhigh : 0 <= (b2 - a2) * (p2 - inject_Z k2))
      by (apply Qmult_le_0_compat; lra).
    clearbody a1 b1 a2 b2.
    clear -Hlow Hhigh Hmid.
    set (z1 := inject_Z k1) in *. set (z2 := inject_Z k2) in *.
    clearbody z1 z2. nra.
Qed.

(** The quantiles of a column: all [nan] when the column has no value,
    otherwise finite and growing with the probability. *)
Lemma quantile_cases (values : list Q) :
  (forall q, quantile q values = NaN) \/
  exists value : Q -> Q,
    (forall q, quantile q values = Fin (value q)) /\
    forall q1 q2, 0 <= q1 -> q1 <= q2 -> q2 <= 1 -> value q1 <= value q2.
Proof.
  unfold quantile. pose proof (sort_values_sorted values) as Hs.
  destruct (sort_values values) as [|first rest]; [now left|right].
  eexists (fun q => _). split; [intros q; reflexivity|].
  intros q1 q2 H0 H12 H1.
  apply (interpolation_monotone (first :: rest) first q1 q2);
    [exact Hs|discriminate|assumption..].
Qed.

Lemma ltb_weaken (x : num) (a b : Q) :
  a <= b -> (x <? Fin a)%num = true -> (x <? Fin b)%num = true.
Proof.
  intros Hab. destruct x; cbn [Num.ltb]; try congruence.
  rewrite !Qltb_lt. lra.
Qed.

Lemma gtb_weaken (x : num) (a b : Q) :
  b <= a -> (x >? Fin a)%num = true -> (x >? Fin b)%num = true.
Proof.
  intros Hab. unfold Num.gtb. destruct x; cbn [Num.ltb]; try congruence.
  rewrite !Qltb_lt. lra.
Qed.

(** X30: with a threshold that is not negative, on a numeric column
    without infinite values, the interquartile rule flags a value only if
    it is below the first or above the third quartile of the column; the
    mask has one flag for every row. *)
Theorem detect_outliers_iqr_flags_outside_quartiles
  (zscore : list num -> list num) (df : table) (column : string)
  (threshold : Q) (c : Frames.column) (values : list Q) :
  get_column column df = Some c ->
  numeric_values c = Some values ->
  Forall (fun x => x <> PInf /\ x <> NInf) (cells c) ->
  0 <= threshold ->
  exists outliers,
    detect_outliers zscore df column "iqr" threshold = Ok outliers /\
    Forall2
      (fun x flag =>
         flag = true ->
         (x <? quantile (25 # 100) values)%num = true \/
         (x >? quantile (75 # 100) values)%num = true)
      (cells c) outliers.
Proof.
  intros Hc Hvalues _ Ht. unfold detect_outliers.
  change (String.eqb "iqr" "iqr") with true. cbv iota.
  rewrite Hc, Hvalues. eexists. split; [reflexivity|].
  apply Forall2_map_r. intros x _.
  destruct (quantile_cases values) as [Hnan|(value & Hfin & Hmono)].
  - rewrite !Hnan. cbn [Num.sub Num.opp Num.add Num.mul].
    unfold Num.gtb. now destruct x.
  - rewrite !Hfin. cbn [Num.sub Num.opp Num.add Num.mul].
    pose proof (Hmono (25 # 100) (75 # 100)) as Hq.
    assert (H13 : value (25 # 100) <= value (75 # 100)) by (apply Hq; lra).
    set (v1 := value (25 # 100)) in *. set (v3 := value (75 # 100)) in *.
    assert (Hw : 0 <= threshold * (v3 - v1))
      by (apply Qmult_le_0_compat; lra).
    intros Hflag. apply orb_true_iff in Hflag. destruct Hflag as [H|H].
    + left. revert H. apply ltb_weaken. clearbody v1 v3. clear -Hw. lra.
    + right. revert H. apply gtb_weaken. clearbody v1 v3. clear -Hw. lra.
Qed.

End outlier_facts.

(** ** utils/data_processing.py: reading the files *)

Section load_data_more.

Import data_processing.
Context {L : Library}.
Local Open Scope string_scope.

Lemma has_column_get_column (name : string) (df : table) :
  has_column name df = true <-> exists c, get_column name df = Some c.
Proof.
  unfold has_column, get_column. induction df as [|[n v] df IH]; cbn.
  - split; [discriminate|]. intros [c H]. discriminate.
  - destruct (String.eqb n name); cbn; [|exact IH].
    split; [eauto|reflexivity].
Qed.

Lemma get_set_column_same (name : string) (c : column) (df : table) :
  get_column name (set_column name c df) = Some c.
Proof.
  unfold get_column. induction df as [|[n v] df IH]; cbn.
  - now rewrite String.eqb_refl.
  - destruct (String.eqb n name) eqn:E; cbn; rewrite E; [reflexivity|exact IH].
Qed.

Lemma get_set_column_other (name other : string) (c : column) (df : table) :
  other <> name ->
  get_column other (set_column name c df) = get_column other df.
Proof.
  intros Hne. unfold get_column. induction df as [|[n v] df IH]; cbn.
  - apply String.eqb_neq in Hne. rewrite String.eqb_sym in Hne.
    now rewrite Hne.
  - destruct (String.eqb n name) eqn:E; cbn.
    + apply String.eqb_eq in E. subst n.
      apply String.eqb_neq in Hne. rewrite String.eqb_sym in Hne.
      now rewrite Hne.
    + destruct (String.eqb n other); [reflexivity|exact IH].
Qed.

Lemma set_column_keeps_names (name : string) (c : column) (df : table) :
  has_column name df = true ->
  map fst (set_column name c df) = map fst df.
Proof.
  unfold has_column. induction df as [|[n v] df IH]; cbn; [discriminate|].
  destruct (String.eqb n name); cbn; [reflexivity|].
  intros H. now rewrite IH.
Qed.

(** X5: when the four files are read and the dates of the demand
    history are parsed, [load_data] returns the frames that were read and
    leaves the random generator as it was; of the demand frame only the
    [date] column is replaced, by the parsed dates, and the columns keep
    their names and order. *)
Theorem load_data_returns_files (fs : filesystem) (now : Z) (s : rng)
  (inventory_df machines_df demand_df operations_df : table)
  (dates parsed : column) :
  fs "data/inventory_data.csv" = Ok inventory_df ->
  fs "data/machinery_data.csv" = Ok machines_df ->
  fs "data/demand_history.csv" = Ok demand_df ->
  fs "data/operations_data.csv" = Ok operations_df ->
  get_column "date" demand_df = Some dates ->
  to_datetime dates = Ok parsed ->
  exists demand_df',
    load_data fs now s =
      (Ok (inventory_df, machines_df, demand_df', operations_df), s) /\
    get_column "date" demand_df' = Some parsed /\
    map fst demand_df' = map fst demand_df /\
    forall name, name <> "date" ->
      get_column name demand_df' = get_column name demand_df.
Proof.
  intros Hi Hm Hd Ho Hdates Hparsed.
  assert (Hhas : has_column "date" demand_df = true)
    by (apply has_column_get_column; eauto).
  exists (set_column "date" parsed demand_df). split; [|split; [|split]].
  - rewrite load_data_handles_only_missing_files.
    unfold read_all, bind, lift, ret.
    rewrite Hi, Hm, Hd, Ho, Hhas, Hdates, Hparsed. reflexivity.
  - apply get_set_column_same.
  - now apply set_column_keeps_names.
  - intros name Hname. now apply get_set_column_other.
Qed.

End load_data_more.

(** ** Further instances *)

Section more_instances.

Local Open Scope string_scope.
Local Open Scope Q_scope.

(** The risk score of the sample frames. *)
Lemma calculate_risk_score_between_5_and_95_witness :
  rows sample_machines <> [] /\
  rows sample_inventory <> [] /\
  exists q s',
    decision_engine.calculate_risk_score sample_machines sample_inventory toy_rng
      = (Ok (Fin q), s') /\
    5 <= q /\ q <= 95.
Proof.
  split; [discriminate|]. split; [discriminate|].
  apply calculate_risk_score_between_5_and_95; discriminate.
Defined.

(** The remaining useful life of a machine after 6200 hours, on day
    20000. *)
Lemma estimate_rul_at_least_one_day_witness :
  (datetime_min_day <= 20000)%Z /\
  inject_Z 20000 + 1 <= inject_Z datetime_max_day /\
  inject_Z 20000 + (10000 - 6200) / 24 <= inject_Z datetime_max_day /\
  exists r s',
    maintenance_models.estimate_rul 20000
      (mk_machine 1 "Mixing Station Alpha" (912 # 10) (41 # 10) 6200 20000)
      toy_rng = (Ok r, s') /\
    (of_Z 24 <= maintenance_models.rul_hours r)%num.
Proof.
  split; [discriminate|]. split; [discriminate|]. split; [discriminate|].
  destruct (estimate_rul_at_least_one_day 20000
              (mk_machine 1 "Mixing Station Alpha" (912 # 10) (41 # 10) 6200 20000)
              toy_rng)
    as (r & s' & H1 & H2 & _); try discriminate.
  exists r, s'. split; [exact H1 | exact H2].
Defined.

(** C9 as stated fails: for a machine whose operational hours are a
    hundred million below zero, the maintenance date is after
    9999-12-31 and [estimate_rul] raises [OverflowError]. *)
Lemma estimate_rul_raises_beyond_last_date :
  fst (maintenance_models.estimate_rul 20000
         (mk_machine 3 "Baking Oven Line 1" (701 # 10) (12 # 10)
                     (- (100000000)) 20050)
         toy_rng)
  = Raise OverflowError.
Proof. vm_compute. reflexivity. Qed.

(** The bounds of that estimate. *)
Lemma estimate_rul_bounds_witness :
  (datetime_min_day <= 20000)%Z /\
  inject_Z 20000 + (10000 - 3100) / 24 <= inject_Z datetime_max_day /\
  exists r s' hrs c,
    maintenance_models.estimate_rul 20000
      (mk_machine 2 "Dough Forming Line" (823 # 10) (21 # 10) 3100 20025)
      toy_rng = (Ok r, s') /\
    maintenance_models.rul_hours r = Fin hrs /\
    24 <= hrs /\
    maintenance_models.confidence r = Fin c /\
    (75 # 100) <= c /\ c <= (95 # 100).
Proof.
  split; [discriminate|]. split; [discriminate|].
  destruct (estimate_rul_bounds 20000
              (mk_machine 2 "Dough Forming Line" (823 # 10) (21 # 10) 3100 20025)
              toy_rng)
    as (r & s' & hrs & c & d & H1 & H2 & H3 & _ & H5 & H6 & H7 & _);
    try discriminate.
  exists r, s', hrs, c. repeat (split; [assumption|]). assumption.
Defined.

(** The risk score without machines. *)
Lemma calculate_risk_score_of_empty_frame_witness :
  rows (frame_of (@nil machine_row)) = [] /\
  fst (decision_engine.calculate_risk_score (frame_of []) sample_inventory toy_rng)
  = Ok (of_Z 100).
Proof.
  split; [reflexivity|].
  apply calculate_risk_score_of_empty_frame. left. reflexivity.
Defined.

(** Loading the four sample files. *)
Lemma load_data_returns_files_witness :
  sample_files "data/demand_history.csv" =
    Ok [("date", DateCol [20000; 20001]%Z); ("product_id", IntCol [2; 2]%Z);
        ("demand", IntCol [9; 11]%Z)] /\
  exists demand_df',
    data_processing.load_data (L := toy_library) sample_files 20100 toy_rng =
      (Ok (sample_readings, sample_readings, demand_df', sample_readings),
       toy_rng) /\
    get_column "date" demand_df' = Some (DateCol [20000; 20001]%Z).
Proof.
  split; [reflexivity|].
  destruct (load_data_returns_files (L := toy_library) sample_files 20100 toy_rng
              sample_readings sample_readings
              [("date", DateCol [20000; 20001]%Z); ("product_id", IntCol [2; 2]%Z);
               ("demand", IntCol [9; 11]%Z)]
              sample_readings
              (DateCol [20000; 20001]%Z) (DateCol [20000; 20001]%Z))
    as (d & H1 & H2 & _); try reflexivity.
  exists d. split; [exact H1 | exact H2].
Defined.

(** The order quantities of a product that costs 12.5. *)
Lemma calculate_reorder_point_quantities_witness :
  0 < unit_cost (mk_product 1 "Wheat Flour Premium" 60 90 5 (125 # 10)) /\
  exists r s' e q,
    demand_forecasting.calculate_reorder_point (L := toy_library)
      (mk_product 1 "Wheat Flour Premium" 60 90 5 (125 # 10)) toy_rng = (Ok r, s') /\
    demand_forecasting.economic_order_qty r = Fin e /\
    demand_forecasting.reorder_quantity r = Fin q /\
    0 <= e /\ e <= q.
Proof.
  split; [reflexivity|].
  destruct (calculate_reorder_point_quantities (L := toy_library)
              (mk_product 1 "Wheat Flour Premium" 60 90 5 (125 # 10)) toy_rng
              toy_library_sqrt_nonneg)
    as (r & s' & e & q & p & H1 & H2 & H3 & _ & H5 & H6 & _); [reflexivity|].
  exists r, s', e, q. repeat (split; [assumption|]). assumption.
Defined.

(** The order quantities of a product with a negative cost. *)
Lemma calculate_reorder_point_negative_cost_witness :
  unit_cost (mk_product 1 "Wheat Flour Premium" 60 90 5 (- (125 # 10))) < 0 /\
  exists r s',
    demand_forecasting.calculate_reorder_point (L := toy_library)
      (mk_product 1 "Wheat Flour Premium" 60 90 5 (- (125 # 10))) toy_rng
      = (Ok r, s') /\
    demand_forecasting.economic_order_qty r = NaN /\
    demand_forecasting.reorder_quantity r = NaN.
Proof.
  split; [reflexivity|].
  apply (calculate_reorder_point_negative_cost (L := toy_library)). reflexivity.
Defined.

Lemma sample_inventory_stocked :
  Forall (fun p => 0 <= current_stock p /\ 0 < unit_cost p)
         (rows sample_inventory).
Proof. repeat (apply Forall_cons; [split; [discriminate|reflexivity]|]).
  apply Forall_nil.
Qed.

(** The health of the sample inventory. *)
Lemma calculate_inventory_health_range_witness :
  rows sample_inventory <> [] /\
  exists q,
    fst (demand_forecasting.calculate_inventory_health sample_inventory) = Fin q /\
    15 <= q /\ q <= 100.
Proof.
  split; [discriminate|].
  apply calculate_inventory_health_range; [discriminate|].
  eapply Forall_impl; [|exact sample_inventory_stocked].
  intros p [H1 H2]. split; [exact H1|]. apply Qlt_le_weak, H2.
Defined.

(** The rows of the second product in the sample history leave room
    for a forecast of fourteen days. *)
Lemma sample_demand_leaves_room :
  Forall (fun r => demand_product_id r = 2%Z ->
                   (- timestamp_max_day <= date r /\
                    date r + 14 <= timestamp_max_day)%Z)
         (rows sample_demand).
Proof.
  repeat (apply Forall_cons; [intros _; split; discriminate|]). apply Forall_nil.
Qed.

(** A forecast of fourteen days from the three rows of the sample
    history. *)
Lemma forecast_demand_lengths_and_signs_witness :
  (0 < 14)%Z /\
  count_rows (fun r => (demand_product_id r =? 2)%Z) sample_demand <> 1%nat /\
  exists f s',
    demand_forecasting.forecast_demand (L := toy_library) 20100
      sample_demand 2 14 toy_rng = (Ok f, s') /\
    Z.of_nat (List.length (demand_forecasting.forecast_demand_values f)) = 14%Z /\
    Z.of_nat (List.length (demand_forecasting.confidence_lower f)) = 14%Z.
Proof.
  split; [reflexivity|]. split; [discriminate|].
  destruct (forecast_demand_lengths_and_signs (L := toy_library) 20100
              sample_demand 2 14 toy_rng)
    as (f & s' & H1 & H2 & H3 & _);
    [reflexivity | discriminate | discriminate | exact sample_demand_leaves_room |].
  exists f, s'. repeat split; assumption.
Defined.

(** C6 as stated fails: with a single row of history the slope of the
    trend cannot be fitted, and a hundred thousand days ahead the
    forecast dates leave the dates pandas can hold; [forecast_demand]
    raises in both cases. *)
Lemma forecast_demand_raises_on_single_row_and_late_dates :
  (0 < 14)%Z /\
  fst (demand_forecasting.forecast_demand (L := toy_library) 20100
         (frame_of [mk_demand 20000 2 (9 # 1)]) 2 14 toy_rng)
  = Raise (OtherError "LinAlgError") /\
  (0 < 100000)%Z /\
  fst (demand_forecasting.forecast_demand (L := toy_library) 20100
         sample_demand 2 100000 toy_rng)
  = Raise (OtherError "OutOfBoundsDatetime").
Proof.
  split; [reflexivity|]. split; [vm_compute; reflexivity|].
  split; [reflexivity|]. vm_compute. reflexivity.
Qed.

(** The dates of that forecast. *)
Lemma forecast_demand_dates_follow_history_witness :
  (0 < 14)%Z /\
  count_rows (fun r => (demand_product_id r =? 2)%Z) sample_demand <> 1%nat /\
  exists f s' latest,
    demand_forecasting.forecast_demand (L := toy_library) 20100
      sample_demand 2 14 toy_rng = (Ok f, s') /\
    In latest (demand_forecasting.historical_dates f) /\
    demand_forecasting.forecast_dates f =
      map (fun i => latest + 1 + Z.of_nat i)%Z (seq 0 (Z.to_nat 14)).
Proof.
  split; [reflexivity|]. split; [discriminate|].
  destruct (forecast_demand_dates_follow_history (L := toy_library) 20100
              sample_demand 2 14 toy_rng)
    as (f & s' & latest & H1 & _ & H3 & _ & H5 & _);
    [reflexivity | discriminate | discriminate | exact sample_demand_leaves_room |].
  exists f, s', latest. repeat (split; [assumption|]). assumption.
Defined.

(** The confidence band of that forecast. *)
Lemma forecast_demand_band_holds_forecast_witness :
  (0 < 14)%Z /\
  count_rows (fun r => (demand_product_id r =? 2)%Z) sample_demand <> 1%nat /\
  exists f s' w,
    demand_forecasting.forecast_demand (L := toy_library) 20100
      sample_demand 2 14 toy_rng = (Ok f, s') /\
    0 <= w /\
    demand_forecasting.confidence_upper f =
      map (fun x => (x + Fin w)%num) (demand_forecasting.forecast_demand_values f).
Proof.
  split; [reflexivity|]. split; [discriminate|].
  destruct (forecast_demand_band_holds_forecast (L := toy_library) 20100
              sample_demand 2 14 toy_rng toy_library_sqrt_nonneg)
    as (f & s' & w & H1 & H2 & H3 & _);
    [reflexivity | discriminate | discriminate | exact sample_demand_leaves_room |].
  exists f, s', w. repeat (split; [assumption|]). assumption.
Defined.

(** The recommendations for the sample frames. *)
Lemma generate_recommendations_structure_witness :
  Forall (fun p => ~ current_stock p == 0)
         (rows (head 3 (select decision_engine.is_low_stock sample_inventory))) /\
  exists recommendations s',
    decision_engine.generate_recommendations (L := toy_library)
      sample_machines sample_inventory sample_operations toy_rng
      = (Ok recommendations, s') /\
    StronglySorted
      (fun a b => (decision_engine.priority a <= decision_engine.priority b)%Z)
      recommendations.
Proof.
  assert (H : Forall (fun p => ~ current_stock p == 0)
                (rows (head 3 (select decision_engine.is_low_stock
                                 sample_inventory)))).
  { repeat (apply Forall_cons; [discriminate|]). apply Forall_nil. }
  split; [exact H|].
  destruct (generate_recommendations_structure (L := toy_library)
              sample_machines sample_inventory sample_operations toy_rng H)
    as (r1 & r2 & r3 & r4 & r5 & s' & H1 & H2 & _).
  eexists; eexists; split; [exact H1 | exact H2].
Defined.

(** The recommendations when a product is out of stock. *)
Lemma generate_recommendations_raises_witness :
  Exists (fun p => current_stock p == 0)
         (rows (head 3 (select decision_engine.is_low_stock
                          out_of_stock_inventory))) /\
  fst (decision_engine.generate_recommendations (L := toy_library)
         sample_machines out_of_stock_inventory sample_operations
         (advance toy_rng))
  = Raise ZeroDivisionError.
Proof.
  assert (H : Exists (fun p => current_stock p == 0)
                (rows (head 3 (select decision_engine.is_low_stock
                                 out_of_stock_inventory)))).
  { apply Exists_cons_hd. reflexivity. }
  split; [exact H|].
  apply (generate_recommendations_raises (L := toy_library)). exact H.
Defined.

(** The return on an investment that costs nothing. *)
Lemma calculate_roi_with_zero_cost_witness :
  0 == 0 /\
  fst (decision_engine.calculate_roi sample_recommendation (Some (Fin 0)) toy_rng)
  = Raise ZeroDivisionError.
Proof.
  split; [reflexivity|].
  apply calculate_roi_with_zero_cost. reflexivity.
Defined.

(** The slow-moving items for a threshold of thirty days below zero. *)
Lemma identify_slow_moving_items_reports_all_witness :
  (- timestamp_max_day <= -30 < 0)%Z /\
  demand_forecasting.identify_slow_moving_items sample_inventory sample_demand (-30)
  = Ok [1; 2; 3]%Z.
Proof.
  split; [split; [discriminate|reflexivity]|].
  apply (identify_slow_moving_items_reports_all sample_inventory sample_demand (-30)).
  right. split; [split; [discriminate|reflexivity]|].
  intros d Hd. injection Hd as <-. split; discriminate.
Defined.

(** The first product has no demand in the sample history. *)
Lemma identify_slow_moving_items_reports_products_without_demand_witness :
  In (mk_product 1 "Wheat Flour Premium" 60 90 5 (125 # 10))
     (rows sample_inventory) /\
  (Z.abs 90 <= timestamp_max_day)%Z /\
  exists slow_moving,
    demand_forecasting.identify_slow_moving_items
      sample_inventory sample_demand 90 = Ok slow_moving /\
    In 1%Z slow_moving.
Proof.
  split; [left; reflexivity|]. split; [discriminate|].
  apply (identify_slow_moving_items_reports_products_without_demand
           sample_inventory sample_demand 90
           (mk_product 1 "Wheat Flour Premium" 60 90 5 (125 # 10))).
  - left. reflexivity.
  - repeat (apply Forall_cons; [discriminate|]). apply Forall_nil.
  - discriminate.
  - intros d Hd. injection Hd as <-. split; discriminate.
Defined.

(** The safety stock for a lead time of five days. *)
Lemma optimize_safety_stock_levels_witness :
  0 <= lead_time_days (mk_product 1 "Wheat Flour Premium" 60 90 5 (125 # 10)) /\
  exists low medium high,
    demand_forecasting.optimize_safety_stock (L := toy_library)
      (mk_product 1 "Wheat Flour Premium" 60 90 5 (125 # 10)) "low" = Ok low /\
    demand_forecasting.optimize_safety_stock (L := toy_library)
      (mk_product 1 "Wheat Flour Premium" 60 90 5 (125 # 10)) "medium" = Ok medium /\
    demand_forecasting.optimize_safety_stock (L := toy_library)
      (mk_product 1 "Wheat Flour Premium" 60 90 5 (125 # 10)) "high" = Ok high /\
    (0 <= low <= medium)%Z /\ (medium <= high)%Z.
Proof.
  split; [discriminate|].
  destruct (optimize_safety_stock_levels (L := toy_library)
              (mk_product 1 "Wheat Flour Premium" 60 90 5 (125 # 10))
              toy_library_sqrt_nonneg)
    as (lo & me & hi & H1 & H2 & H3 & H4 & H5 & _); [discriminate|].
  exists lo, me, hi. repeat (split; [assumption|]). assumption.
Defined.

(** The safety stock for a negative lead time. *)
Lemma optimize_safety_stock_negative_lead_time_witness :
  lead_time_days (mk_product 1 "Wheat Flour Premium" 60 90 (- (5)) (125 # 10)) < 0 /\
  demand_forecasting.optimize_safety_stock (L := toy_library)
    (mk_product 1 "Wheat Flour Premium" 60 90 (- (5)) (125 # 10)) "high"
  = Raise ValueError.
Proof.
  split; [reflexivity|].
  apply (optimize_safety_stock_negative_lead_time (L := toy_library)).
  reflexivity.
Defined.

(** The health score of the sample machines. *)
Lemma calculate_health_score_range_witness :
  rows sample_machines <> [] /\
  exists q, calculations.calculate_health_score sample_machines = Fin q /\
            0 <= q <= 100.
Proof.
  split; [discriminate|].
  destruct (calculate_health_score_range sample_machines) as (q & H1 & H2 & _);
    [discriminate|].
  exists q. split; [exact H1 | exact H2].
Defined.

(** The days of inventory of the sample inventory. *)
Lemma calculate_days_of_inventory_of_estimated_turnover_witness :
  Forall (fun p => 0 <= current_stock p /\ 0 < unit_cost p)
         (rows sample_inventory) /\
  ((Forall (fun p => current_stock p == 0) (rows sample_inventory) /\
    calculations.calculate_days_of_inventory
      (calculations.calculate_inventory_turnover sample_inventory None) = Ok PInf) \/
   (Exists (fun p => 0 < current_stock p) (rows sample_inventory) /\
    exists q,
      calculations.calculate_days_of_inventory
        (calculations.calculate_inventory_turnover sample_inventory None)
        = Ok (Fin q) /\
      0 < q)).
Proof.
  split; [exact sample_inventory_stocked|].
  apply calculate_days_of_inventory_of_estimated_turnover.
  exact sample_inventory_stocked.
Defined.

(** Three of four units delivered, three of four places used. *)
Lemma calculate_fill_rate_and_utilization_percentages_witness :
  0 <= 3 <= 4 /\
  exists f u,
    calculations.calculate_fill_rate (Fin 3) (Fin 4) = Ok (Fin f) /\
    calculations.calculate_warehouse_utilization (Fin 3) (Fin 4) = Ok (Fin u) /\
    0 <= f <= 100 /\ 0 <= u <= 100.
Proof.
  split; [split; discriminate|].
  destruct (calculate_fill_rate_and_utilization_percentages 3 4)
    as (f & u & H1 & H2 & H3 & H4 & _); [split; discriminate|].
  exists f, u. repeat (split; [assumption|]). assumption.
Defined.

(** Preprocessing the sample readings. *)
Lemma preprocess_data_fills_missing_values_witness :
  @None (list string) = None /\
  exists df_processed,
    data_processing.preprocess_data (fun c => Ok c) sample_readings None
      = Ok df_processed /\
    List.length df_processed = 3%nat.
Proof.
  split; [reflexivity|].
  destruct (preprocess_data_fills_missing_values (fun c => Ok c)
              sample_readings None)
    as (d & H1 & H2); [left; reflexivity|].
  exists d. split; [exact H1|].
  apply Forall2_length in H2. symmetry. exact H2.
Defined.

(** The outliers of the throughput column of the sample readings. *)
Lemma detect_outliers_iqr_flags_outside_quartiles_witness :
  get_column "throughput" sample_readings =
    Some (IntCol [120; 130; 125; 128; 900]%Z) /\
  0 <= 15 # 10 /\
  exists outliers,
    data_processing.detect_outliers (fun l => l) sample_readings "throughput"
      "iqr" (15 # 10) = Ok outliers /\
    List.length outliers = 5%nat.
Proof.
  split; [reflexivity|]. split; [discriminate|].
  destruct (detect_outliers_iqr_flags_outside_quartiles (fun l => l)
              sample_readings "throughput" (15 # 10)
              (IntCol [120; 130; 125; 128; 900]%Z)
              (map inject_Z [120; 130; 125; 128; 900]%Z))
    as (o & H1 & H2); try reflexivity.
  - repeat (apply Forall_cons; [split; discriminate|]). apply Forall_nil.
  - discriminate.
  - exists o. split; [exact H1|].
    apply Forall2_length in H2. symmetry. exact H2.
Defined.

End more_instances.
